(** * EMS-Pred: data container and model trainer

    A shallow embedding of [Data_Container.py] (normaliser, window
    generator, split planner, per-split dataset, periodic flow lookup) and
    of the control flow of [Model_Trainer.py] (validation-gated
    checkpointing, early stopping, final evaluation), with the properties
    stated about them.

    Conventions.  Python integers are [Z].  Floating-point values are
    modelled by exact numbers: reals for the normaliser and the metrics,
    rationals (with the infinities and NaN beside them) for losses.  The
    one place where the rounding of a float decides an integer result,
    [int(train_len * val_ratio)], is also modelled in binary64.  An
    operation that raises in Python returns [None] (or an explicit
    error).  A NumPy / torch array is a list along its first axis; the
    elements of a series are its time steps, arrays with at least one
    axis of their own ([node, channel]). *)

From Stdlib Require Import ZArith List Lia Bool String Ascii.
From Stdlib Require Import QArith Qround.
From Stdlib Require Import Floats.SpecFloat.
From Stdlib Require Import Reals Lra.
Import ListNotations.

Local Open Scope Z_scope.

(** ** Python primitives *)

Module Py.

(** [range(a, b)] *)
Definition range (a b : Z) : list Z :=
  map (fun k => a + Z.of_nat k) (seq 0 (Z.to_nat (b - a))).

Definition len {A} (l : list A) : Z := Z.of_nat (List.length l).

(** [l[k]] for an integer [k]: a negative index counts from the end, an
    index outside [[-len, len)] raises [IndexError]. *)
Definition resolve (n k : Z) : option Z :=
  if (0 <=? k) && (k <? n) then Some k
  else if (- n <=? k) && (k <? 0) then Some (k + n)
  else None.

Definition index {A} (l : list A) (k : Z) : option A :=
  match resolve (len l) k with
  | Some j => nth_error l (Z.to_nat j)
  | None => None
  end.

(** One bound of a slice [l[lo:hi]]: negative bounds count from the end,
    then the bound is clamped to [[0, len]]. *)
Definition clamp (n k : Z) : Z :=
  let k' := if k <? 0 then k + n else k in
  Z.max 0 (Z.min n k').

(** [l[lo:hi]]; never raises. *)
Definition slice {A} (l : list A) (lo hi : Z) : list A :=
  let a := clamp (len l) lo in
  let b := clamp (len l) hi in
  firstn (Z.to_nat (b - a)) (skipn (Z.to_nat a) l).

(** The positions a slice [l[lo:hi]] reads. *)
Definition slice_reads (n lo hi : Z) : list Z :=
  range (clamp n lo) (clamp n hi).

(** [max(a, b, c)] *)
Definition max3 (a b c : Z) : Z := Z.max a (Z.max b c).

(** [a // b] and [a % b]: floor division, [ZeroDivisionError] on 0. *)
Definition floordiv (a b : Z) : option Z :=
  if b =? 0 then None else Some (a / b).

Definition modulo (a b : Z) : option Z :=
  if b =? 0 then None else Some (a mod b).

(** [l.index(x)]: first position of [x], [ValueError] when absent. *)
Fixpoint list_index (x : string) (l : list string) : option Z :=
  match l with
  | [] => None
  | y :: l' =>
      if String.eqb y x then Some 0
      else option_map Z.succ (list_index x l')
  end.

(** Run a fallible action over a list, left to right, stopping at the
    first failure. *)
Fixpoint mapM {A B} (f : A -> option B) (l : list A) : option (list B) :=
  match l with
  | [] => Some []
  | a :: l' =>
      match f a with
      | None => None
      | Some b =>
          match mapM f l' with
          | None => None
          | Some bs => Some (b :: bs)
          end
      end
  end.

End Py.

(** ** DataGenerator: window generation *)

Module DataGenerator.

(** The fields set by [__init__] that windowing uses. *)
Record t := mk {
  day_timesteps : Z;
  serial_len : Z;
  daily_len : Z;
  weekly_len : Z
}.

(** [__init__]: [day_timesteps = 24 // dt], [obs_len] unpacked. *)
Definition init (dt : Z) (obs_len : Z * Z * Z) : option t :=
  let '(s, d, w) := obs_len in
  match Py.floordiv 24 dt with
  | None => None
  | Some p => Some (mk p s d w)
  end.

Inductive period := Daily | Weekly.

(** The indices [idx - p_steps*d] handed to [data[...]] by
    [get_periodic_skip_seq], in the order of the loop. *)
Definition skip_reads (g : t) (idx : Z) (p : period) : list Z :=
  match p with
  | Daily =>
      let p_steps := daily_len g * day_timesteps g in
      map (fun d => idx - p_steps * d) (Py.range 1 (daily_len g + 1))
  | Weekly =>
      let p_steps := weekly_len g * day_timesteps g * 7 in
      map (fun w => idx - p_steps * w) (Py.range 1 (weekly_len g + 1))
  end.

(** [get_periodic_skip_seq]: read each index, then reverse. *)
Definition get_periodic_skip_seq {A} (g : t) (data : list A) (idx : Z)
    (p : period) : option (list A) :=
  option_map (@rev A) (Py.mapM (Py.index data) (skip_reads g idx p)).

(** [start_idx] of [get_feats]. *)
Definition start_idx (g : t) : Z :=
  Py.max3 (serial_len g)
          (daily_len g * day_timesteps g)
          (weekly_len g * day_timesteps g * 7).

(** The target indices [get_feats] loops over. *)
Definition emitted (g : t) (K : Z) : list Z := Py.range (start_idx g) K.

Record sample (A : Type) := mk_sample {
  s_serial : list A;
  s_daily : list A;
  s_weekly : list A;
  s_y : A
}.
Arguments mk_sample {A}.
Arguments s_serial {A}.
Arguments s_daily {A}.
Arguments s_weekly {A}.
Arguments s_y {A}.

(** One iteration of the loop of [get_feats]. *)
Definition feats_at {A} (g : t) (data : list A) (i : Z)
    : option (sample A) :=
  let serial := Py.slice data (i - serial_len g) i in
  match get_periodic_skip_seq g data i Daily with
  | None => None
  | Some daily =>
      match get_periodic_skip_seq g data i Weekly with
      | None => None
      | Some weekly =>
          match Py.index data i with
          | None => None
          | Some y => Some (mk_sample serial daily weekly y)
          end
      end
  end.

(** [get_feats]: the loop; one row per emitted index. *)
Definition feats_rows {A} (g : t) (data : list A)
    : option (list (sample A)) :=
  Py.mapM (feats_at g data) (emitted g (Py.len data)).

(** The four arrays [get_feats] returns: serial, daily, weekly, y. *)
Definition get_feats {A} (g : t) (data : list A)
    : option (list (list A) * list (list A) * list (list A) * list A) :=
  option_map
    (fun rows => (map s_serial rows, map s_daily rows,
                  map s_weekly rows, map s_y rows))
    (feats_rows g data).

(** The positions of [data] that sample [i] reads for its three windows,
    after Python has resolved them ([None]: the read raises). *)
Definition resolved_reads (g : t) (K i : Z) : list (option Z) :=
  map Some (Py.slice_reads K (i - serial_len g) i)
  ++ map (Py.resolve K) (skip_reads g i Daily)
  ++ map (Py.resolve K) (skip_reads g i Weekly).

(** The time indices of one sample's history in the order in which
    [prepare_xy] lays the windows out: weekly, daily, serial, each in
    the order the window holds them. *)
Definition window_offsets (g : t) (i : Z) : list Z :=
  rev (skip_reads g i Weekly) ++ rev (skip_reads g i Daily)
  ++ Py.range (i - serial_len g) i.

End DataGenerator.

(** The synthetic series [0, 1, ..., K-1]. *)
Definition iota (K : Z) : list Z := Py.range 0 K.

(** ** EMSDataset: one split of the windowed samples *)

Inductive Mode := Train | Validate | Test.

(** The dictionary [mode_len], with its three keys. *)
Record ModeLen := mk_mode_len {
  len_train : Z;
  len_validate : Z;
  len_test : Z
}.

Definition mode_len_get (ml : ModeLen) (m : Mode) : Z :=
  match m with
  | Train => len_train ml
  | Validate => len_validate ml
  | Test => len_test ml
  end.

Module EMSDataset.

(** The feature dictionary handed to [__init__] by [get_data_loader]:
    the three signal windows, the three metadata windows (one row per
    sample each) and the raw flow cycle when there is one. *)
Record feats (A M F : Type) := mk_feats {
  f_serial : list (list A);
  f_daily : list (list A);
  f_weekly : list (list A);
  f_serial_meta : list (list M);
  f_daily_meta : list (list M);
  f_weekly_meta : list (list M);
  f_flow : option (list F)
}.
Arguments mk_feats {A M F}.
Arguments f_serial {A M F}.
Arguments f_daily {A M F}.
Arguments f_weekly {A M F}.
Arguments f_serial_meta {A M F}.
Arguments f_daily_meta {A M F}.
Arguments f_weekly_meta {A M F}.
Arguments f_flow {A M F}.

Record t (A M F : Type) := mk {
  serial_len : Z;
  daily_len : Z;
  weekly_len : Z;
  rho : Z;
  mode : Mode;
  mode_len : ModeLen;
  start_idx : Z;
  x_seq : list (list A);
  meta_seq : list (list M);
  flow : option (list F);
  output : list A
}.
Arguments mk {A M F}.
Arguments serial_len {A M F}.
Arguments daily_len {A M F}.
Arguments weekly_len {A M F}.
Arguments rho {A M F}.
Arguments mode {A M F}.
Arguments mode_len {A M F}.
Arguments start_idx {A M F}.
Arguments x_seq {A M F}.
Arguments meta_seq {A M F}.
Arguments flow {A M F}.
Arguments output {A M F}.

(** An "empty seq": a periodic window array with rows and no element in
    any of them, of shape [(n, 0)].  These are the arrays with two axes
    that [prepare_xy] leaves out (the other window arrays have the axes
    of the time steps behind their first two). *)
Definition is_empty_seq {X} (a : list (list X)) : bool :=
  match a with
  | [] => false
  | _ => forallb (fun row => match row with [] => true | _ => false end) a
  end.

(** Concatenation of two arrays along axis 1: row by row, on arrays with
    the same number of rows. *)
Fixpoint zip_rows {X} (a b : list (list X)) : option (list (list X)) :=
  match a, b with
  | [], [] => Some []
  | ra :: a', rb :: b' => option_map (cons (ra ++ rb)) (zip_rows a' b')
  | _, _ => None
  end.

(** The loop over [weekly, daily, serial] that collects the arrays with
    other than two axes, and [np.concatenate(obs, axis=1)], on the
    arrays [get_feats] builds from a series whose time steps have an
    axis of their own.  An array without rows has one axis only: it is
    collected and the concatenation fails on [axis=1].  An empty seq has
    two axes and is left out, whatever its number of rows.  Every other
    array has more than two axes (the serial one also when
    [serial_len = 0], its rows being empty slices of the series) and is
    collected, and the arrays collected must agree in their number of
    rows. *)
Definition concatenate_axis1 {X} (w d s : list (list X))
    : option (list (list X)) :=
  match w, d, s with
  | [], _, _ | _, [], _ | _, _, [] => None
  | _, _, _ =>
      match is_empty_seq w, is_empty_seq d with
      | true, true => Some s
      | false, true => zip_rows w s
      | true, false => zip_rows d s
      | false, false =>
          match zip_rows w d with
          | Some wd => zip_rows wd s
          | None => None
          end
      end
  end.

(** The split's first sample, as [prepare_xy] moves [self.start_idx]. *)
Definition split_start (m : Mode) (ml : ModeLen) (start_idx : Z) : Z :=
  match m with
  | Train => start_idx
  | Validate => start_idx + len_train ml
  | Test => start_idx + (len_train ml + len_validate ml)
  end.

(** [prepare_xy]: the moved [self.start_idx], the dictionary [x]
    ([x_seq], [meta_seq] and, when given, [flow]) and [y]. *)
Definition prepare_xy {A M F} (m : Mode) (ml : ModeLen) (start_idx : Z)
    (inputs : feats A M F) (output : list A)
    : option (Z * (list (list A) * list (list M) * option (list F))
              * list A) :=
  let start := split_start m ml start_idx in
  match concatenate_axis1 (f_weekly inputs) (f_daily inputs)
                          (f_serial inputs) with
  | None => None
  | Some xs =>
      match concatenate_axis1 (f_weekly_meta inputs) (f_daily_meta inputs)
                              (f_serial_meta inputs) with
      | None => None
      | Some ms =>
          Some (start,
                (Py.slice xs start (start + mode_len_get ml m),
                 Py.slice ms start (start + mode_len_get ml m),
                 f_flow inputs),
                Py.slice output start (start + mode_len_get ml m))
      end
  end.

(** [__init__] *)
Definition init {A M F} (inputs : feats A M F) (output : list A)
    (day_timesteps serial_len daily_len weekly_len : Z)
    (m : Mode) (ml : ModeLen) (start_idx : Z) : option (t A M F) :=
  match prepare_xy m ml start_idx inputs output with
  | None => None
  | Some (start, (xs, ms, fl), y) =>
      Some (mk serial_len daily_len weekly_len day_timesteps m ml start
               xs ms fl y)
  end.

(** [__len__] *)
Definition len {A M F} (ds : t A M F) : Z :=
  mode_len_get (mode_len ds) (mode ds).

(** [sample_y_time] of [timestamp_query]. *)
Definition sample_y_time {A M F} (ds : t A M F) (item : Z) : Z :=
  item + Py.max3 (serial_len ds) (daily_len ds * rho ds)
                 (weekly_len ds * rho ds * 7).

(** The [timestamp] values of one scale, in loop order. *)
Definition scale_times (y_time t_len factor : Z) : list Z :=
  map (fun t => y_time - t * factor) (Py.range 1 (t_len + 1)).

(** The scales zipped in the source: weekly, daily, serial. *)
Definition scales {A M F} (ds : t A M F) : list (Z * Z) :=
  [ (weekly_len ds, rho ds * 7); (daily_len ds, rho ds);
    (serial_len ds, 1) ].

(** The timestamps behind the positions of the returned window, in
    the order of the window ([P += Pt[::-1]] per scale). *)
Definition query_times {A M F} (ds : t A M F) (item : Z) : list Z :=
  flat_map (fun sc => rev (scale_times (sample_y_time ds item)
                                       (fst sc) (snd sc)))
           (scales ds).

(** One lookup: [key = timestamp % rho], then [flow[key, ...]]. *)
Definition lookup {F} (rho : Z) (flow : list F) (timestamp : Z)
    : option F :=
  match Py.modulo timestamp rho with
  | None => None
  | Some key => Py.index flow key
  end.

(** [timestamp_query] *)
Definition timestamp_query {A M F} (ds : t A M F) (flow : list F)
    (item : Z) : option (list F) :=
  let y_time := sample_y_time ds item in
  fold_left
    (fun acc sc =>
       match acc with
       | None => None
       | Some P =>
           match Py.mapM (lookup (rho ds) flow)
                         (scale_times y_time (fst sc) (snd sc)) with
           | None => None
           | Some Pt => Some (P ++ rev Pt)
           end
       end)
    (scales ds) (Some []).

(** [__getitem__]: the flow window first, then the three rows. *)
Definition getitem {A M F} (ds : t A M F) (item : Z)
    : option (list A * list M * option (list F) * A) :=
  let dyn_P :=
    match flow ds with
    | Some fl => option_map Some (timestamp_query ds fl item)
    | None => Some None
    end in
  match dyn_P with
  | None => None
  | Some P =>
      match Py.index (x_seq ds) item, Py.index (meta_seq ds) item,
            Py.index (output ds) item with
      | Some x, Some mt, Some y => Some (x, mt, P, y)
      | _, _, _ => None
      end
  end.

End EMSDataset.

(** ** DataGenerator.get_data_loader

    [get_feats] on the signal and on its metadata, then one
    [EMSDataset] per mode.  [start_idx] and [ml] are the pair computed by
    [date2len] at construction. *)

Definition get_data_loader {A M F} (g : DataGenerator.t) (start_idx : Z)
    (ml : ModeLen) (ems : list A) (meta : list M) (flow : option (list F))
    (m : Mode) : option (EMSDataset.t A M F) :=
  match DataGenerator.get_feats g ems, DataGenerator.get_feats g meta with
  | Some (serial, daily, weekly, output),
    Some (serial_meta, daily_meta, weekly_meta, _) =>
      EMSDataset.init
        (EMSDataset.mk_feats serial daily weekly
                             serial_meta daily_meta weekly_meta flow)
        output (DataGenerator.day_timesteps g)
        (DataGenerator.serial_len g) (DataGenerator.daily_len g)
        (DataGenerator.weekly_len g) m ml start_idx
  | _, _ => None
  end.

(** ** DataGenerator.date2len: split planning *)

Module Calendar.

Definition is_leap (y : Z) : bool :=
  (y mod 4 =? 0) && (negb (y mod 100 =? 0) || (y mod 400 =? 0)).

Definition days_in_month (y : Z) (m : nat) : nat :=
  match m with
  | 2%nat => if is_leap y then 29 else 28
  | 4%nat | 6%nat | 9%nat | 11%nat => 30
  | _ => 31
  end.

Definition digit (n : nat) : ascii := ascii_of_nat (48 + n).

(** [%m] and [%d]: two digits, zero padded. *)
Definition two_digits (n : nat) : string :=
  String (digit (n / 10)) (String (digit (n mod 10)) EmptyString).

(** [str(year)] for a four-digit year. *)
Definition str_year (y : Z) : string :=
  let n := Z.to_nat y in
  (two_digits (n / 100) ++ two_digits (n mod 100))%string.

(** The days of one month, formatted [%Y%m%d]. *)
Definition month_days (y : Z) (m : nat) : list string :=
  map (fun d => (str_year y ++ two_digits m ++ two_digits d)%string)
      (seq 1 (days_in_month y m)).

(** [pd.date_range(str(year)+'0101', str(year)+'1231')
      .strftime('%Y%m%d').tolist()].
    The years 1678 to 2261 are those every pandas version can
    represent in full; the model is defined for these years, and says
    nothing ([None]) about the others. *)
Definition date_range (y : Z) : option (list string) :=
  if (1678 <=? y) && (y <=? 2261)
  then Some (flat_map (month_days y) (seq 1 12))
  else None.

End Calendar.

(** [int(x)] of a float: truncation toward zero. *)
Definition py_int (q : Q) : Z := Z.quot (Qnum q) (Zpos (Qden q)).

(** Python floats: IEEE 754 binary64, rounding to nearest, ties to
    even. *)
Module B64.

Definition t : Type := spec_float.

(** [float(n)] *)
Definition of_Z (n : Z) : t := binary_normalize 53 1024 n 0 false.

Definition mul : t -> t -> t := SFmul 53 1024.
Definition div : t -> t -> t := SFdiv 53 1024.

(** The float that the quotient of two integers rounds to; for
    [n / 10^k] it is the float the decimal literal denotes. *)
Definition of_ratio (n d : Z) : t := div (of_Z n) (of_Z d).

(** The number a finite float stands for. *)
Definition to_Q (x : t) : option Q :=
  match x with
  | S754_zero _ => Some 0%Q
  | S754_finite s m e =>
      let a := match e with
               | Z0 => inject_Z (Zpos m)
               | Zpos k => inject_Z (Zpos m * 2 ^ Zpos k)
               | Zneg k => Zpos m # (2 ^ k)
               end in
      Some (if s then Qopp a else a)
  | S754_infinity _ => None
  | S754_nan => None
  end.

(** [int(x)]: raises on an infinity and on NaN. *)
Definition to_int (x : t) : option Z := option_map py_int (to_Q x).

End B64.

Module SplitPlanner.

(** [train_test_dates]: [train_start, train_end, test_start, test_end],
    each ['MMDD']. *)
Record dates := mk_dates {
  train_start : string;
  train_end : string;
  test_start : string;
  test_end : string
}.

(** [date_range.index(str(year) + d)] *)
Definition date_index (year : Z) (range : list string) (d : string)
    : option Z :=
  Py.list_index (Calendar.str_year year ++ d)%string range.

(** [date2len] in exact arithmetic, [val_ratio] being the rational it
    stands for: the returned pair [(train_s_idx, mode_len)]. *)
Definition date2len (day_timesteps : Z) (tt : dates) (val_ratio : Q)
    (year : Z) : option (Z * ModeLen) :=
  match Calendar.date_range year with
  | None => None
  | Some range =>
      match date_index year range (train_start tt),
            date_index year range (train_end tt) with
      | Some train_s_idx, Some train_e_idx =>
          let train_len := (train_e_idx + 1 - train_s_idx) * day_timesteps in
          let validate_len := py_int (inject_Z train_len * val_ratio) in
          let train_len := train_len - validate_len in
          match date_index year range (test_start tt),
                date_index year range (test_end tt) with
          | Some test_s_idx, Some test_e_idx =>
              let test_len :=
                (test_e_idx + 1 - test_s_idx) * day_timesteps in
              Some (train_s_idx,
                    mk_mode_len train_len validate_len test_len)
          | _, _ => None
          end
      | _, _ => None
      end
  end.

(** [date2len] with the arithmetic of the source: [val_ratio] is a
    float, [train_len * self.val_ratio] converts [train_len] to a float
    and rounds the product, and [int(...)] truncates it toward zero
    (and raises on an infinite or NaN product). *)
Definition date2len_binary64 (day_timesteps : Z) (tt : dates)
    (val_ratio : B64.t) (year : Z) : option (Z * ModeLen) :=
  match Calendar.date_range year with
  | None => None
  | Some range =>
      match date_index year range (train_start tt),
            date_index year range (train_end tt) with
      | Some train_s_idx, Some train_e_idx =>
          let train_len := (train_e_idx + 1 - train_s_idx) * day_timesteps in
          match B64.to_int (B64.mul (B64.of_Z train_len) val_ratio) with
          | None => None
          | Some validate_len =>
              let train_len := train_len - validate_len in
              match date_index year range (test_start tt),
                    date_index year range (test_end tt) with
              | Some test_s_idx, Some test_e_idx =>
                  let test_len :=
                    (test_e_idx + 1 - test_s_idx) * day_timesteps in
                  Some (train_s_idx,
                        mk_mode_len train_len validate_len test_len)
              | _, _ => None
              end
          end
      | _, _ => None
      end
  end.

(** The day ordinal of a date of the year: its position in the year's
    day sequence, counted from 0. *)
Definition day_ordinal (year : Z) (d : string) : option Z :=
  match Calendar.date_range year with
  | None => None
  | Some range => date_index year range d
  end.

End SplitPlanner.

(** ** DataInput: loading and normalisation *)

Inductive error :=
| KeyError (key : string)
| ValueError
| AttributeError (attr : string).

(** Reductions of an array to a scalar, over all its entries. *)
Module Np.

Local Open Scope R_scope.

Definition sum (x : list R) : R := fold_right Rplus 0 x.

Definition mean (x : list R) : R := sum x / INR (List.length x).

(** [x.std()]: the population standard deviation. *)
Definition std (x : list R) : R :=
  sqrt (mean (map (fun v => Rsqr (v - mean x)) x)).

(** [x.max()] and [x.min()] raise on an empty array. *)
Definition max (x : list R) : option R :=
  match x with
  | [] => None
  | a :: l => Some (fold_left Rmax l a)
  end.

Definition min (x : list R) : option R :=
  match x with
  | [] => None
  | a :: l => Some (fold_left Rmin l a)
  end.

End Np.

Module DataInput.

Local Open Scope R_scope.

(** The object: its configuration and the statistics attributes, which
    do not exist until a normalise call sets them. *)
Record t := mk {
  M_dyn : Z;
  M_sta : Z;
  norm_opt : bool;
  _max : option R;
  _min : option R;
  _mean : option R;
  _std : option R
}.

(** [__init__] *)
Definition init (M_adj : Z * Z) (norm_opt : bool) : t :=
  mk (fst M_adj) (snd M_adj) norm_opt None None None None.

Definition set_minmax (di : t) (mx mn : R) : t :=
  mk (M_dyn di) (M_sta di) (norm_opt di) (Some mx) (Some mn)
     (_mean di) (_std di).

Definition set_meanstd (di : t) (m s : R) : t :=
  mk (M_dyn di) (M_sta di) (norm_opt di) (_max di) (_min di)
     (Some m) (Some s).

Definition minmax_normalize (di : t) (x : list R)
    : option (t * list R) :=
  match Np.max x, Np.min x with
  | Some mx, Some mn =>
      Some (set_minmax di mx mn,
            map (fun v => 2 * ((v - mn) / (mx - mn)) - 1) x)
  | _, _ => None
  end.

Definition minmax_denormalize (di : t) (x : list R) : error + list R :=
  match _max di, _min di with
  | Some mx, Some mn => inr (map (fun v => (mx - mn) * ((v + 1) / 2) + mn) x)
  | None, _ => inl (AttributeError "_max")
  | _, None => inl (AttributeError "_min")
  end.

Definition std_normalize (di : t) (x : list R) : t * list R :=
  let m := Np.mean x in
  let s := Np.std x in
  (set_meanstd di m s, map (fun v => (v - m) / s) x).

Definition std_denormalize (di : t) (x : list R) : error + list R :=
  match _std di, _mean di with
  | Some s, Some m => inr (map (fun v => v * s + m) x)
  | None, _ => inl (AttributeError "_std")
  | _, None => inl (AttributeError "_mean")
  end.

(** *** load_data *)

Section Load.

(** Arrays that [load_data] only passes on. *)
Variable Arr : Type.

(** The opened [.npz] archive.  [flow] is kept as the list of its
    innermost (mobility-group) vectors. *)
Record archive := mk_archive {
  a_ems : option (list R);
  a_meta : option Arr;
  a_flow : option (list (list R));
  a_neighbor_adj : option Arr;
  a_trans_adj : option Arr;
  a_semantic_adj : option Arr
}.

(** The dictionary [dataset]: a key is there or not. *)
Record dataset := mk_dataset {
  ems : option (list R);
  meta : option Arr;
  flow : option (list (list R));
  neighbor_adj : option Arr;
  trans_adj : option Arr;
  semantic_adj : option Arr
}.

(** A computation on the object that may raise. *)
Definition M (X : Type) : Type := t -> t * (error + X).

Definition ret {X} (x : X) : M X := fun di => (di, inr x).
Definition raise {X} (e : error) : M X := fun di => (di, inl e).
Definition bind {X Y} (c : M X) (k : X -> M Y) : M Y :=
  fun di =>
    match c di with
    | (di', inr x) => k x di'
    | (di', inl e) => (di', inl e)
    end.
Definition self : M t := fun di => (di, inr di).

Notation "x <- c ;; k" := (bind c (fun x => k))
  (at level 61, c at next level, right associativity).

(** [npz_data[key]] *)
Definition get {X} (key : string) (field : option X) : M X :=
  match field with
  | Some v => ret v
  | None => raise (KeyError key)
  end.

Definition load_data (npz : archive) : M dataset :=
  di <- self ;;
  raw <- get "ems" (a_ems npz) ;;
  e <- (if norm_opt di
        then (fun d => let '(d', x) := std_normalize d raw in (d', inr x))
        else ret raw) ;;
  mt <- get "meta" (a_meta npz) ;;
  fl <- (if (M_dyn di =? 0)%Z then ret None
         else if (M_dyn di =? 1)%Z then
           f <- get "flow" (a_flow npz) ;;
           ret (Some (map (fun v => [Np.sum v]) f))
         else if (M_dyn di =? 2)%Z then
           f <- get "flow" (a_flow npz) ;;
           ret (Some (map (fun v => Py.slice v 0 (M_dyn di)) f))
         else raise ValueError) ;;
  na <- (if (1 <=? M_sta di)%Z
         then a <- get "neighbor_adj" (a_neighbor_adj npz) ;; ret (Some a)
         else ret None) ;;
  ta <- (if (2 <=? M_sta di)%Z
         then a <- get "trans_adj" (a_trans_adj npz) ;; ret (Some a)
         else ret None) ;;
  sa <- (if (3 <=? M_sta di)%Z
         then a <- get "semantic_adj" (a_semantic_adj npz) ;; ret (Some a)
         else ret None) ;;
  _ <- (if (4 <=? M_sta di)%Z then raise ValueError else ret tt) ;;
  ret (mk_dataset (Some e) (Some mt) fl na ta sa).

(** An archive that holds every array [load_data] may ask for. *)
Definition has_all_keys (npz : archive) : Prop :=
  a_ems npz <> None /\ a_meta npz <> None /\ a_flow npz <> None /\
  a_neighbor_adj npz <> None /\ a_trans_adj npz <> None /\
  a_semantic_adj npz <> None.

End Load.

Arguments load_data {Arr}.
Arguments a_ems {Arr}.
Arguments a_meta {Arr}.
Arguments mk_archive {Arr}.
Arguments a_flow {Arr}.
Arguments a_neighbor_adj {Arr}.
Arguments a_trans_adj {Arr}.
Arguments a_semantic_adj {Arr}.
Arguments mk_dataset {Arr}.
Arguments has_all_keys {Arr}.

End DataInput.

(** ** ModelTrainer *)

Module ModelTrainer.

(** *** train: checkpointing and early stopping

    The model, the criterion and the optimiser are black boxes whose
    calls return: what the loop sees of them is, for every epoch and
    mode, the criterion's value (a scalar float tensor) and the size of
    each batch.  The live parameters are identified by the number of
    optimiser steps taken so far; [state_dict()] hands out references to
    them, so a file written by [torch.save] holds the parameters as they
    are when it is written. *)

(** A loss value: an exact number, or one of the values a float has
    beside the numbers, the two infinities and NaN. *)
Inductive loss := Fin (q : Q) | Inf | NInf | NaN.

(** [loss * y_true.shape[0]] *)
Definition loss_scale (l : loss) (n : Z) : loss :=
  match l with
  | Fin q => Fin (q * inject_Z n)
  | Inf => if n =? 0 then NaN else if 0 <? n then Inf else NInf
  | NInf => if n =? 0 then NaN else if 0 <? n then NInf else Inf
  | NaN => NaN
  end.

(** [running_loss[mode] + ...] *)
Definition loss_add (a b : loss) : loss :=
  match a, b with
  | NaN, _ => NaN
  | _, NaN => NaN
  | Inf, NInf => NaN
  | NInf, Inf => NaN
  | Inf, _ => Inf
  | _, Inf => Inf
  | NInf, _ => NInf
  | _, NInf => NInf
  | Fin x, Fin y => Fin (x + y)
  end.

(** [running_loss[mode] / step] on a tensor: it never raises, a zero
    [step] gives an infinity or NaN. *)
Definition loss_div (a : loss) (step : Z) : loss :=
  if step =? 0 then
    match a with
    | Fin q =>
        if Qeq_bool q 0 then NaN else if Qle_bool 0 q then Inf else NInf
    | other => other
    end
  else
    match a with
    | Fin q => Fin (q / inject_Z step)
    | Inf => if 0 <? step then Inf else NInf
    | NInf => if 0 <? step then NInf else Inf
    | NaN => NaN
    end.

(** [l <= val_loss]: false as soon as one side is NaN. *)
Definition loss_leb (l best : loss) : bool :=
  match l, best with
  | NaN, _ => false
  | _, NaN => false
  | NInf, _ => true
  | _, Inf => true
  | Fin a, Fin b => Qle_bool a b
  | _, _ => false
  end.

(** One batch: the criterion's value and [y_true.shape[0]]. *)
Definition batch : Type := loss * Z.

Definition loader : Type := Z -> Mode -> list batch.

Definition mode_eqb (a b : Mode) : bool :=
  match a, b with
  | Train, Train | Validate, Validate | Test, Test => true
  | _, _ => false
  end.

(** [running_loss], keyed by mode and made anew in every epoch.  An
    entry is the float [0.0] it is initialised with ([None]) until the
    first batch of that mode is added in the epoch, and a tensor from
    then on. *)
Definition running_loss : Type := Mode -> option loss.

Definition fresh : running_loss := fun _ => None.

Definition update (r : running_loss) (m : Mode) (v : option loss)
    : running_loss :=
  fun m' => if mode_eqb m' m then v else r m'.

(** [running_loss[mode] += loss * y_true.shape[0]] over the batches of
    one pass. *)
Definition accumulate (bs : list batch) (r : option loss) : option loss :=
  fold_left
    (fun acc b =>
       Some (loss_add (match acc with None => Fin 0 | Some a => a end)
                      (loss_scale (fst b) (snd b))))
    bs r.

(** [step] after the batches of one pass. *)
Definition steps (bs : list batch) : Z :=
  fold_left (fun acc b => acc + snd b) bs 0.

(** [running_loss[mode] / step].  On the float [0.0] a zero [step]
    raises; on a tensor the division never raises. *)
Definition mean_loss (r : option loss) (step : Z) : option loss :=
  match r with
  | None => if step =? 0 then None else Some (Fin 0)
  | Some a => Some (loss_div a step)
  end.

(** The mean loss of a pass that is the first of its mode in the
    epoch. *)
Definition epoch_mean (bs : list batch) : option loss :=
  mean_loss (accumulate bs None) (steps bs).

Record state := mk_state {
  val_loss : loss;
  ck_epoch : Z;           (* checkpoint['epoch'] *)
  early_stopper : Z;
  params : nat;           (* live parameters: optimiser steps so far *)
  disk : option (Z * nat) (* the saved file: epoch, parameters *)
}.

Inductive flow :=
| Continue (s : state)
| Return (s : state)      (* the early-stopping [return] *)
| Raise (s : state).

(** The statements after a validate pass whose mean loss is [l]. *)
Definition validate_end (epoch : Z) (l : loss) (s : state) : flow :=
  if loss_leb l (val_loss s) then
    Continue (mk_state l epoch 10 (params s)
                       (Some (epoch, params s)))
  else
    let es := early_stopper s - 1 in
    let s' := mk_state (val_loss s) (ck_epoch s) es (params s) (disk s) in
    if es =? 0 then Return s' else Continue s'.

(** One mode of one epoch: the pass over its batches, then the
    statements at its end. *)
Definition run_mode (epoch : Z) (bs : list batch) (m : Mode)
    (r : running_loss) (s : state) : running_loss * flow :=
  let r' := update r m (accumulate bs (r m)) in
  (r',
   match m with
   | Train =>
       Continue (mk_state (val_loss s) (ck_epoch s) (early_stopper s)
                          (params s + List.length bs) (disk s))
   | Validate =>
       match mean_loss (r' Validate) (steps bs) with
       | None => Raise s
       | Some l => validate_end epoch l s
       end
   | Test => Continue s
   end).

Fixpoint run_modes (ld : loader) (epoch : Z) (modes : list Mode)
    (r : running_loss) (s : state) : flow :=
  match modes with
  | [] => Continue s
  | m :: ms =>
      match run_mode epoch (ld epoch m) m r s with
      | (r', Continue s') => run_modes ld epoch ms r' s'
      | (_, stop) => stop
      end
  end.

Inductive outcome :=
| EarlyStopped (epoch : Z) (s : state)
| Finished (s : state)
| Raised (epoch : Z) (s : state).

Fixpoint run_epochs (ld : loader) (modes : list Mode) (epochs : list Z)
    (s : state) : outcome :=
  match epochs with
  | [] =>
      (* the final [torch.save(checkpoint, ...)] *)
      Finished (mk_state (val_loss s) (ck_epoch s) (early_stopper s)
                         (params s) (Some (ck_epoch s, params s)))
  | epoch :: rest =>
      match run_modes ld epoch modes fresh s with
      | Continue s' => run_epochs ld modes rest s'
      | Return s' => EarlyStopped epoch s'
      | Raise s' => Raised epoch s'
      end
  end.

(** [train], with [early_stopper] the configured patience. *)
Definition train (n_epochs : Z) (ld : loader) (modes : list Mode)
    (early_stopper : Z) : outcome :=
  run_epochs ld modes (Py.range 1 (n_epochs + 1))
             (mk_state Inf 0 early_stopper 0 None).

(** The state after the first [k] epochs, when none of them stopped. *)
Definition after_epochs (k : Z) (ld : loader) (modes : list Mode)
    (early_stopper : Z) : option state :=
  fold_left
    (fun acc epoch =>
       match acc with
       | None => None
       | Some s =>
           match run_modes ld epoch modes fresh s with
           | Continue s' => Some s'
           | _ => None
           end
       end)
    (Py.range 1 (k + 1)) (Some (mk_state Inf 0 early_stopper 0 None)).

(** A loader for a run whose validate pass of epoch [k] has the mean
    loss [nth (k-1) losses]: one train batch and one validate batch of
    one sample each per epoch. *)
Definition loader_of_losses (losses : list Q) : loader :=
  fun epoch m =>
    match m with
    | Validate => [(Fin (nth (Z.to_nat (epoch - 1)) losses 0%Q), 1)]
    | _ => [(Fin 1, 1)]
    end.

(** The checkpoint is the best so far.  After [k] epochs, either no
    validate pass has improved on the initial [inf] (every mean so far
    was NaN) and the checkpoint still carries epoch 0; or the recorded
    loss is the mean validate loss of the checkpoint's epoch, it is not
    NaN and not above any mean of these [k] epochs that is a number,
    and the saved file carries the checkpoint's epoch. *)
Definition best_so_far (ld : loader) (k : Z) (s : state) : Prop :=
  (ck_epoch s = 0 /\ val_loss s = Inf /\
   forall j lj, 1 <= j <= k ->
                epoch_mean (ld j Validate) = Some lj -> lj = NaN)
  \/
  (1 <= ck_epoch s <= k /\
   epoch_mean (ld (ck_epoch s) Validate) = Some (val_loss s) /\
   val_loss s <> NaN /\
   (exists p, disk s = Some (ck_epoch s, p)) /\
   forall j lj, 1 <= j <= k ->
                epoch_mean (ld j Validate) = Some lj -> lj <> NaN ->
                loss_leb (val_loss s) lj = true).

(** The counter after [k] epochs of a run started with the patience
    [e]: [e] less the epochs run as long as no validate pass has
    improved, and 10 less the epochs since the checkpoint's after
    that. *)
Definition counting_down (e k : Z) (s : state) : Prop :=
  (ck_epoch s = 0 /\ early_stopper s = e - k)
  \/ (1 <= ck_epoch s <= k /\ early_stopper s = 10 - (k - ck_epoch s)).

(** *** test: the evaluation pass *)

Local Open Scope R_scope.

(** The entries of [y_pred] and [y_true] side by side, for operands of
    the same size, as [broadcast] below returns them. *)
Definition diffs (y_pred y_true : list R) : list (R * R) :=
  combine y_pred y_true.

Definition MSE (y_pred y_true : list R) : R :=
  Np.mean (map (fun pt => Rsqr (fst pt - snd pt)) (diffs y_pred y_true)).
Definition RMSE (y_pred y_true : list R) : R := sqrt (MSE y_pred y_true).
Definition MAE (y_pred y_true : list R) : R :=
  Np.mean (map (fun pt => Rabs (fst pt - snd pt)) (diffs y_pred y_true)).
Definition MAPE (y_pred y_true : list R) : R :=
  Np.mean (map (fun pt => Rabs (fst pt - snd pt) / (snd pt + 1))
               (diffs y_pred y_true)).

Record metrics := mk_metrics {
  mse : R; rmse : R; mae : R; mape : R
}.

(** One evaluated batch: [y_true] and the model's [y_pred]. *)
Definition eval_batch : Type := list R * list R.

(** [np.concatenate(arrays, axis=0)] needs at least one array. *)
Definition concatenate (arrays : list (list R)) : error + list R :=
  match arrays with
  | [] => inl ValueError
  | _ => inr (List.concat arrays)
  end.

(** The operands of [y_pred - y_true] as numpy pairs them, both taken
    as arrays of one axis: arrays of the same size go entry by entry,
    an array of one entry is repeated along the other, and any other
    pair of sizes raises. *)
Definition broadcast (y_pred y_true : list R)
    : error + (list R * list R) :=
  if Nat.eqb (List.length y_pred) (List.length y_true)
  then inr (y_pred, y_true)
  else
    match y_pred, y_true with
    | [p], _ => inr (repeat p (List.length y_true), y_true)
    | _, [t] => inr (y_pred, repeat t (List.length y_pred))
    | _, _ => inl ValueError
    end.

(** The body of the loop over [modes] in [test]. *)
Definition test_mode (data_class : DataInput.t) (bs : list eval_batch)
    : error + metrics :=
  match concatenate (map fst bs) with
  | inl e => inl e
  | inr gt =>
      match DataInput.std_denormalize data_class gt with
      | inl e => inl e
      | inr ground_truth =>
          match concatenate (map snd bs) with
          | inl e => inl e
          | inr pr =>
              match DataInput.std_denormalize data_class pr with
              | inl e => inl e
              | inr prediction =>
                  match broadcast prediction ground_truth with
                  | inl e => inl e
                  | inr (y_pred, y_true) =>
                      inr (mk_metrics (MSE y_pred y_true)
                                      (RMSE y_pred y_true)
                                      (MAE y_pred y_true)
                                      (MAPE y_pred y_true * 100))
                  end
              end
          end
      end
  end.

(** [test]: the printed metrics of every mode, or the first error. *)
Fixpoint test (data_class : DataInput.t) (ld : Mode -> list eval_batch)
    (modes : list Mode) : error + list metrics :=
  match modes with
  | [] => inr []
  | m :: ms =>
      match test_mode data_class (ld m) with
      | inl e => inl e
      | inr r =>
          match test data_class ld ms with
          | inl e => inl e
          | inr rs => inr (r :: rs)
          end
      end
  end.

End ModelTrainer.

(** * Properties *)

(** ** Python primitives *)

Lemma In_range (a b k : Z) : In k (Py.range a b) <-> a <= k < b.
Proof.
  unfold Py.range. rewrite in_map_iff. split.
  - intros [n [<- Hn]]. apply in_seq in Hn. lia.
  - intros Hk. exists (Z.to_nat (k - a)). split; [lia|].
    apply in_seq. lia.
Qed.

Lemma length_range (a b : Z) :
  Py.len (Py.range a b) = Z.max 0 (b - a).
Proof.
  unfold Py.len, Py.range. rewrite length_map, length_seq. lia.
Qed.

Lemma resolve_in_bounds (n k j : Z) :
  Py.resolve n k = Some j -> 0 <= j < n.
Proof.
  unfold Py.resolve.
  destruct ((0 <=? k) && (k <? n)) eqn:E1.
  - intros [= <-]. apply andb_true_iff in E1. lia.
  - destruct ((- n <=? k) && (k <? 0)) eqn:E2; [|discriminate].
    intros [= <-]. apply andb_true_iff in E2. lia.
Qed.

Lemma resolve_nonneg (n k : Z) :
  0 <= k < n -> Py.resolve n k = Some k.
Proof.
  intros Hk. unfold Py.resolve.
  replace ((0 <=? k) && (k <? n)) with true; [reflexivity|].
  symmetry. apply andb_true_iff. lia.
Qed.

Lemma resolve_negative (n k : Z) :
  - n <= k < 0 -> Py.resolve n k = Some (k + n).
Proof.
  intros Hk. unfold Py.resolve.
  replace ((0 <=? k) && (k <? n)) with false.
  - replace ((- n <=? k) && (k <? 0)) with true; [reflexivity|].
    symmetry. apply andb_true_iff. lia.
  - symmetry. apply andb_false_iff. left. lia.
Qed.

Lemma resolve_is_Some (n k : Z) :
  (exists j, Py.resolve n k = Some j) <-> - n <= k < n.
Proof.
  split.
  - intros [j Hj]. unfold Py.resolve in Hj.
    destruct ((0 <=? k) && (k <? n)) eqn:E1.
    + apply andb_true_iff in E1. lia.
    + destruct ((- n <=? k) && (k <? 0)) eqn:E2; [|discriminate].
      apply andb_true_iff in E2. lia.
  - intros Hk. destruct (Z.neg_nonneg_cases k).
    + exists (k + n). apply resolve_negative. lia.
    + exists k. apply resolve_nonneg. lia.
Qed.

Lemma index_is_Some {A} (l : list A) (k : Z) :
  (exists a, Py.index l k = Some a) <-> - Py.len l <= k < Py.len l.
Proof.
  unfold Py.index. split.
  - intros [a Ha]. destruct (Py.resolve (Py.len l) k) eqn:E; [|discriminate].
    apply resolve_is_Some. eauto.
  - intros Hk. apply resolve_is_Some in Hk as [j Hj]. rewrite Hj.
    apply resolve_in_bounds in Hj.
    destruct (nth_error l (Z.to_nat j)) eqn:E; [eauto|].
    apply nth_error_None in E. unfold Py.len in Hj. lia.
Qed.

Lemma mapM_app {A B} (f : A -> option B) (l1 l2 : list A) :
  Py.mapM f (l1 ++ l2) =
  match Py.mapM f l1, Py.mapM f l2 with
  | Some b1, Some b2 => Some (b1 ++ b2)
  | _, _ => None
  end.
Proof.
  induction l1 as [|a l1 IH]; simpl.
  - destruct (Py.mapM f l2); reflexivity.
  - destruct (f a); [|reflexivity]. rewrite IH.
    destruct (Py.mapM f l1), (Py.mapM f l2); reflexivity.
Qed.

Lemma mapM_rev {A B} (f : A -> option B) (l : list A) :
  Py.mapM f (rev l) = option_map (@rev B) (Py.mapM f l).
Proof.
  induction l as [|a l IH]; simpl; [reflexivity|].
  rewrite mapM_app, IH. simpl.
  destruct (f a), (Py.mapM f l); reflexivity.
Qed.

Lemma mapM_length {A B} (f : A -> option B) (l : list A) (bs : list B) :
  Py.mapM f l = Some bs -> List.length bs = List.length l.
Proof.
  revert bs. induction l as [|a l IH]; simpl; intros bs.
  - intros [= <-]. reflexivity.
  - destruct (f a); [|discriminate].
    destruct (Py.mapM f l); [|discriminate].
    intros [= <-]. simpl. f_equal. apply IH. reflexivity.
Qed.

Lemma mapM_total {A B} (f : A -> option B) (l : list A) :
  (forall a, In a l -> exists b, f a = Some b) ->
  exists bs, Py.mapM f l = Some bs.
Proof.
  induction l as [|a l IH]; simpl; intros H; [eauto|].
  destruct (H a) as [b ->]; [auto|].
  destruct IH as [bs ->]; eauto.
Qed.

Lemma skipn_nth_error {A} (l : list A) (a : nat) (x : A) :
  nth_error l a = Some x -> skipn a l = x :: skipn (S a) l.
Proof.
  revert a. induction l as [|y l IH]; intros [|a]; simpl; try discriminate.
  - intros [= ->]. reflexivity.
  - intros H. rewrite (IH a H). reflexivity.
Qed.

Lemma mapM_nth_error_seq {A} (l : list A) (a n b : nat) :
  (a + b + n <= List.length l)%nat ->
  Py.mapM (fun k => nth_error l (a + k)) (seq b n)
  = Some (firstn n (skipn (a + b) l)).
Proof.
  revert b. induction n as [|n IH]; intros b Hb; simpl; [reflexivity|].
  destruct (nth_error l (a + b)) as [x|] eqn:E.
  - rewrite IH by lia. rewrite (skipn_nth_error l (a + b) x E).
    replace (a + S b)%nat with (S (a + b)) by lia. reflexivity.
  - apply nth_error_None in E. lia.
Qed.

Lemma mapM_ext_in {A B} (f g : A -> option B) (l : list A) :
  (forall a, In a l -> f a = g a) -> Py.mapM f l = Py.mapM g l.
Proof.
  induction l as [|a l IH]; simpl; intros H; [reflexivity|].
  rewrite (H a) by auto. rewrite IH by auto. reflexivity.
Qed.

Lemma mapM_map {A B C} (f : B -> option C) (h : A -> B) (l : list A) :
  Py.mapM f (map h l) = Py.mapM (fun a => f (h a)) l.
Proof.
  induction l as [|a l IH]; simpl; [reflexivity|].
  rewrite IH. reflexivity.
Qed.

(** Inside the array a slice holds the elements at the positions of the
    corresponding range. *)
Lemma slice_as_reads {A} (l : list A) (lo hi : Z) :
  0 <= lo -> 0 <= hi <= Py.len l ->
  Py.mapM (Py.index l) (Py.range lo hi) = Some (Py.slice l lo hi).
Proof.
  intros Hlo Hhi. unfold Py.slice, Py.range, Py.clamp.
  destruct (Z_le_gt_dec lo hi) as [Hle|Hgt].
  - replace (lo <? 0) with false by (symmetry; apply Z.ltb_ge; lia).
    replace (hi <? 0) with false by (symmetry; apply Z.ltb_ge; lia).
    rewrite mapM_map.
    rewrite (mapM_ext_in _ (fun k => nth_error l (Z.to_nat lo + k))).
    + replace (Z.max 0 (Z.min (Py.len l) hi) - Z.max 0 (Z.min (Py.len l) lo))
        with (hi - lo) by lia.
      replace (Z.max 0 (Z.min (Py.len l) lo)) with lo by lia.
      rewrite mapM_nth_error_seq by (unfold Py.len in Hhi; lia).
      rewrite Nat.add_0_r. reflexivity.
    + intros k Hk. apply in_seq in Hk. unfold Py.index.
      rewrite resolve_nonneg by lia. f_equal. lia.
  - replace (Z.to_nat (hi - lo)) with 0%nat by lia. simpl.
    replace (Z.to_nat _) with 0%nat; [reflexivity|].
    destruct (Z.ltb_spec lo 0), (Z.ltb_spec hi 0); lia.
Qed.

(** ** Window generator *)

Section Windows.

Import DataGenerator.

Variable g : DataGenerator.t.

(** Samples are produced for the indices from [start_idx] on, and only
    for them. *)
Lemma emitted_bounds (K i : Z) :
  In i (emitted g K) <-> start_idx g <= i < K.
Proof. apply In_range. Qed.

Lemma start_idx_max :
  serial_len g <= start_idx g /\
  daily_len g * day_timesteps g <= start_idx g /\
  weekly_len g * day_timesteps g * 7 <= start_idx g.
Proof. unfold start_idx, Py.max3. lia. Qed.

(** The serial window reads the [serial_len] positions before [i]. *)
Lemma serial_reads_in_window (K i k : Z) :
  0 <= serial_len g ->
  start_idx g <= i < K ->
  In k (Py.slice_reads K (i - serial_len g) i) ->
  0 <= k < i /\ i - serial_len g <= k.
Proof.
  intros Hs0 Hi Hk. pose proof start_idx_max as [Hs _].
  unfold Py.slice_reads in Hk. apply In_range in Hk.
  unfold Py.clamp in Hk.
  destruct (Z.ltb_spec (i - serial_len g) 0), (Z.ltb_spec i 0); lia.
Qed.

(** With at most one daily and one weekly lag the periodic reads stay
    inside [[0, i)]. *)
Lemma skip_reads_single_lag (K i k : Z) (p : period) :
  0 < day_timesteps g ->
  daily_len g <= 1 -> weekly_len g <= 1 ->
  start_idx g <= i < K ->
  In k (skip_reads g i p) -> 0 <= k < i.
Proof.
  intros Hp Hd Hw Hi Hk. pose proof start_idx_max as [_ [Hsd Hsw]].
  destruct p; simpl in Hk; apply in_map_iff in Hk as [d [<- Hin]];
    apply In_range in Hin.
  - assert (E : daily_len g = 1) by lia. assert (d = 1) by lia.
    subst d. rewrite E in *. lia.
  - assert (E : weekly_len g = 1) by lia. assert (d = 1) by lia.
    subst d. rewrite E in *. lia.
Qed.

(** With two or more daily lags, the deepest daily read of the first
    sample falls before the start of the array whenever the daily
    window sets [start_idx]. *)
Lemma daily_read_before_start :
  2 <= daily_len g -> 1 <= day_timesteps g ->
  start_idx g = daily_len g * day_timesteps g ->
  exists k, In k (skip_reads g (start_idx g) Daily) /\ k < 0.
Proof.
  intros Hd Hp Hs.
  exists (start_idx g - daily_len g * day_timesteps g * daily_len g).
  split.
  - simpl. apply in_map_iff. exists (daily_len g). split; [reflexivity|].
    apply In_range. lia.
  - nia.
Qed.

(** A sample's row in [x_seq] holds the elements at [window_offsets]. *)
Lemma feats_at_offsets {A} (data : list A) (i : Z) (smp : sample A) :
  0 <= i <= Py.len data -> serial_len g <= i ->
  feats_at g data i = Some smp ->
  Py.mapM (Py.index data) (window_offsets g i)
  = Some (s_weekly smp ++ s_daily smp ++ s_serial smp).
Proof.
  intros Hi Hs. unfold feats_at, get_periodic_skip_seq, window_offsets.
  rewrite !mapM_app, !mapM_rev.
  rewrite slice_as_reads by lia.
  destruct (Py.mapM (Py.index data) (skip_reads g i Daily)); [|discriminate].
  destruct (Py.mapM (Py.index data) (skip_reads g i Weekly));
    [|discriminate].
  simpl. destruct (Py.index data i); [|discriminate].
  intros [= <-]. reflexivity.
Qed.

(** On the series [0 .. K-1] an element is its own position. *)
Lemma index_iota (K k : Z) : 0 <= k < K -> Py.index (iota K) k = Some k.
Proof.
  intros Hk. unfold Py.index, iota.
  rewrite length_range, resolve_nonneg by lia.
  unfold Py.range. rewrite nth_error_map.
  rewrite nth_error_seq.
  replace (Z.to_nat k <? Z.to_nat (K - 0))%nat with true
    by (symmetry; apply Nat.ltb_lt; lia).
  simpl. f_equal. lia.
Qed.

Lemma mapM_index_iota (K : Z) (l : list Z) :
  (forall k, In k l -> 0 <= k < K) ->
  Py.mapM (Py.index (iota K)) l = Some l.
Proof.
  induction l as [|k l IH]; simpl; intros H; [reflexivity|].
  rewrite index_iota by auto. rewrite IH by auto. reflexivity.
Qed.

(** On that series the Serial window of a sample is [[i-s .. i-1]]. *)
Lemma serial_window_iota (K i : Z) :
  0 <= serial_len g -> start_idx g <= i < K ->
  Py.slice (iota K) (i - serial_len g) i = Py.range (i - serial_len g) i.
Proof.
  intros Hs Hi. pose proof start_idx_max as [Hs' _].
  assert (HK : Py.len (iota K) = K)
    by (unfold iota; rewrite length_range; lia).
  assert (E : Py.mapM (Py.index (iota K)) (Py.range (i - serial_len g) i)
              = Some (Py.slice (iota K) (i - serial_len g) i))
    by (apply slice_as_reads; lia).
  rewrite mapM_index_iota in E.
  - injection E as <-. reflexivity.
  - intros k Hk. apply In_range in Hk. lia.
Qed.

(** And a periodic window, when its reads are inside the series, holds
    [series[i - p_steps * k]] at the [k]-th place from its end, with
    [p_steps] the window length times the period. *)
Lemma periodic_window_iota (K i : Z) (p : period) :
  (forall k, In k (skip_reads g i p) -> 0 <= k < K) ->
  get_periodic_skip_seq g (iota K) i p = Some (rev (skip_reads g i p)).
Proof.
  intros H. unfold get_periodic_skip_seq.
  rewrite mapM_index_iota by exact H. reflexivity.
Qed.

End Windows.

(** C1 (defect in the code).  The claim: samples are emitted only for
    [i >= start_idx], and every element read for the Serial, Daily and
    Weekly windows of an emitted [i] lies at a non-negative index below
    [i].  The first half holds ([emitted_bounds]); the second fails.  With
    [dt = 12] (two timesteps a day), [obs_len = (1, 2, 0)] and a series of
    ten steps, [start_idx] is 4 and the first sample, [i = 4], reads for
    its Daily window the indices [4 - 4*1 = 0] and [4 - 4*2 = -4]: the
    lag is multiplied by [daily_len] once too often.  Python resolves
    [-4] to position 6, so the window holds an element from after the
    target. *)
Theorem C1_daily_read_wraps_around :
  let g := DataGenerator.mk 2 1 2 0 in
  DataGenerator.init 12 (1, 2, 0) = Some g /\
  DataGenerator.start_idx g = 4 /\
  DataGenerator.emitted g 10 = [4; 5; 6; 7; 8; 9] /\
  DataGenerator.skip_reads g 4 DataGenerator.Daily = [0; -4] /\
  DataGenerator.resolved_reads g 10 4 = [Some 3; Some 0; Some 6] /\
  DataGenerator.feats_at g (iota 10) 4
  = Some (DataGenerator.mk_sample [3] [6; 0] [] 4) /\
  ~ (forall k, In k (DataGenerator.skip_reads g 4 DataGenerator.Daily) ->
               0 <= k < 4).
Proof.
  cbv zeta. repeat split; try reflexivity.
  intros H. specialize (H (-4)). simpl in H. lia.
Qed.

(** C2 (defect in the code).  The claim: on the series [0 .. K-1] the
    Serial window of sample [i] is [[i-s .. i-1]], the Daily window ends
    with [series[i-p]] and the Weekly window with [series[i-7p]].  With
    [dt = 24] (one timestep a day), [obs_len = (2, 2, 2)] and [K = 20],
    the first sample is [i = 14].  Its Serial window is [[12; 13]] as
    claimed, but its Daily window is [[10; 12]], ending with
    [series[i - 2p]] and not [series[i - p] = 13], and its Weekly window
    is [[6; 0]], ending with [series[i - 14p]] and not
    [series[i - 7p] = 7]. *)
Theorem C2_periodic_windows_misaligned :
  let g := DataGenerator.mk 1 2 2 2 in
  DataGenerator.init 24 (2, 2, 2) = Some g /\
  DataGenerator.emitted g 20 = [14; 15; 16; 17; 18; 19] /\
  DataGenerator.feats_at g (iota 20) 14
  = Some (DataGenerator.mk_sample [12; 13] [10; 12] [6; 0] 14) /\
  Py.index (iota 20) (14 - 1) = Some 13 /\
  Py.index (iota 20) (14 - 7 * 1) = Some 7.
Proof. cbv zeta. repeat split; reflexivity. Qed.

(** ** Flow-window resolver *)

Lemma rev_lags (y : Z) (n : nat) :
  rev (map (fun t => y - t * 1) (map (fun k => 1 + Z.of_nat k) (seq 0 n)))
  = map (fun k => y - Z.of_nat n + Z.of_nat k) (seq 0 n).
Proof.
  induction n as [|n IH]; [reflexivity|].
  rewrite seq_S at 1. rewrite !map_app, rev_app_distr.
  cbn [map rev app Nat.add]. rewrite IH.
  cbn [seq map]. f_equal; [lia|].
  rewrite <- seq_shift, map_map. apply map_ext. intros k. lia.
Qed.

Section FlowWindow.

Import EMSDataset.

Context {A M F : Type}.
Variable ds : EMSDataset.t A M F.

(** [timestamp_query] looks up, in window order, the timestamps of
    [query_times]. *)
Lemma timestamp_query_lookups (fl : list F) (item : Z) :
  timestamp_query ds fl item
  = Py.mapM (lookup (rho ds) fl) (query_times ds item).
Proof.
  unfold timestamp_query, query_times, scales. simpl.
  rewrite app_nil_r, !mapM_app, !mapM_rev.
  destruct (Py.mapM _ (scale_times _ (weekly_len ds) _)); [|reflexivity].
  destruct (Py.mapM _ (scale_times _ (daily_len ds) _)); [|reflexivity].
  destruct (Py.mapM _ (scale_times _ (serial_len ds) _)); [|reflexivity].
  simpl. rewrite app_assoc. reflexivity.
Qed.

Lemma length_query_times (item : Z) :
  0 <= weekly_len ds -> 0 <= daily_len ds -> 0 <= serial_len ds ->
  Py.len (query_times ds item)
  = weekly_len ds + daily_len ds + serial_len ds.
Proof.
  intros Hw Hd Hs. unfold query_times, scales, scale_times, Py.len. simpl.
  rewrite app_nil_r, !length_app, !length_rev, !length_map.
  unfold Py.range. rewrite !length_map, !length_seq. lia.
Qed.

(** The returned window has [weekly_len + daily_len + serial_len]
    positions, whatever the sample index. *)
Lemma timestamp_query_length (fl : list F) (item : Z) (P : list F) :
  0 <= weekly_len ds -> 0 <= daily_len ds -> 0 <= serial_len ds ->
  timestamp_query ds fl item = Some P ->
  Py.len P = weekly_len ds + daily_len ds + serial_len ds.
Proof.
  intros Hw Hd Hs HP. rewrite timestamp_query_lookups in HP.
  apply mapM_length in HP. unfold Py.len. rewrite HP.
  apply length_query_times; assumption.
Qed.

(** A flow cycle of [rho >= 1] snapshots answers every query. *)
Lemma timestamp_query_total (fl : list F) (item : Z) :
  0 < rho ds <= Py.len fl ->
  exists P, timestamp_query ds fl item = Some P.
Proof.
  intros Hr. rewrite timestamp_query_lookups. apply mapM_total.
  intros ts _. unfold lookup, Py.modulo.
  replace (rho ds =? 0) with false by (symmetry; apply Z.eqb_neq; lia).
  apply index_is_Some. pose proof (Z.mod_pos_bound ts (rho ds)). lia.
Qed.

(** With at most one daily and one weekly lag, the resolver and the
    window generator select the same time offsets. *)
Lemma offsets_agree_single_lag (item : Z) :
  0 <= weekly_len ds <= 1 -> 0 <= daily_len ds <= 1 ->
  0 <= serial_len ds ->
  let g := DataGenerator.mk (rho ds) (serial_len ds) (daily_len ds)
                            (weekly_len ds) in
  query_times ds item
  = DataGenerator.window_offsets g (item + DataGenerator.start_idx g).
Proof.
  intros Hw Hd Hs g.
  unfold query_times, DataGenerator.window_offsets, scales, scale_times,
    sample_y_time, DataGenerator.start_idx, DataGenerator.skip_reads.
  subst g. cbn [flat_map fst snd DataGenerator.day_timesteps
    DataGenerator.serial_len DataGenerator.daily_len
    DataGenerator.weekly_len].
  rewrite app_nil_r.
  remember (item + Py.max3 _ _ _) as y eqn:Hy. clear Hy.
  f_equal; [|f_equal].
  - assert (E : weekly_len ds = 0 \/ weekly_len ds = 1) by lia.
    destruct E as [-> | ->].
    + change (Py.range 1 (0 + 1)) with (@nil Z). reflexivity.
    + change (Py.range 1 (1 + 1)) with [1]. cbn [map rev app].
      f_equal. lia.
  - assert (E : daily_len ds = 0 \/ daily_len ds = 1) by lia.
    destruct E as [-> | ->].
    + change (Py.range 1 (0 + 1)) with (@nil Z). reflexivity.
    + change (Py.range 1 (1 + 1)) with [1]. cbn [map rev app].
      f_equal. lia.
  - unfold Py.range. rewrite rev_lags.
    replace (serial_len ds + 1 - 1) with (serial_len ds) by lia.
    replace (y - (y - serial_len ds)) with (serial_len ds) by lia.
    apply map_ext. intros k. lia.
Qed.

End FlowWindow.

(** C3 (defect in the code).  The claim: the flow window has
    [weekly_len + daily_len + serial_len] positions and the time offsets
    it selects coincide with the ones the window generator selects for
    the same sample.  The length is as claimed
    ([timestamp_query_length]).  The offsets agree only up to one daily
    and one weekly lag ([offsets_agree_single_lag]): with [dt = 12],
    [obs_len = (1, 2, 0)], the series [0 .. 9] and the flow cycle
    [[0; 1]], sample 0 (target time 4) gets its flow window from the
    times [0; 2; 3], while its signal window is read at [-4; 0; 3],
    that is, it holds the elements at 6, 0 and 3. *)
Theorem C3_flow_offsets_differ_from_window_offsets :
  let g := DataGenerator.mk 2 1 2 0 in
  exists ds,
    get_data_loader g 0 (mk_mode_len 6 0 0) (iota 10) (iota 10)
                    (Some [0; 1]) Train = Some ds /\
    EMSDataset.getitem ds 0 = Some ([6; 0; 3], [6; 0; 3], Some [0; 0; 1], 4) /\
    EMSDataset.query_times ds 0 = [0; 2; 3] /\
    DataGenerator.window_offsets g (0 + DataGenerator.start_idx g)
    = [-4; 0; 3] /\
    EMSDataset.query_times ds 0
    <> DataGenerator.window_offsets g (0 + DataGenerator.start_idx g).
Proof.
  cbv zeta. eexists. split; [reflexivity|].
  repeat split; try reflexivity. discriminate.
Qed.

(** ** Training loop *)

Section Checkpointing.

Import ModelTrainer.

(** A validate loss not above the best one is saved with the current
    epoch and parameters, and sets the counter to 10. *)
Lemma validate_end_improved (epoch : Z) (l : loss) (s : state) :
  loss_leb l (val_loss s) = true ->
  validate_end epoch l s
  = Continue (mk_state l epoch 10 (params s)
                       (Some (epoch, params s))).
Proof. intros H. unfold validate_end. rewrite H. reflexivity. Qed.

(** Any other validate loss takes one off the counter, and training
    returns when the counter reaches zero. *)
Lemma validate_end_not_improved (epoch : Z) (l : loss) (s : state) :
  loss_leb l (val_loss s) = false ->
  let s' := mk_state (val_loss s) (ck_epoch s) (early_stopper s - 1)
                     (params s) (disk s) in
  validate_end epoch l s
  = if early_stopper s - 1 =? 0 then Return s' else Continue s'.
Proof. intros H. unfold validate_end. rewrite H. reflexivity. Qed.

(** A tie counts as an improvement. *)
Lemma tie_improves (l : Q) : loss_leb (Fin l) (Fin l) = true.
Proof. apply Qle_bool_iff, Qle_refl. Qed.

End Checkpointing.

(** C4 (defect in the code).  The claim: an improving validate loss
    saves the checkpoint and resets the early-stop counter to its
    configured patience; otherwise the counter is decremented and
    training stops when it reaches zero.  Saving, the tie rule and the
    decrement are as claimed ([validate_end_improved],
    [validate_end_not_improved]), but the counter is reset to the
    literal 10, not to the configured value.  With patience 3, ten
    epochs and the validate losses [5,4,4,6,7,7,7,7,7,7], the counter is
    10 after the first epoch, and the seven non-improving epochs 4..10
    bring it down to 3 only: training does not stop at epoch 6 but runs
    through all ten epochs. *)
Theorem C4_counter_reset_to_ten :
  let ld := ModelTrainer.loader_of_losses
              [5; 4; 4; 6; 7; 7; 7; 7; 7; 7]%Q in
  ModelTrainer.after_epochs 1 ld [Train; Validate] 3
  = Some (ModelTrainer.mk_state (ModelTrainer.Fin 5) 1 10 1
            (Some (1, 1%nat))) /\
  ModelTrainer.after_epochs 6 ld [Train; Validate] 3
  = Some (ModelTrainer.mk_state (ModelTrainer.Fin 4) 3 7 6
            (Some (3, 3%nat))) /\
  ModelTrainer.train 10 ld [Train; Validate] 3
  = ModelTrainer.Finished
      (ModelTrainer.mk_state (ModelTrainer.Fin 4) 3 3 10
         (Some (3, 10%nat))).
Proof. cbv zeta. repeat split; vm_compute; reflexivity. Qed.

(** ** Split planning *)

Section Splits.

Import SplitPlanner.

(** The offset [date2len] returns is the day ordinal of the start of
    the train range. *)
Lemma date2len_offset (p : Z) (tt : dates) (r : Q) (year off : Z)
    (ml : ModeLen) :
  date2len p tt r year = Some (off, ml) ->
  day_ordinal year (train_start tt) = Some off.
Proof.
  unfold date2len, day_ordinal.
  destruct (Calendar.date_range year) as [range|]; [|discriminate].
  destruct (date_index year range (train_start tt)); [|discriminate].
  destruct (date_index year range (train_end tt)); [|discriminate].
  destruct (date_index year range (test_start tt)); [|discriminate].
  destruct (date_index year range (test_end tt)); [|discriminate].
  intros [= <- _]. reflexivity.
Qed.

(** Every split's rows start at the offset moved by the lengths of the
    splits before it. *)
Lemma init_start_idx {A M F} (inputs : EMSDataset.feats A M F)
    (output : list A) (p s d w : Z) (m : Mode) (ml : ModeLen)
    (start_idx : Z) (ds : EMSDataset.t A M F) :
  EMSDataset.init inputs output p s d w m ml start_idx = Some ds ->
  EMSDataset.start_idx ds
  = match m with
    | Train => start_idx
    | Validate => start_idx + len_train ml
    | Test => start_idx + len_train ml + len_validate ml
    end
  /\ EMSDataset.output ds
     = Py.slice output (EMSDataset.start_idx ds)
                (EMSDataset.start_idx ds + mode_len_get ml m).
Proof.
  unfold EMSDataset.init, EMSDataset.prepare_xy.
  destruct (EMSDataset.concatenate_axis1 _ _ _); [|discriminate].
  destruct (EMSDataset.concatenate_axis1 _ _ _); [|discriminate].
  intros [= <-]. simpl. split; [|reflexivity].
  destruct m; simpl; lia.
Qed.

End Splits.

(** C5 (defect in the code).  The claim: the offset returned by split
    planning is in timestep units, the day ordinal of the start of the
    train range times the timesteps per day, and each split starts at
    the offset plus the lengths of the splits before it.  The second
    half holds ([init_start_idx]).  The offset, however, is the bare day
    ordinal ([date2len_offset]) while the lengths are in timesteps: for
    2017, [dt = 1] (24 timesteps a day) and a train range starting on
    1 February, the offset is 31, not 31 * 24 = 744, next to lengths of
    605, 67 and 744 timesteps. *)
Theorem C5_offset_is_in_days :
  let tt := SplitPlanner.mk_dates "0201" "0228" "0301" "0331" in
  Py.floordiv 24 1 = Some 24 /\
  SplitPlanner.day_ordinal 2017 "0201" = Some 31 /\
  SplitPlanner.date2len 24 tt (1 # 10) 2017
  = Some (31, mk_mode_len 605 67 744) /\
  31 <> 31 * 24.
Proof. cbv zeta. repeat split; try (vm_compute; reflexivity). lia. Qed.

(** The same split with the float arithmetic of the source: the
    product [672 * 0.1] truncates to 67 as well. *)
Lemma date2len_binary64_february :
  SplitPlanner.date2len_binary64 24
    (SplitPlanner.mk_dates "0201" "0228" "0301" "0331")
    (B64.of_ratio 1 10) 2017
  = Some (31, mk_mode_len 605 67 744).
Proof. vm_compute. reflexivity. Qed.

Lemma py_int_floor (q : Q) : (0 <= q)%Q -> py_int q = Qfloor q.
Proof.
  destruct q as [n d]. unfold Qle, py_int, Qfloor. simpl. intros H.
  apply Z.quot_div_nonneg; lia.
Qed.

(** [int()] truncates toward zero: it is the floor of a non-negative
    number and the ceiling of a negative one. *)
Lemma py_int_trunc (q : Q) :
  py_int q = if Qle_bool 0 q then Qfloor q else Qceiling q.
Proof.
  destruct (Qle_bool 0 q) eqn:E.
  - apply py_int_floor, Qle_bool_iff, E.
  - destruct q as [n d].
    assert (Hn : n < 0).
    { destruct (Z_lt_le_dec n 0) as [H|H]; [exact H|].
      assert (Hq : Qle_bool 0 (n # d) = true)
        by (apply Qle_bool_iff; unfold Qle; simpl; lia).
      congruence. }
    unfold py_int, Qceiling, Qfloor, Qopp. cbn [Qnum Qden].
    replace n with (- - n) at 1 by lia.
    rewrite Z.quot_opp_l by lia.
    rewrite Z.quot_div_nonneg by lia. reflexivity.
Qed.

(** C6 (as claimed, refuted).  [validate_len] is not the floor of
    [nominal * val_ratio] for every [val_ratio].

    A negative ratio: one day of 24 steps and [val_ratio = -0.1] give
    [validate_len = -2] and [train_len = 26], where the floor of the
    product is -3, whether the ratio is read as the decimal or as the
    float it denotes.

    The rounding of the product: ten days of 24 steps and
    [val_ratio = 0.3] give [validate_len = 72], where the product of 240
    and the float is below 72 and its floor is 71.

    The rounding of the ratio: 25 days of 4 steps and
    [val_ratio = 0.29] give [validate_len = 28], where the floor of
    [100 * 29/100] is 29. *)
Lemma C6_floor_counterexample :
  (SplitPlanner.date2len_binary64 24
     (SplitPlanner.mk_dates "0101" "0101" "0102" "0102")
     (B64.of_ratio (-1) 10) 2017
   = Some (0, mk_mode_len 26 (-2) 24) /\
   Qfloor (inject_Z 24 * (-1 # 10)) = -3 /\
   option_map (fun q => Qfloor (inject_Z 24 * q))
              (B64.to_Q (B64.of_ratio (-1) 10)) = Some (-3)) /\
  (SplitPlanner.date2len_binary64 24
     (SplitPlanner.mk_dates "0101" "0110" "0111" "0111")
     (B64.of_ratio 3 10) 2017
   = Some (0, mk_mode_len 168 72 24) /\
   option_map (fun q => Qfloor (inject_Z 240 * q))
              (B64.to_Q (B64.of_ratio 3 10)) = Some 71) /\
  (SplitPlanner.date2len_binary64 4
     (SplitPlanner.mk_dates "0101" "0125" "0126" "0126")
     (B64.of_ratio 29 100) 2017
   = Some (0, mk_mode_len 72 28 4) /\
   Qfloor (inject_Z 100 * (29 # 100)) = 29).
Proof. repeat split; vm_compute; reflexivity. Qed.

(** C6 (amended).  For train and test ranges whose dates lie in the
    calendar year (at the day ordinals [ts], [te], [xs], [xe]) and every
    float [val_ratio], split planning takes the nominal train length
    [(te + 1 - ts) * day_timesteps] and multiplies it, as a float, by
    [val_ratio].  When the rounded product is a number, [validate_len]
    is that product truncated toward zero (its floor when it is not
    negative, its ceiling when it is), [train_len] is the nominal length
    less [validate_len], and [test_len] is
    [(xe + 1 - xs) * day_timesteps], in which [val_ratio] does not
    occur.  When the rounded product is an infinity or NaN, split
    planning raises. *)
Theorem C6_date2len_lengths (p : Z) (tt : SplitPlanner.dates)
    (r : B64.t) (year ts te xs xe : Z) :
  SplitPlanner.day_ordinal year (SplitPlanner.train_start tt) = Some ts ->
  SplitPlanner.day_ordinal year (SplitPlanner.train_end tt) = Some te ->
  SplitPlanner.day_ordinal year (SplitPlanner.test_start tt) = Some xs ->
  SplitPlanner.day_ordinal year (SplitPlanner.test_end tt) = Some xe ->
  let nominal := (te + 1 - ts) * p in
  match B64.to_Q (B64.mul (B64.of_Z nominal) r) with
  | Some product =>
      let validate_len :=
        if Qle_bool 0 product then Qfloor product else Qceiling product in
      SplitPlanner.date2len_binary64 p tt r year
      = Some (ts, mk_mode_len (nominal - validate_len) validate_len
                              ((xe + 1 - xs) * p))
  | None => SplitPlanner.date2len_binary64 p tt r year = None
  end.
Proof.
  unfold SplitPlanner.day_ordinal, SplitPlanner.date2len_binary64.
  destruct (Calendar.date_range year) as [range|]; [|discriminate].
  intros -> -> -> ->. cbv zeta. unfold B64.to_int.
  destruct (B64.to_Q (B64.mul (B64.of_Z ((te + 1 - ts) * p)) r))
    as [product|]; cbn [option_map]; [|reflexivity].
  rewrite py_int_trunc. reflexivity.
Qed.

(** The split of 2017 into January to October and November to December,
    with a fifth of the train range held out. *)
Lemma C6_date2len_lengths_witness :
  SplitPlanner.date2len_binary64 24
    (SplitPlanner.mk_dates "0101" "1031" "1101" "1231")
    (B64.of_ratio 2 10) 2017
  = Some (0, mk_mode_len 5837 1459 1464).
Proof.
  exact (C6_date2len_lengths 24
           (SplitPlanner.mk_dates "0101" "1031" "1101" "1231")
           (B64.of_ratio 2 10) 2017 0 303 304 364
           eq_refl eq_refl eq_refl eq_refl).
Defined.

(** ** Normaliser *)

Section RoundTrip.

Local Open Scope R_scope.

Lemma map_round_trip (f h : R -> R) (x : list R) :
  (forall v, h (f v) = v) -> map h (map f x) = x.
Proof.
  intros H. rewrite map_map. rewrite <- (map_id x) at 2.
  apply map_ext. exact H.
Qed.

Lemma std_round_trip (di : DataInput.t) (x : list R) :
  Np.std x <> 0 ->
  let '(di', x') := DataInput.std_normalize di x in
  DataInput.std_denormalize di' x' = inr x.
Proof.
  intros Hs. unfold DataInput.std_normalize, DataInput.std_denormalize.
  simpl. f_equal. apply map_round_trip. intros v. field. exact Hs.
Qed.

Lemma minmax_round_trip (di : DataInput.t) (x : list R) (mx mn : R) :
  Np.max x = Some mx -> Np.min x = Some mn -> mx <> mn ->
  exists di' x',
    DataInput.minmax_normalize di x = Some (di', x') /\
    DataInput.minmax_denormalize di' x' = inr x.
Proof.
  intros Hmx Hmn Hne. unfold DataInput.minmax_normalize.
  rewrite Hmx, Hmn. eexists. eexists. split; [reflexivity|].
  unfold DataInput.minmax_denormalize. simpl. f_equal.
  apply map_round_trip. intros v. field. lra.
Qed.

End RoundTrip.

(** C7.  In exact arithmetic, for every array whose standard deviation
    is not zero, [std_denormalize] applied to the result of
    [std_normalize] (with the statistics it stored) gives the array
    back; and for every array whose maximum differs from its minimum,
    [minmax_denormalize] gives back the array [minmax_normalize]
    started from. *)
Theorem C7_normalize_round_trip :
  (forall (di : DataInput.t) (x : list R),
      Np.std x <> 0%R ->
      DataInput.std_denormalize (fst (DataInput.std_normalize di x))
                                (snd (DataInput.std_normalize di x))
      = inr x) /\
  (forall (di : DataInput.t) (x : list R) (mx mn : R),
      Np.max x = Some mx -> Np.min x = Some mn -> mx <> mn ->
      exists di' x',
        DataInput.minmax_normalize di x = Some (di', x') /\
        DataInput.minmax_denormalize di' x' = inr x).
Proof.
  split.
  - intros di x Hs. exact (std_round_trip di x Hs).
  - exact minmax_round_trip.
Qed.

(** The array [[0; 2]]: mean 1, standard deviation 1, minimum 0,
    maximum 2. *)
Lemma C7_normalize_round_trip_witness :
  let di := DataInput.init (0, 0) true in
  DataInput.std_denormalize
    (fst (DataInput.std_normalize di [0; 2]%R))
    (snd (DataInput.std_normalize di [0; 2]%R)) = inr [0; 2]%R /\
  exists di' x',
    DataInput.minmax_normalize di [0; 2]%R = Some (di', x') /\
    DataInput.minmax_denormalize di' x' = inr [0; 2]%R.
Proof.
  cbv zeta. split.
  - apply (proj1 C7_normalize_round_trip).
    unfold Np.std, Np.mean, Np.sum. simpl.
    replace (_ / (1 + 1))%R with 1%R by (unfold Rsqr; field).
    rewrite sqrt_1. lra.
  - apply (proj2 C7_normalize_round_trip _ _ (Rmax 0 2) (Rmin 0 2)).
    + reflexivity.
    + reflexivity.
    + unfold Rmax, Rmin. destruct (Rle_dec 0 2); lra.
Defined.

(** ** Loading *)

Section Loading.

Import DataInput.

Variable Arr : Type.

Ltac run_load :=
  unfold load_data, bind, self, get, ret, raise.

Ltac split_load :=
  repeat match goal with
         | |- context [match ?x with _ => _ end] => destruct x eqn:?
         | |- context [if ?b then _ else _] => destruct b eqn:?
         end.

(** A dynamic-mobility level other than 0, 1 and 2 makes [load_data]
    raise. *)
Lemma load_data_bad_M_dyn (di : t) (npz : archive Arr) :
  M_dyn di <> 0 -> M_dyn di <> 1 -> M_dyn di <> 2 ->
  exists e, snd (load_data npz di) = inl e.
Proof.
  intros H0 H1 H2. run_load.
  apply Z.eqb_neq in H0, H1, H2. rewrite H0, H1, H2.
  destruct (a_ems npz), (a_meta npz), (norm_opt di); simpl; eauto.
Qed.

(** So does a static-adjacency level of 4 or more. *)
Lemma load_data_bad_M_sta (di : t) (npz : archive Arr) :
  4 <= M_sta di ->
  exists e, snd (load_data npz di) = inl e.
Proof.
  intros H. run_load.
  replace (4 <=? M_sta di) with true by (symmetry; apply Z.leb_le; lia).
  split_load; simpl; eauto; discriminate.
Qed.

(** With every array in the archive, the error is [ValueError]. *)
Lemma load_data_ValueError (di : t) (npz : archive Arr) :
  has_all_keys npz ->
  (M_dyn di <> 0 /\ M_dyn di <> 1 /\ M_dyn di <> 2) \/ 4 <= M_sta di ->
  snd (load_data npz di) = inl ValueError.
Proof.
  intros (He & Hm & Hf & Hn & Ht & Hs) H. run_load.
  destruct (a_ems npz); [|contradiction].
  destruct (a_meta npz); [|contradiction].
  destruct (a_flow npz); [|contradiction].
  destruct (a_neighbor_adj npz); [|contradiction].
  destruct (a_trans_adj npz); [|contradiction].
  destruct (a_semantic_adj npz); [|contradiction].
  destruct H as [(H0 & H1 & H2) | H4].
  - apply Z.eqb_neq in H0, H1, H2. rewrite H0, H1, H2.
    destruct (norm_opt di); reflexivity.
  - replace (4 <=? M_sta di) with true by (symmetry; apply Z.leb_le; lia).
    replace (3 <=? M_sta di) with true by (symmetry; apply Z.leb_le; lia).
    replace (2 <=? M_sta di) with true by (symmetry; apply Z.leb_le; lia).
    replace (1 <=? M_sta di) with true by (symmetry; apply Z.leb_le; lia).
    destruct (norm_opt di), (M_dyn di =? 0), (M_dyn di =? 1),
      (M_dyn di =? 2); reflexivity.
Qed.

Lemma bind_keeps {X Y} (c : M X) (k : X -> M Y) :
  (forall di, fst (c di) = di) ->
  (forall x di, fst (k x di) = di) ->
  forall di, fst (bind c k di) = di.
Proof.
  intros Hc Hk di. unfold bind. specialize (Hc di).
  destruct (c di) as [di' [e|x]]; simpl in Hc; subst di'.
  - reflexivity.
  - apply Hk.
Qed.

Ltac keeps :=
  repeat match goal with
         | |- forall _, _ => intro
         | |- fst (bind _ _ _) = _ => apply bind_keeps
         | |- fst ((if ?b then _ else _) _) = _ => destruct b
         | |- fst (get _ ?f _) = _ => destruct f; reflexivity
         | |- _ => reflexivity
         end.

(** Without normalisation [load_data] leaves the object as it is. *)
Lemma load_data_keeps_state (di : t) (npz : archive Arr) :
  norm_opt di = false -> fst (load_data npz di) = di.
Proof.
  intros H. unfold load_data. unfold bind at 1, self.
  rewrite H. keeps.
Qed.

End Loading.

(** C8.  For every dynamic-mobility level outside {0, 1, 2} and for every
    static-adjacency level of 4 or more, [load_data] raises and returns
    no dataset; when the archive holds all its arrays the error is the
    [ValueError] of the level check. *)
Theorem C8_invalid_levels_raise (Arr : Type) (di : DataInput.t)
    (npz : DataInput.archive Arr) :
  (DataInput.M_dyn di <> 0 /\ DataInput.M_dyn di <> 1 /\
   DataInput.M_dyn di <> 2) \/ 4 <= DataInput.M_sta di ->
  (exists e, snd (DataInput.load_data npz di) = inl e) /\
  (DataInput.has_all_keys npz ->
   snd (DataInput.load_data npz di) = inl ValueError).
Proof.
  intros H. split.
  - destruct H as [(H0 & H1 & H2) | H4].
    + apply load_data_bad_M_dyn; assumption.
    + apply load_data_bad_M_sta; assumption.
  - intros Hk. apply load_data_ValueError; assumption.
Qed.

(** A full archive loaded with the levels (3, 0) and (1, 4). *)
Lemma C8_invalid_levels_raise_witness :
  let npz := DataInput.mk_archive (Some [1%R]) (Some tt)
               (Some [[1%R; 2%R]]) (Some tt) (Some tt) (Some tt) in
  snd (DataInput.load_data npz (DataInput.init (3, 0) false))
  = inl ValueError /\
  snd (DataInput.load_data npz (DataInput.init (1, 4) false))
  = inl ValueError.
Proof.
  cbv zeta. split.
  - apply (C8_invalid_levels_raise unit (DataInput.init (3, 0) false)).
    + left. simpl. lia.
    + repeat split; discriminate.
  - apply (C8_invalid_levels_raise unit (DataInput.init (1, 4) false)).
    + right. simpl. lia.
    + repeat split; discriminate.
Defined.

(** ** Per-split dataset *)



Lemma length_slice {X} (l : list X) (lo n : Z) :
  0 <= lo -> 0 <= n -> lo + n <= Py.len l ->
  Py.len (Py.slice l lo (lo + n)) = n.
Proof.
  intros Hlo Hn Hl. unfold Py.slice, Py.clamp.
  replace (lo <? 0) with false by (symmetry; apply Z.ltb_ge; lia).
  replace (lo + n <? 0) with false by (symmetry; apply Z.ltb_ge; lia).
  unfold Py.len in *. rewrite length_firstn, length_skipn. lia.
Qed.

Section GetItem.

Import EMSDataset.

Context {A M F : Type}.
Variable ds : EMSDataset.t A M F.

(** The flow window does not stand in the way of a sample: without a
    flow cycle there is nothing to resolve, and a cycle of [rho >= 1]
    snapshots answers every index. *)
Hypothesis flow_ok : forall fl, flow ds = Some fl -> 0 < rho ds <= Py.len fl.

(** The stored arrays hold [len ds] rows each. *)
Hypothesis x_rows : Py.len (x_seq ds) = len ds.
Hypothesis meta_rows : Py.len (meta_seq ds) = len ds.
Hypothesis y_rows : Py.len (output ds) = len ds.


(** A negative index counts from the end of the split. *)
Lemma getitem_negative_rows (item : Z) :
  - len ds <= item < 0 ->
  Py.index (x_seq ds) item = Py.index (x_seq ds) (item + len ds) /\
  Py.index (meta_seq ds) item = Py.index (meta_seq ds) (item + len ds) /\
  Py.index (output ds) item = Py.index (output ds) (item + len ds).
Proof.
  intros Hi. unfold Py.index. rewrite x_rows, meta_rows, y_rows.
  rewrite (resolve_negative (len ds) item) by lia.
  rewrite (resolve_nonneg (len ds) (item + len ds)) by lia.
  repeat split.
Qed.

End GetItem.




(** ** Evaluation *)

Section Evaluation.

Import ModelTrainer.

(** Once a mode has a batch, [test] reaches [std_denormalize], which
    fails on an object without [_std]. *)
Lemma test_needs_std (di : DataInput.t) (ld : Mode -> list eval_batch)
    (m : Mode) (ms : list Mode) :
  DataInput._std di = None -> ld m <> [] ->
  test di ld (m :: ms) = inl (AttributeError "_std").
Proof.
  intros Hs Hb. simpl. unfold test_mode, concatenate.
  destruct (ld m) as [|b bs]; [contradiction|]. simpl.
  unfold DataInput.std_denormalize. rewrite Hs. reflexivity.
Qed.

Lemma minmax_normalize_keeps_std (di di' : DataInput.t) (x x' : list R) :
  DataInput.minmax_normalize di x = Some (di', x') ->
  DataInput._std di' = DataInput._std di.
Proof.
  unfold DataInput.minmax_normalize.
  destruct (Np.max x), (Np.min x); try discriminate.
  intros [= <- _]. reflexivity.
Qed.

End Evaluation.

(** C10.  [test] applies [std_denormalize] whatever normalisation was
    configured.  On an object created with [norm_opt = False], after
    [load_data] has returned its dataset, and on an object on which only
    [minmax_normalize] has run, the evaluation of the first mode that
    has a batch fails at that call with the missing [_std] attribute;
    no metric is reported. *)
Theorem C10_test_fails_without_std (Arr : Type) (M_adj : Z * Z)
    (npz : DataInput.archive Arr)
    (ld : Mode -> list ModelTrainer.eval_batch)
    (m : Mode) (ms : list Mode) :
  ld m <> [] ->
  (forall ds,
      snd (DataInput.load_data npz (DataInput.init M_adj false)) = inr ds ->
      ModelTrainer.test
        (fst (DataInput.load_data npz (DataInput.init M_adj false)))
        ld (m :: ms)
      = inl (AttributeError "_std")) /\
  (forall norm_opt x di' x',
      DataInput.minmax_normalize (DataInput.init M_adj norm_opt) x
      = Some (di', x') ->
      ModelTrainer.test di' ld (m :: ms) = inl (AttributeError "_std")).
Proof.
  intros Hb. split.
  - intros ds _. apply test_needs_std; [|exact Hb].
    rewrite load_data_keeps_state; reflexivity.
  - intros norm_opt x di' x' Hn. apply test_needs_std; [|exact Hb].
    rewrite (minmax_normalize_keeps_std _ _ _ _ Hn). reflexivity.
Qed.

(** An object loaded without normalisation, evaluated on one batch. *)
Lemma C10_test_fails_without_std_witness :
  let npz := DataInput.mk_archive (Some [1%R; 3%R]) (Some tt)
               None None None None in
  let ld := fun _ : Mode => [([1%R], [2%R])] in
  snd (DataInput.load_data npz (DataInput.init (0, 0) false))
  = inr (DataInput.mk_dataset (Some [1%R; 3%R]) (Some tt)
                              None None None None) /\
  ModelTrainer.test
    (fst (DataInput.load_data npz (DataInput.init (0, 0) false)))
    ld [Test]
  = inl (AttributeError "_std").
Proof.
  cbv zeta. split; [reflexivity|].
  assert (Hb : (fun _ : Mode => [([1%R], [2%R])]) Test <> [])
    by discriminate.
  apply (proj1 (C10_test_fails_without_std unit (0, 0)
                  (DataInput.mk_archive (Some [1%R; 3%R]) (Some tt)
                                        None None None None)
                  (fun _ : Mode => [([1%R], [2%R])]) Test [] Hb)
               (DataInput.mk_dataset (Some [1%R; 3%R]) (Some tt)
                                     None None None None)).
  reflexivity.
Defined.

(** * Further properties of the code *)

(** ** Flow-window resolver, continued *)

Lemma mapM_const {A B} (f : A -> option B) (l : list A) (x : B) :
  (forall a, In a l -> f a = Some x) ->
  Py.mapM f l = Some (repeat x (List.length l)).
Proof.
  induction l as [|a l IH]; simpl; intros H; [reflexivity|].
  rewrite (H a) by auto. rewrite IH by auto. reflexivity.
Qed.

Lemma rev_repeat {B} (x : B) (n : nat) : rev (repeat x n) = repeat x n.
Proof.
  induction n as [|n IH]; [reflexivity|]. simpl. rewrite IH.
  change [x] with (repeat x 1). rewrite <- repeat_app.
  replace (n + 1)%nat with (S n) by lia. reflexivity.
Qed.

Lemma length_scale_times (y n f : Z) :
  List.length (EMSDataset.scale_times y n f) = Z.to_nat n.
Proof.
  unfold EMSDataset.scale_times, Py.range.
  rewrite !length_map, length_seq. f_equal. lia.
Qed.

(** A timestamp a whole number of cycles away is looked up at the same
    cycle position. *)
Lemma lookup_shift {F} (rho : Z) (fl : list F) (ts k : Z) :
  EMSDataset.lookup rho fl (ts + k * rho) = EMSDataset.lookup rho fl ts.
Proof.
  unfold EMSDataset.lookup, Py.modulo.
  destruct (rho =? 0) eqn:E; [reflexivity|].
  apply Z.eqb_neq in E. rewrite Z.mod_add by exact E. reflexivity.
Qed.

(** X1.  On a flow cycle of at least [rho >= 1] snapshots, and with
    non-negative window lengths, [timestamp_query] returns, for every
    sample index (negative ones included), a window of exactly
    [weekly_len + daily_len + serial_len] snapshots. *)
Theorem X1_flow_window_length {A M F : Type} (ds : EMSDataset.t A M F)
    (fl : list F) (item : Z) :
  0 <= EMSDataset.weekly_len ds -> 0 <= EMSDataset.daily_len ds ->
  0 <= EMSDataset.serial_len ds ->
  0 < EMSDataset.rho ds <= Py.len fl ->
  exists P,
    EMSDataset.timestamp_query ds fl item = Some P /\
    Py.len P = EMSDataset.weekly_len ds + EMSDataset.daily_len ds
               + EMSDataset.serial_len ds.
Proof.
  intros Hw Hd Hs Hr.
  destruct (timestamp_query_total ds fl item Hr) as [P HP].
  exists P. split; [exact HP|].
  apply (timestamp_query_length ds fl item P Hw Hd Hs HP).
Qed.

(** A dataset of three-step windows over a cycle of two snapshots,
    queried at a negative index. *)
Lemma X1_flow_window_length_witness :
  exists P,
    EMSDataset.timestamp_query
      (EMSDataset.mk 1 1 1 2 Train (mk_mode_len 1 0 0) 0
                     [[1; 2; 3]] [[1; 2; 3]] (Some [10; 11]) [4])
      [10; 11] (-5) = Some P /\
    Py.len P = 1 + 1 + 1.
Proof.
  apply (X1_flow_window_length
           (EMSDataset.mk 1 1 1 2 Train (mk_mode_len 1 0 0) 0
                          [[1; 2; 3]] [[1; 2; 3]] (Some [10; 11]) [4])
           [10; 11] (-5)).
  - simpl. lia.
  - simpl. lia.
  - simpl. lia.
  - vm_compute. split; [reflexivity | discriminate].
Defined.

(** X2.  The weekly and daily lags are whole numbers of cycles, so every
    weekly and daily position of the flow window holds one and the same
    snapshot, the one at the target's own cycle position
    [sample_y_time mod rho]; only the serial positions differ. *)
Theorem X2_flow_window_periodic_part {A M F : Type}
    (ds : EMSDataset.t A M F) (fl : list F) (item : Z) :
  0 <= EMSDataset.weekly_len ds -> 0 <= EMSDataset.daily_len ds ->
  0 < EMSDataset.rho ds <= Py.len fl ->
  exists x P,
    Py.index fl (EMSDataset.sample_y_time ds item mod EMSDataset.rho ds)
    = Some x /\
    EMSDataset.timestamp_query ds fl item = Some P /\
    firstn (Z.to_nat (EMSDataset.weekly_len ds + EMSDataset.daily_len ds)) P
    = repeat x (Z.to_nat (EMSDataset.weekly_len ds
                          + EMSDataset.daily_len ds)).
Proof.
  intros Hw Hd Hr.
  set (y := EMSDataset.sample_y_time ds item).
  set (rho := EMSDataset.rho ds) in *.
  assert (Hy : exists x, EMSDataset.lookup rho fl y = Some x).
  { unfold EMSDataset.lookup, Py.modulo.
    replace (rho =? 0) with false by (symmetry; apply Z.eqb_neq; lia).
    apply index_is_Some. pose proof (Z.mod_pos_bound y rho). lia. }
  destruct Hy as [x Hx]. exists x.
  assert (Hper : forall n f k ts,
             f = k * rho ->
             In ts (EMSDataset.scale_times y n f) ->
             EMSDataset.lookup rho fl ts = Some x).
  { intros n f k ts -> Hin. unfold EMSDataset.scale_times in Hin.
    apply in_map_iff in Hin as [t [<- _]].
    replace (y - t * (k * rho)) with (y + (- t * k) * rho) by ring.
    rewrite lookup_shift. exact Hx. }
  destruct (timestamp_query_total ds fl item Hr) as [P HP].
  exists P. split; [|split; [exact HP|]].
  - unfold EMSDataset.lookup, Py.modulo in Hx.
    replace (rho =? 0) with false in Hx
      by (symmetry; apply Z.eqb_neq; lia).
    exact Hx.
  - rewrite timestamp_query_lookups in HP.
    unfold EMSDataset.query_times, EMSDataset.scales in HP.
    cbn [flat_map fst snd] in HP. rewrite app_nil_r in HP.
    fold y rho in HP.
    rewrite !mapM_app, !mapM_rev in HP.
    rewrite (mapM_const _ _ x
               (fun ts => Hper _ (rho * 7) 7 ts (Z.mul_comm rho 7))) in HP.
    rewrite (mapM_const _ _ x
               (fun ts => Hper _ rho 1 ts (eq_sym (Z.mul_1_l rho)))) in HP.
    cbn [option_map] in HP.
    destruct (option_map _ _) as [Ps|]; [|discriminate].
    injection HP as <-.
    rewrite !rev_repeat, !length_scale_times.
    rewrite app_assoc, <- repeat_app, <- Z2Nat.inj_add by lia.
    rewrite firstn_app, repeat_length, Nat.sub_diag.
    rewrite firstn_O, app_nil_r.
    apply firstn_all2. rewrite repeat_length. lia.
Qed.

Lemma X2_flow_window_periodic_part_witness :
  exists x P,
    Py.index [10; 11; 12] (EMSDataset.sample_y_time
      (EMSDataset.mk 2 2 1 3 Train (mk_mode_len 1 0 0) 0
                     [[1]] [[1]] (Some [10; 11; 12]) [4]) 0 mod 3)
    = Some x /\
    EMSDataset.timestamp_query
      (EMSDataset.mk 2 2 1 3 Train (mk_mode_len 1 0 0) 0
                     [[1]] [[1]] (Some [10; 11; 12]) [4])
      [10; 11; 12] 0 = Some P /\
    firstn (Z.to_nat (1 + 2)) P = repeat x (Z.to_nat (1 + 2)).
Proof.
  apply (X2_flow_window_periodic_part
           (EMSDataset.mk 2 2 1 3 Train (mk_mode_len 1 0 0) 0
                          [[1]] [[1]] (Some [10; 11; 12]) [4])
           [10; 11; 12] 0).
  - simpl. lia.
  - simpl. lia.
  - vm_compute. split; [reflexivity | discriminate].
Defined.

Lemma scale_times_shift (y c n f : Z) :
  EMSDataset.scale_times (y + c) n f
  = map (fun ts => ts + c) (EMSDataset.scale_times y n f).
Proof.
  unfold EMSDataset.scale_times. rewrite map_map.
  apply map_ext. intros t. lia.
Qed.

(** X3.  The flow window is periodic in the sample index: indices that
    differ by a whole number of cycles get the same window (or fail
    alike). *)
Theorem X3_flow_window_cycle {A M F : Type} (ds : EMSDataset.t A M F)
    (fl : list F) (item k : Z) :
  EMSDataset.timestamp_query ds fl (item + k * EMSDataset.rho ds)
  = EMSDataset.timestamp_query ds fl item.
Proof.
  rewrite !timestamp_query_lookups.
  unfold EMSDataset.query_times, EMSDataset.scales, EMSDataset.sample_y_time.
  cbn [flat_map fst snd]. rewrite !app_nil_r.
  replace (item + k * EMSDataset.rho ds + Py.max3 _ _ _)
    with (item + Py.max3 (EMSDataset.serial_len ds)
                 (EMSDataset.daily_len ds * EMSDataset.rho ds)
                 (EMSDataset.weekly_len ds * EMSDataset.rho ds * 7)
          + k * EMSDataset.rho ds) by lia.
  rewrite !scale_times_shift, <- !map_rev, <- !map_app, mapM_map.
  apply mapM_ext_in. intros ts _. apply lookup_shift.
Qed.

(** ** Window generator, continued *)

Lemma mapM_nth_error {A B} (f : A -> option B) (l : list A) (bs : list B)
    (j : nat) (b : B) :
  Py.mapM f l = Some bs -> nth_error bs j = Some b ->
  exists a, nth_error l j = Some a /\ f a = Some b.
Proof.
  revert bs j. induction l as [|a l IH]; simpl; intros bs j.
  - intros [= <-]. destruct j; discriminate.
  - destruct (f a) as [b0|] eqn:Ea; [|discriminate].
    destruct (Py.mapM f l) as [bs0|]; [|discriminate].
    intros [= <-]. destruct j as [|j]; simpl.
    + intros [= <-]. eauto.
    + intros H. apply (IH bs0 j eq_refl H).
Qed.

Lemma mapM_In {A B} (f : A -> option B) (l : list A) (bs : list B) (b : B) :
  Py.mapM f l = Some bs -> In b bs -> exists a, In a l /\ f a = Some b.
Proof.
  intros Hm Hb. apply In_nth_error in Hb as [j Hj].
  destruct (mapM_nth_error f l bs j b Hm Hj) as [a [Ha Hf]].
  exists a. split; [eapply nth_error_In; exact Ha | exact Hf].
Qed.

Lemma mapM_map_out {A B C} (f : A -> option B) (k : A -> option C)
    (h : B -> C) (l : list A) (bs : list B) :
  Py.mapM f l = Some bs ->
  (forall a b, In a l -> f a = Some b -> k a = Some (h b)) ->
  Py.mapM k l = Some (map h bs).
Proof.
  revert bs. induction l as [|a l IH]; simpl; intros bs.
  - intros [= <-] _. reflexivity.
  - destruct (f a) as [b|] eqn:Ea; [|discriminate].
    destruct (Py.mapM f l) as [bs0|]; [|discriminate].
    intros [= <-] H. rewrite (H a b) by auto.
    rewrite (IH bs0 eq_refl) by (intros; apply H; auto). reflexivity.
Qed.

Lemma length_skip_reads (g : DataGenerator.t) (i : Z)
    (p : DataGenerator.period) :
  Py.len (DataGenerator.skip_reads g i p)
  = Z.max 0 match p with
            | DataGenerator.Daily => DataGenerator.daily_len g
            | DataGenerator.Weekly => DataGenerator.weekly_len g
            end.
Proof.
  destruct p; unfold Py.len; simpl; rewrite length_map;
    fold (Py.len (Py.range 1 (DataGenerator.daily_len g + 1)));
    fold (Py.len (Py.range 1 (DataGenerator.weekly_len g + 1)));
    rewrite length_range; lia.
Qed.

Lemma length_periodic_window {A} (g : DataGenerator.t) (data : list A)
    (i : Z) (p : DataGenerator.period) (win : list A) :
  DataGenerator.get_periodic_skip_seq g data i p = Some win ->
  Py.len win = Py.len (DataGenerator.skip_reads g i p).
Proof.
  unfold DataGenerator.get_periodic_skip_seq.
  destruct (Py.mapM _ _) as [l|] eqn:E; [|discriminate].
  intros [= <-]. apply mapM_length in E.
  unfold Py.len. rewrite length_rev, E. reflexivity.
Qed.

(** X4.  When [get_feats] returns, its four arrays have one row for each
    index from [start_idx] to the end of the series,
    [max(0, len(data) - start_idx)] rows in all; every Daily row has
    [daily_len] and every Weekly row [weekly_len] elements (none for a
    negative length), every Serial row has [serial_len] elements, and
    the targets are the series from [start_idx] on. *)
Theorem X4_get_feats_shapes {A : Type} (g : DataGenerator.t)
    (data : list A) (serial daily weekly : list (list A)) (y : list A) :
  0 <= DataGenerator.serial_len g ->
  DataGenerator.get_feats g data = Some (serial, daily, weekly, y) ->
  let n := Z.max 0 (Py.len data - DataGenerator.start_idx g) in
  (Py.len serial = n /\ Py.len daily = n /\ Py.len weekly = n /\
   Py.len y = n) /\
  (forall row, In row serial -> Py.len row = DataGenerator.serial_len g) /\
  (forall row, In row daily ->
               Py.len row = Z.max 0 (DataGenerator.daily_len g)) /\
  (forall row, In row weekly ->
               Py.len row = Z.max 0 (DataGenerator.weekly_len g)) /\
  y = Py.slice data (DataGenerator.start_idx g) (Py.len data).
Proof.
  intros Hs. unfold DataGenerator.get_feats, DataGenerator.feats_rows.
  destruct (Py.mapM _ _) as [rows|] eqn:E; [|discriminate].
  intros [= <- <- <- <-]. cbv zeta.
  pose proof (start_idx_max g) as [Hs' _].
  assert (Hrow : forall smp, In smp rows ->
            exists i, DataGenerator.start_idx g <= i < Py.len data /\
                      DataGenerator.feats_at g data i = Some smp).
  { intros smp Hin. destruct (mapM_In _ _ _ _ E Hin) as [i [Hi Hf]].
    exists i. split; [apply emitted_bounds; exact Hi | exact Hf]. }
  assert (Hlen : Py.len rows
                 = Z.max 0 (Py.len data - DataGenerator.start_idx g)).
  { apply mapM_length in E. unfold Py.len at 1. rewrite E.
    apply length_range. }
  repeat split.
  - unfold Py.len. rewrite length_map. exact Hlen.
  - unfold Py.len. rewrite length_map. exact Hlen.
  - unfold Py.len. rewrite length_map. exact Hlen.
  - unfold Py.len. rewrite length_map. exact Hlen.
  - intros row Hin. apply in_map_iff in Hin as [smp [<- Hin]].
    destruct (Hrow smp Hin) as [i [Hi Hf]].
    unfold DataGenerator.feats_at in Hf.
    destruct (DataGenerator.get_periodic_skip_seq g data i _);
      [|discriminate].
    destruct (DataGenerator.get_periodic_skip_seq g data i _);
      [|discriminate].
    destruct (Py.index data i); [|discriminate].
    injection Hf as <-. simpl.
    replace i with (i - DataGenerator.serial_len g
                    + DataGenerator.serial_len g) at 2 by lia.
    apply length_slice; lia.
  - intros row Hin. apply in_map_iff in Hin as [smp [<- Hin]].
    destruct (Hrow smp Hin) as [i [Hi Hf]].
    unfold DataGenerator.feats_at in Hf.
    destruct (DataGenerator.get_periodic_skip_seq g data i
                DataGenerator.Daily) as [dw|] eqn:Ed; [|discriminate].
    destruct (DataGenerator.get_periodic_skip_seq g data i
                DataGenerator.Weekly); [|discriminate].
    destruct (Py.index data i); [|discriminate].
    injection Hf as <-. simpl.
    rewrite (length_periodic_window _ _ _ _ _ Ed).
    apply (length_skip_reads g i DataGenerator.Daily).
  - intros row Hin. apply in_map_iff in Hin as [smp [<- Hin]].
    destruct (Hrow smp Hin) as [i [Hi Hf]].
    unfold DataGenerator.feats_at in Hf.
    destruct (DataGenerator.get_periodic_skip_seq g data i
                DataGenerator.Daily); [|discriminate].
    destruct (DataGenerator.get_periodic_skip_seq g data i
                DataGenerator.Weekly) as [ww|] eqn:Ew; [|discriminate].
    destruct (Py.index data i); [|discriminate].
    injection Hf as <-. simpl.
    rewrite (length_periodic_window _ _ _ _ _ Ew).
    apply (length_skip_reads g i DataGenerator.Weekly).
  - assert (Hy : Py.mapM (Py.index data)
                   (DataGenerator.emitted g (Py.len data))
                 = Some (map DataGenerator.s_y rows)).
    { apply (mapM_map_out _ _ _ _ _ E). intros i smp _ Hf.
      unfold DataGenerator.feats_at in Hf.
      destruct (DataGenerator.get_periodic_skip_seq g data i _);
        [|discriminate].
      destruct (DataGenerator.get_periodic_skip_seq g data i _);
        [|discriminate].
      destruct (Py.index data i); [|discriminate].
      injection Hf as <-. reflexivity. }
    unfold DataGenerator.emitted in Hy.
    rewrite slice_as_reads in Hy.
    + injection Hy as <-. reflexivity.
    + lia.
    + unfold Py.len. lia.
Qed.

(** A series of six steps windowed with [dt = 24] and
    [obs_len = (2, 1, 0)]. *)
Lemma X4_get_feats_shapes_witness :
  (Py.len [[10; 11]; [11; 12]; [12; 13]; [13; 14]] = 4
   /\ Py.len [[11]; [12]; [13]; [14]] = 4
   /\ Py.len [[]; []; []; [] : list Z] = 4
   /\ Py.len [12; 13; 14; 15] = 4) /\
  (forall row, In row [[10; 11]; [11; 12]; [12; 13]; [13; 14]] ->
               Py.len row = 2) /\
  (forall row, In row [[11]; [12]; [13]; [14]] -> Py.len row = 1) /\
  (forall row, In row [[]; []; []; [] : list Z] -> Py.len row = 0) /\
  [12; 13; 14; 15] = Py.slice [10; 11; 12; 13; 14; 15] 2 6.
Proof.
  apply (X4_get_feats_shapes (DataGenerator.mk 1 2 1 0)
           [10; 11; 12; 13; 14; 15]).
  - simpl. lia.
  - reflexivity.
Defined.

(** The lags the windows are meant to hold, oldest first:
    [i - n*step, ..., i - 2*step, i - step]. *)
Lemma skip_reads_single (g : DataGenerator.t) (i : Z)
    (p : DataGenerator.period) :
  DataGenerator.daily_len g <= 1 -> DataGenerator.weekly_len g <= 1 ->
  DataGenerator.skip_reads g i p
  = match p with
    | DataGenerator.Daily =>
        map (fun k => i - k * DataGenerator.day_timesteps g)
            (Py.range 1 (DataGenerator.daily_len g + 1))
    | DataGenerator.Weekly =>
        map (fun k => i - k * (DataGenerator.day_timesteps g * 7))
            (Py.range 1 (DataGenerator.weekly_len g + 1))
    end.
Proof.
  intros Hd Hw. destruct p; simpl; apply map_ext_in; intros k Hk;
    apply In_range in Hk.
  - assert (DataGenerator.daily_len g = 1) by lia.
    assert (k = 1) by lia. subst k. nia.
  - assert (DataGenerator.weekly_len g = 1) by lia.
    assert (k = 1) by lia. subst k. nia.
Qed.

(** X5.  With at most one daily and one weekly lag (and a positive
    number of timesteps per day), [get_feats] never raises, whatever the
    series, and every sample [i] it emits holds
    [Serial = data[i-serial_len : i]], the Daily window [[data[i - p]]]
    (or nothing), the Weekly window [[data[i - 7p]]] (or nothing) and
    the target [data[i]]: every read is at an index in [[0, i)]. *)
Theorem X5_single_lag_windows {A : Type} (g : DataGenerator.t)
    (data : list A) :
  0 < DataGenerator.day_timesteps g ->
  0 <= DataGenerator.serial_len g ->
  0 <= DataGenerator.daily_len g <= 1 ->
  0 <= DataGenerator.weekly_len g <= 1 ->
  (exists rows, DataGenerator.feats_rows g data = Some rows) /\
  forall i, DataGenerator.start_idx g <= i < Py.len data ->
    exists smp,
      DataGenerator.feats_at g data i = Some smp /\
      DataGenerator.s_serial smp
      = Py.slice data (i - DataGenerator.serial_len g) i /\
      Py.mapM (Py.index data)
        (map (fun k => i - k * DataGenerator.day_timesteps g)
             (rev (Py.range 1 (DataGenerator.daily_len g + 1))))
      = Some (DataGenerator.s_daily smp) /\
      Py.mapM (Py.index data)
        (map (fun k => i - k * (DataGenerator.day_timesteps g * 7))
             (rev (Py.range 1 (DataGenerator.weekly_len g + 1))))
      = Some (DataGenerator.s_weekly smp) /\
      Py.index data i = Some (DataGenerator.s_y smp) /\
      forall k, In (Some k) (DataGenerator.resolved_reads g (Py.len data) i)
                \/ In k (DataGenerator.skip_reads g i DataGenerator.Daily)
                \/ In k (DataGenerator.skip_reads g i DataGenerator.Weekly)
                -> 0 <= k < i.
Proof.
  intros Hp Hs Hd Hw.
  assert (Hat : forall i, DataGenerator.start_idx g <= i < Py.len data ->
    exists smp,
      DataGenerator.feats_at g data i = Some smp /\
      DataGenerator.s_serial smp
      = Py.slice data (i - DataGenerator.serial_len g) i /\
      Py.mapM (Py.index data)
        (map (fun k => i - k * DataGenerator.day_timesteps g)
             (rev (Py.range 1 (DataGenerator.daily_len g + 1))))
      = Some (DataGenerator.s_daily smp) /\
      Py.mapM (Py.index data)
        (map (fun k => i - k * (DataGenerator.day_timesteps g * 7))
             (rev (Py.range 1 (DataGenerator.weekly_len g + 1))))
      = Some (DataGenerator.s_weekly smp) /\
      Py.index data i = Some (DataGenerator.s_y smp) /\
      forall k, In (Some k) (DataGenerator.resolved_reads g (Py.len data) i)
                \/ In k (DataGenerator.skip_reads g i DataGenerator.Daily)
                \/ In k (DataGenerator.skip_reads g i DataGenerator.Weekly)
                -> 0 <= k < i).
  { intros i Hi.
    pose proof (start_idx_max g) as [Hs' _].
    assert (Hin : forall p k, In k (DataGenerator.skip_reads g i p) ->
                              0 <= k < i)
      by (intros p k; apply (skip_reads_single_lag g (Py.len data));
          lia || assumption).
    assert (Hread : forall p, exists l,
               Py.mapM (Py.index data) (DataGenerator.skip_reads g i p)
               = Some l).
    { intros p. apply mapM_total. intros k Hk. apply index_is_Some.
      specialize (Hin p k Hk). lia. }
    destruct (Hread DataGenerator.Daily) as [dl Hdl].
    destruct (Hread DataGenerator.Weekly) as [wl Hwl].
    assert (Hy : exists y, Py.index data i = Some y)
      by (apply index_is_Some; lia).
    destruct Hy as [y Hy].
    exists (DataGenerator.mk_sample
              (Py.slice data (i - DataGenerator.serial_len g) i)
              (rev dl) (rev wl) y).
    unfold DataGenerator.feats_at, DataGenerator.get_periodic_skip_seq.
    rewrite Hdl, Hwl, Hy. simpl.
    split; [reflexivity|]. split; [reflexivity|].
    rewrite !map_rev, !mapM_rev.
    pose proof (skip_reads_single g i DataGenerator.Daily) as Ed.
    pose proof (skip_reads_single g i DataGenerator.Weekly) as Ew.
    simpl in Ed, Ew. rewrite <- Ed, <- Ew by lia.
    change (Py.mapM (Py.index data)
              (DataGenerator.skip_reads g i DataGenerator.Daily)
            = Some dl) in Hdl.
    change (Py.mapM (Py.index data)
              (DataGenerator.skip_reads g i DataGenerator.Weekly)
            = Some wl) in Hwl.
    simpl in Hdl, Hwl. rewrite Hdl, Hwl.
    split; [reflexivity|]. split; [reflexivity|]. split; [reflexivity|].
    intros k [Hk | [Hk | Hk]].
    - unfold DataGenerator.resolved_reads in Hk.
      rewrite !in_app_iff, !in_map_iff in Hk.
      destruct Hk as [[k' [[= ->] Hk]] | [[k' [Hr Hk]] | [k' [Hr Hk]]]].
      + apply (serial_reads_in_window g (Py.len data) i k Hs Hi Hk).
      + specialize (Hin _ _ Hk). rewrite resolve_nonneg in Hr by lia.
        injection Hr as <-. exact Hin.
      + specialize (Hin _ _ Hk). rewrite resolve_nonneg in Hr by lia.
        injection Hr as <-. exact Hin.
    - apply (Hin DataGenerator.Daily k Hk).
    - apply (Hin DataGenerator.Weekly k Hk). }
  split; [|exact Hat].
  apply mapM_total. intros i Hi. apply emitted_bounds in Hi.
  destruct (Hat i Hi) as [smp [Hf _]]. eauto.
Qed.

(** Hourly steps with one day and one week of periodic history, on a
    series of 200 steps. *)
Lemma X5_single_lag_windows_witness :
  exists rows,
    DataGenerator.feats_rows (DataGenerator.mk 24 3 1 1) (iota 200)
    = Some rows.
Proof.
  apply (X5_single_lag_windows (DataGenerator.mk 24 3 1 1) (iota 200)).
  - simpl. lia.
  - simpl. lia.
  - simpl. lia.
  - simpl. lia.
Defined.

(** X6.  A time step longer than a day ([dt > 24]) is accepted:
    [day_timesteps = 24 // dt] is 0, [start_idx] falls back to
    [max(serial_len, 0)], and every read of the Daily and Weekly windows
    is at the target index itself, so these windows hold copies of the
    value to be predicted. *)
Theorem X6_coarse_step_reads_target (dt s d w : Z) :
  24 < dt ->
  exists g,
    DataGenerator.init dt (s, d, w) = Some g /\
    DataGenerator.day_timesteps g = 0 /\
    DataGenerator.start_idx g = Z.max s 0 /\
    forall i p k, In k (DataGenerator.skip_reads g i p) -> k = i.
Proof.
  intros Hdt. exists (DataGenerator.mk 0 s d w).
  unfold DataGenerator.init, Py.floordiv.
  replace (dt =? 0) with false by (symmetry; apply Z.eqb_neq; lia).
  rewrite Z.div_small by lia. repeat split.
  - unfold DataGenerator.start_idx, Py.max3. simpl. lia.
  - intros i p k Hk. destruct p; simpl in Hk;
      apply in_map_iff in Hk as [n [<- _]]; lia.
Qed.

Lemma X6_coarse_step_reads_target_witness :
  exists g,
    DataGenerator.init 48 (2, 1, 1) = Some g /\
    DataGenerator.day_timesteps g = 0 /\
    DataGenerator.start_idx g = Z.max 2 0 /\
    forall i p k, In k (DataGenerator.skip_reads g i p) -> k = i.
Proof. apply (X6_coarse_step_reads_target 48 2 1 1). lia. Defined.

(** X7.  A series no longer than [start_idx] gives no sample:
    [get_feats] returns four empty arrays, and no dataset can be built
    from them, for any mode, lengths and offset ([prepare_xy] cannot
    concatenate the empty windows). *)
Theorem X7_short_series_no_dataset {A M F : Type} (g : DataGenerator.t)
    (ems : list A) (meta : list M) (flow : option (list F))
    (start_idx : Z) (ml : ModeLen) (m : Mode) :
  Py.len ems <= DataGenerator.start_idx g ->
  DataGenerator.get_feats g ems = Some ([], [], [], []) /\
  get_data_loader g start_idx ml ems meta flow m = None.
Proof.
  intros Hk.
  assert (E : DataGenerator.get_feats g ems = Some ([], [], [], [])).
  { unfold DataGenerator.get_feats, DataGenerator.feats_rows,
      DataGenerator.emitted, Py.range.
    replace (Z.to_nat (Py.len ems - DataGenerator.start_idx g)) with 0%nat
      by lia.
    reflexivity. }
  split; [exact E|].
  unfold get_data_loader. rewrite E.
  destruct (DataGenerator.get_feats g meta) as [[[[sm dm] wm] ym]|];
    reflexivity.
Qed.

Lemma X7_short_series_no_dataset_witness :
  DataGenerator.get_feats (DataGenerator.mk 24 3 1 1) (iota 100)
  = Some ([], [], [], []) /\
  get_data_loader (DataGenerator.mk 24 3 1 1) 0 (mk_mode_len 10 0 0)
                  (iota 100) (iota 100) (@None (list Z)) Train = None.
Proof.
  apply (X7_short_series_no_dataset (DataGenerator.mk 24 3 1 1)
           (iota 100) (iota 100) None 0 (mk_mode_len 10 0 0) Train).
  vm_compute. discriminate.
Defined.

(** ** Splits, continued *)

Lemma firstn_add_skipn {X} (n m : nat) (l : list X) :
  firstn (n + m) l = firstn n l ++ firstn m (skipn n l).
Proof.
  revert l. induction n as [|n IH]; intros l; [reflexivity|].
  destruct l as [|x l]; simpl.
  - rewrite firstn_nil. reflexivity.
  - rewrite IH. reflexivity.
Qed.

(** Adjacent slices join into one. *)
Lemma slice_app {X} (l : list X) (a b c : Z) :
  0 <= a <= b -> b <= c ->
  Py.slice l a b ++ Py.slice l b c = Py.slice l a c.
Proof.
  intros Hab Hbc. unfold Py.slice, Py.clamp.
  replace (a <? 0) with false by (symmetry; apply Z.ltb_ge; lia).
  replace (b <? 0) with false by (symmetry; apply Z.ltb_ge; lia).
  replace (c <? 0) with false by (symmetry; apply Z.ltb_ge; lia).
  set (n := Py.len l).
  set (a' := Z.max 0 (Z.min n a)). set (b' := Z.max 0 (Z.min n b)).
  set (c' := Z.max 0 (Z.min n c)).
  assert (Hn : 0 <= n) by (unfold n, Py.len; lia).
  replace (Z.to_nat (c' - a'))
    with (Z.to_nat (b' - a') + Z.to_nat (c' - b'))%nat by lia.
  rewrite firstn_add_skipn, skipn_skipn.
  replace (Z.to_nat (b' - a') + Z.to_nat a')%nat with (Z.to_nat b') by lia.
  reflexivity.
Qed.

(** X8.  The three datasets built from the same arrays are consecutive
    and do not overlap: the validate split starts where the train split
    ends and the test split where the validate split ends, and for
    non-negative lengths and offset their targets, in this order, make
    up the one contiguous stretch of the windowed targets from the
    offset on.  Likewise their signal rows make up that stretch of the
    array [prepare_xy] concatenates from the weekly, daily and serial
    windows, and their metadata rows that stretch of the array it
    concatenates from the metadata windows. *)
Theorem X8_splits_are_consecutive {A M F : Type}
    (inputs : EMSDataset.feats A M F) (output : list A) (p s d w : Z)
    (ml : ModeLen) (start_idx : Z) (tr va te : EMSDataset.t A M F) :
  EMSDataset.init inputs output p s d w Train ml start_idx = Some tr ->
  EMSDataset.init inputs output p s d w Validate ml start_idx = Some va ->
  EMSDataset.init inputs output p s d w Test ml start_idx = Some te ->
  0 <= start_idx -> 0 <= len_train ml -> 0 <= len_validate ml ->
  0 <= len_test ml ->
  EMSDataset.start_idx va
  = EMSDataset.start_idx tr + EMSDataset.len tr /\
  EMSDataset.start_idx te
  = EMSDataset.start_idx va + EMSDataset.len va /\
  EMSDataset.output tr ++ EMSDataset.output va ++ EMSDataset.output te
  = Py.slice output start_idx
      (start_idx + (len_train ml + len_validate ml + len_test ml)) /\
  exists xs ms,
    EMSDataset.concatenate_axis1 (EMSDataset.f_weekly inputs)
      (EMSDataset.f_daily inputs) (EMSDataset.f_serial inputs) = Some xs /\
    EMSDataset.concatenate_axis1 (EMSDataset.f_weekly_meta inputs)
      (EMSDataset.f_daily_meta inputs) (EMSDataset.f_serial_meta inputs)
    = Some ms /\
    EMSDataset.x_seq tr ++ EMSDataset.x_seq va ++ EMSDataset.x_seq te
    = Py.slice xs start_idx
        (start_idx + (len_train ml + len_validate ml + len_test ml)) /\
    EMSDataset.meta_seq tr ++ EMSDataset.meta_seq va
      ++ EMSDataset.meta_seq te
    = Py.slice ms start_idx
        (start_idx + (len_train ml + len_validate ml + len_test ml)).
Proof.
  unfold EMSDataset.init, EMSDataset.prepare_xy.
  destruct (EMSDataset.concatenate_axis1 _ _ (EMSDataset.f_serial inputs))
    as [xs|] eqn:Exs; [|discriminate].
  destruct (EMSDataset.concatenate_axis1 _ _
              (EMSDataset.f_serial_meta inputs)) as [ms|] eqn:Ems;
    [|discriminate].
  intros [= <-] [= <-] [= <-] H0 Ht Hv He.
  unfold EMSDataset.len. cbn.
  split; [reflexivity|]. split; [lia|].
  assert (Hjoin : forall X (l : list X),
    Py.slice l start_idx (start_idx + len_train ml)
    ++ Py.slice l (start_idx + len_train ml)
                (start_idx + len_train ml + len_validate ml)
    ++ Py.slice l (start_idx + (len_train ml + len_validate ml))
                (start_idx + (len_train ml + len_validate ml)
                 + len_test ml)
    = Py.slice l start_idx
        (start_idx + (len_train ml + len_validate ml + len_test ml))).
  { intros X l.
    replace (start_idx + (len_train ml + len_validate ml))
      with (start_idx + len_train ml + len_validate ml) by lia.
    rewrite (slice_app l (start_idx + len_train ml)) by lia.
    rewrite (slice_app l start_idx) by lia.
    f_equal. lia. }
  split; [apply Hjoin|].
  exists xs, ms. split; [reflexivity|]. split; [reflexivity|].
  split; apply Hjoin.
Qed.

Lemma X8_splits_are_consecutive_witness :
  let inputs :=
    EMSDataset.mk_feats [[0; 1]; [1; 2]; [2; 3]; [3; 4]]
                        [[1]; [2]; [3]; [4]] [[]; []; []; []]
                        [[0; 1]; [1; 2]; [2; 3]; [3; 4]]
                        [[1]; [2]; [3]; [4]] [[]; []; []; []]
                        (@None (list Z)) in
  exists tr va te,
    EMSDataset.init inputs [2; 3; 4; 5] 1 2 1 0 Train (mk_mode_len 2 1 1) 0
    = Some tr /\
    EMSDataset.init inputs [2; 3; 4; 5] 1 2 1 0 Validate
                    (mk_mode_len 2 1 1) 0 = Some va /\
    EMSDataset.init inputs [2; 3; 4; 5] 1 2 1 0 Test (mk_mode_len 2 1 1) 0
    = Some te /\
    EMSDataset.output tr ++ EMSDataset.output va ++ EMSDataset.output te
    = Py.slice [2; 3; 4; 5] 0 (0 + (2 + 1 + 1)) /\
    EMSDataset.x_seq tr ++ EMSDataset.x_seq va ++ EMSDataset.x_seq te
    = Py.slice [[1; 0; 1]; [2; 1; 2]; [3; 2; 3]; [4; 3; 4]] 0
               (0 + (2 + 1 + 1)).
Proof.
  cbv zeta. eexists. eexists. eexists.
  split; [reflexivity|]. split; [reflexivity|]. split; [reflexivity|].
  destruct (X8_splits_are_consecutive
              (EMSDataset.mk_feats [[0; 1]; [1; 2]; [2; 3]; [3; 4]]
                        [[1]; [2]; [3]; [4]] [[]; []; []; []]
                        [[0; 1]; [1; 2]; [2; 3]; [3; 4]]
                        [[1]; [2]; [3]; [4]] [[]; []; []; []]
                        (@None (list Z)))
              [2; 3; 4; 5] 1 2 1 0 (mk_mode_len 2 1 1) 0 _ _ _
              eq_refl eq_refl eq_refl)
    as (_ & _ & Hy & xs & ms & Hxs & _ & Hx & _).
  - lia.
  - simpl. lia.
  - simpl. lia.
  - simpl. lia.
  - injection Hxs as <-. split; [exact Hy | exact Hx].
Defined.



(** ** Per-split dataset, continued *)

Lemma index_slice_nth {X} (l : list X) (lo hi item : Z) (v : X) :
  0 <= lo -> 0 <= item ->
  Py.index (Py.slice l lo hi) item = Some v ->
  nth_error l (Z.to_nat (lo + item)) = Some v.
Proof.
  intros Hlo Hit. unfold Py.index.
  destruct (Py.resolve _ item) as [j|] eqn:Er; [|discriminate].
  assert (j = item).
  { unfold Py.resolve in Er.
    destruct ((0 <=? item) && (item <? _)); [congruence|].
    destruct ((- _ <=? item) && (item <? 0)) eqn:E2; [|discriminate].
    apply andb_true_iff in E2. lia. }
  subst j. unfold Py.slice, Py.clamp.
  replace (lo <? 0) with false by (symmetry; apply Z.ltb_ge; lia).
  rewrite nth_error_firstn.
  destruct (_ <? _)%nat; [|discriminate].
  rewrite nth_error_skipn. intros H.
  destruct (Z_le_gt_dec lo (Py.len l)) as [Hle|Hgt].
  - rewrite <- H. f_equal. lia.
  - assert (Hn : nth_error l
               (Z.to_nat (Z.max 0 (Z.min (Py.len l) lo)) + Z.to_nat item)
             = None)
      by (apply nth_error_None; unfold Py.len in *; lia).
    congruence.
Qed.

Lemma zip_rows_nth {X} (a b xs : list (list X)) (j : nat) (x : list X) :
  EMSDataset.zip_rows a b = Some xs -> nth_error xs j = Some x ->
  exists ra rb,
    nth_error a j = Some ra /\ nth_error b j = Some rb /\ x = ra ++ rb.
Proof.
  revert b xs j. induction a as [|ra a IH]; intros [|rb b] xs j;
    simpl; try discriminate.
  - intros [= <-]. destruct j; discriminate.
  - destruct (EMSDataset.zip_rows a b) as [ys|] eqn:E; [|discriminate].
    intros [= <-]. destruct j as [|j]; simpl.
    + intros [= <-]. exists ra, rb. repeat split.
    + intros H. apply (IH b ys j E H).
Qed.

Lemma empty_seq_row {X} (a : list (list X)) (j : nat) (r : list X) :
  EMSDataset.is_empty_seq a = true -> nth_error a j = Some r -> r = [].
Proof.
  intros He Hj. destruct a as [|r0 a]; [discriminate|].
  unfold EMSDataset.is_empty_seq in He.
  rewrite forallb_forall in He.
  specialize (He r (nth_error_In _ _ Hj)). destruct r; [reflexivity|].
  discriminate.
Qed.

(** A row of the concatenated array is made of the rows of the three
    window arrays at the same place, an array left out contributing
    nothing. *)
Lemma concatenate_axis1_nth {X} (w d s xs : list (list X)) (j : nat)
    (x : list X) :
  EMSDataset.concatenate_axis1 w d s = Some xs -> nth_error xs j = Some x ->
  exists rw rd rs,
    nth_error s j = Some rs /\ x = rw ++ rd ++ rs /\
    (nth_error w j = Some rw
     \/ (EMSDataset.is_empty_seq w = true /\ rw = [])) /\
    (nth_error d j = Some rd
     \/ (EMSDataset.is_empty_seq d = true /\ rd = [])).
Proof.
  unfold EMSDataset.concatenate_axis1.
  destruct w as [|w0 w]; [discriminate|].
  destruct d as [|d0 d]; [discriminate|].
  destruct s as [|s0 s]; [discriminate|].
  destruct (EMSDataset.is_empty_seq (w0 :: w)) eqn:Ew,
    (EMSDataset.is_empty_seq (d0 :: d)) eqn:Ed.
  - intros [= <-] Hj. exists [], [], x. simpl.
    split; [exact Hj|]. split; [reflexivity|]. split; right; split; auto.
  - intros Hz Hj.
    destruct (zip_rows_nth _ _ _ _ _ Hz Hj) as (ra & rb & Ha & Hb & ->).
    exists [], ra, rb. simpl.
    split; [exact Hb|]. split; [reflexivity|].
    split; [right; split; auto | left; exact Ha].
  - intros Hz Hj.
    destruct (zip_rows_nth _ _ _ _ _ Hz Hj) as (ra & rb & Ha & Hb & ->).
    exists ra, [], rb. simpl.
    split; [exact Hb|]. split; [reflexivity|].
    split; [left; exact Ha | right; split; auto].
  - destruct (EMSDataset.zip_rows (w0 :: w) (d0 :: d)) as [wd|] eqn:Ewd;
      [|discriminate].
    intros Hz Hj.
    destruct (zip_rows_nth _ _ _ _ _ Hz Hj) as (rwd & rs & Hwd & Hs & ->).
    destruct (zip_rows_nth _ _ _ _ _ Ewd Hwd) as (rw & rd & Hw & Hd & ->).
    exists rw, rd, rs. rewrite <- app_assoc.
    split; [exact Hs|]. split; [reflexivity|].
    split; left; assumption.
Qed.

(** The rows of the array concatenated from the windows of a list of
    samples. *)
Lemma concatenate_samples_nth {X S} (fw fd fs : S -> list X)
    (rows : list S) (xs : list (list X)) (j : nat) (x : list X) :
  EMSDataset.concatenate_axis1 (map fw rows) (map fd rows) (map fs rows)
  = Some xs ->
  nth_error xs j = Some x ->
  exists smp, nth_error rows j = Some smp /\ x = fw smp ++ fd smp ++ fs smp.
Proof.
  intros Hc Hj.
  destruct (concatenate_axis1_nth _ _ _ _ _ _ Hc Hj)
    as (rw & rd & rs & Hs & -> & Hw & Hd).
  rewrite nth_error_map in Hs.
  destruct (nth_error rows j) as [smp|] eqn:Esmp; [|discriminate].
  injection Hs as <-. exists smp. split; [reflexivity|].
  assert (Ew : rw = fw smp).
  { destruct Hw as [Hw | [He ->]].
    - rewrite nth_error_map, Esmp in Hw. injection Hw as <-. reflexivity.
    - symmetry. apply (empty_seq_row _ j _ He).
      rewrite nth_error_map, Esmp. reflexivity. }
  assert (Ed : rd = fd smp).
  { destruct Hd as [Hd | [He ->]].
    - rewrite nth_error_map, Esmp in Hd. injection Hd as <-. reflexivity.
    - symmetry. apply (empty_seq_row _ j _ He).
      rewrite nth_error_map, Esmp. reflexivity. }
  rewrite Ew, Ed. reflexivity.
Qed.

Lemma nth_error_range (a b : Z) (j : nat) (i : Z) :
  nth_error (Py.range a b) j = Some i -> i = a + Z.of_nat j.
Proof.
  unfold Py.range. rewrite nth_error_map.
  destruct (nth_error (seq 0 _) j) as [k|] eqn:E; [|discriminate].
  intros [= <-]. rewrite nth_error_seq in E.
  destruct (_ <? _)%nat; [|discriminate]. injection E as <-. reflexivity.
Qed.

Lemma feats_rows_nth {X} (g : DataGenerator.t) (data : list X)
    (rows : list (DataGenerator.sample X)) (j : nat)
    (smp : DataGenerator.sample X) :
  DataGenerator.feats_rows g data = Some rows ->
  nth_error rows j = Some smp ->
  DataGenerator.feats_at g data (DataGenerator.start_idx g + Z.of_nat j)
  = Some smp.
Proof.
  intros Hr Hj. unfold DataGenerator.feats_rows in Hr.
  destruct (mapM_nth_error _ _ _ _ _ Hr Hj) as [i [Hi Hf]].
  apply nth_error_range in Hi. subst i. exact Hf.
Qed.

Lemma nth_error_map_inv {X Y} (f : X -> Y) (l : list X) (j : nat) (y : Y) :
  nth_error (map f l) j = Some y ->
  exists x, nth_error l j = Some x /\ f x = y.
Proof.
  rewrite nth_error_map. destruct (nth_error l j) as [x|]; [|discriminate].
  intros [= <-]. eauto.
Qed.

(** X10.  What [__getitem__] hands out for a non-negative index [item]
    of a dataset built by [get_data_loader] is the windowed sample of
    the time step [start_idx + split start + item] of the series (with
    [start_idx] the generator's first target index and the split start
    the planner's offset moved by the preceding splits): its signal row
    is that step's Weekly, Daily and Serial windows in this order, its
    metadata row the same windows of the metadata series, and its
    target the series' value at that step. *)
Theorem X10_getitem_is_windowed_sample {A M F : Type}
    (g : DataGenerator.t) (off : Z) (ml : ModeLen) (ems : list A)
    (meta : list M) (flow : option (list F)) (m : Mode)
    (ds : EMSDataset.t A M F) (item : Z)
    (x : list A) (mt : list M) (P : option (list F)) (y : A) :
  get_data_loader g off ml ems meta flow m = Some ds ->
  0 <= EMSDataset.split_start m ml off -> 0 <= item ->
  EMSDataset.getitem ds item = Some (x, mt, P, y) ->
  let i := DataGenerator.start_idx g
           + (EMSDataset.split_start m ml off + item) in
  exists smp smp_meta,
    DataGenerator.feats_at g ems i = Some smp /\
    DataGenerator.feats_at g meta i = Some smp_meta /\
    x = DataGenerator.s_weekly smp ++ DataGenerator.s_daily smp
        ++ DataGenerator.s_serial smp /\
    mt = DataGenerator.s_weekly smp_meta ++ DataGenerator.s_daily smp_meta
         ++ DataGenerator.s_serial smp_meta /\
    y = DataGenerator.s_y smp /\
    Py.index ems i = Some y.
Proof.
  intros Hld Hlo Hit Hget. cbv zeta.
  unfold get_data_loader, DataGenerator.get_feats in Hld.
  destruct (DataGenerator.feats_rows g ems) as [rows|] eqn:Er;
    [|discriminate].
  destruct (DataGenerator.feats_rows g meta) as [mrows|] eqn:Em;
    [|discriminate].
  cbn [option_map] in Hld.
  unfold EMSDataset.init, EMSDataset.prepare_xy in Hld.
  cbn [EMSDataset.f_weekly EMSDataset.f_daily EMSDataset.f_serial
       EMSDataset.f_weekly_meta EMSDataset.f_daily_meta
       EMSDataset.f_serial_meta EMSDataset.f_flow] in Hld.
  destruct (EMSDataset.concatenate_axis1 (map _ rows) _ _) as [xs|] eqn:Exs;
    [|discriminate].
  destruct (EMSDataset.concatenate_axis1 (map _ mrows) _ _) as [ms|]
    eqn:Ems; [|discriminate].
  injection Hld as <-.
  unfold EMSDataset.getitem in Hget.
  cbn [EMSDataset.flow EMSDataset.x_seq EMSDataset.meta_seq
       EMSDataset.output] in Hget.
  destruct (match flow with Some _ => _ | None => _ end) as [P'|];
    [|discriminate].
  destruct (Py.index (Py.slice xs _ _) item) as [x'|] eqn:Ex;
    [|discriminate].
  destruct (Py.index (Py.slice ms _ _) item) as [mt'|] eqn:Emt;
    [|discriminate].
  destruct (Py.index (Py.slice (map _ rows) _ _) item) as [y'|] eqn:Ey;
    [|discriminate].
  injection Hget as -> -> _ ->.
  apply index_slice_nth in Ex, Emt, Ey; try assumption.
  set (j := Z.to_nat (EMSDataset.split_start m ml off + item)) in *.
  destruct (concatenate_samples_nth _ _ _ _ _ _ _ Exs Ex)
    as (smp & Hsmp & ->).
  destruct (concatenate_samples_nth _ _ _ _ _ _ _ Ems Emt)
    as (q & Hq & ->).
  apply nth_error_map_inv in Ey as (smp3 & Hsmp3 & <-).
  assert (smp3 = smp) by congruence. subst.
  exists smp, q.
  pose proof (feats_rows_nth g ems rows j smp Er Hsmp) as Hf.
  pose proof (feats_rows_nth g meta mrows j q Em Hq) as Hfm.
  replace (Z.of_nat j) with (EMSDataset.split_start m ml off + item)
    in Hf, Hfm by (unfold j; lia).
  repeat split; try assumption.
  unfold DataGenerator.feats_at in Hf.
  destruct (DataGenerator.get_periodic_skip_seq g ems _ _); [|discriminate].
  destruct (DataGenerator.get_periodic_skip_seq g ems _ _); [|discriminate].
  destruct (Py.index ems _) as [y0|]; [|discriminate].
  injection Hf as <-. reflexivity.
Qed.

(** Sample 0 of the validate split, which starts 2 samples after the
    generator's first target, step 2: the sample of step 4. *)
Lemma X10_getitem_is_windowed_sample_witness :
  exists smp smp_meta,
    DataGenerator.feats_at (DataGenerator.mk 1 2 1 0) [10; 11; 12; 13; 14; 15]
                           (2 + (2 + 0)) = Some smp /\
    DataGenerator.feats_at (DataGenerator.mk 1 2 1 0) [20; 21; 22; 23; 24; 25]
                           (2 + (2 + 0)) = Some smp_meta /\
    [13; 12; 13] = DataGenerator.s_weekly smp ++ DataGenerator.s_daily smp
                   ++ DataGenerator.s_serial smp /\
    [23; 22; 23] = DataGenerator.s_weekly smp_meta
                   ++ DataGenerator.s_daily smp_meta
                   ++ DataGenerator.s_serial smp_meta /\
    14 = DataGenerator.s_y smp /\
    Py.index [10; 11; 12; 13; 14; 15] (2 + (2 + 0)) = Some 14.
Proof.
  eapply (X10_getitem_is_windowed_sample (DataGenerator.mk 1 2 1 0) 0
            (mk_mode_len 2 1 1) [10; 11; 12; 13; 14; 15]
            [20; 21; 22; 23; 24; 25] (@None (list Z)) Validate _ 0
            [13; 12; 13] [23; 22; 23] None 14).
  - reflexivity.
  - simpl. lia.
  - lia.
  - reflexivity.
Defined.

(** X11.  The flow window of sample [item] does not depend on the split:
    datasets built over the same generator and flow cycle, whatever
    their mode, split lengths and start offset, return the same flow
    window for the same [item], although their targets lie at different
    time steps. *)
Theorem X11_flow_window_ignores_split {A M F : Type}
    (g : DataGenerator.t) (off1 off2 : Z) (ml1 ml2 : ModeLen)
    (ems : list A) (meta : list M) (fl : list F) (m1 m2 : Mode)
    (ds1 ds2 : EMSDataset.t A M F) (item : Z) :
  get_data_loader g off1 ml1 ems meta (Some fl) m1 = Some ds1 ->
  get_data_loader g off2 ml2 ems meta (Some fl) m2 = Some ds2 ->
  EMSDataset.timestamp_query ds1 fl item
  = EMSDataset.timestamp_query ds2 fl item.
Proof.
  unfold get_data_loader.
  destruct (DataGenerator.get_feats g ems) as [[[[sr dl] wk] out]|];
    [|discriminate].
  destruct (DataGenerator.get_feats g meta) as [[[[srm dlm] wkm] outm]|];
    [|discriminate].
  unfold EMSDataset.init.
  destruct (EMSDataset.prepare_xy m1 _ _ _ _) as [[[st1 [[x1 mt1] f1]] y1]|];
    [|discriminate].
  destruct (EMSDataset.prepare_xy m2 _ _ _ _) as [[[st2 [[x2 mt2] f2]] y2]|];
    [|discriminate].
  intros [= <-] [= <-]. reflexivity.
Qed.

Lemma X11_flow_window_ignores_split_witness :
  exists ds1 ds2 : EMSDataset.t Z Z Z,
    get_data_loader (DataGenerator.mk 2 1 1 0) 0 (mk_mode_len 2 1 1)
                    (iota 6) (iota 6) (Some [7; 8]) Train = Some ds1 /\
    get_data_loader (DataGenerator.mk 2 1 1 0) 0 (mk_mode_len 2 1 1)
                    (iota 6) (iota 6) (Some [7; 8]) Test = Some ds2 /\
    EMSDataset.timestamp_query ds1 [7; 8] 0
    = EMSDataset.timestamp_query ds2 [7; 8] 0.
Proof.
  eexists. eexists.
  split; [reflexivity|]. split; [reflexivity|].
  eapply (X11_flow_window_ignores_split (DataGenerator.mk 2 1 1 0) 0 0
            (mk_mode_len 2 1 1) (mk_mode_len 2 1 1) (iota 6) (iota 6)
            [7; 8] Train Test).
  - reflexivity.
  - reflexivity.
Defined.

(** ** Normaliser, continued *)

Section Normalised.

Local Open Scope R_scope.

Lemma sum_map_div (f : R -> R) (c : R) (x : list R) :
  Np.sum (map (fun v => f v / c) x) = Np.sum (map f x) / c.
Proof.
  induction x as [|a x IH]; simpl.
  - unfold Rdiv. ring.
  - rewrite IH. unfold Rdiv. ring.
Qed.

Lemma sum_map_minus (m : R) (x : list R) :
  Np.sum (map (fun v => v - m) x) = Np.sum x - INR (List.length x) * m.
Proof.
  induction x as [|a x IH].
  - simpl. ring.
  - cbn [map Np.sum fold_right List.length]. fold (Np.sum x).
    fold (Np.sum (map (fun v => v - m) x)). rewrite IH, S_INR. ring.
Qed.

Lemma mean_standardised (x : list R) (s : R) :
  Np.mean (map (fun v => (v - Np.mean x) / s) x) = 0.
Proof.
  unfold Np.mean at 1. rewrite length_map.
  rewrite (sum_map_div (fun v => v - Np.mean x)), sum_map_minus.
  destruct x as [|a x].
  - simpl. unfold Rdiv. ring.
  - unfold Np.mean.
    assert (Hn : INR (List.length (a :: x)) <> 0)
      by (apply not_0_INR; discriminate).
    replace (Np.sum (a :: x)
             - INR (List.length (a :: x))
               * (Np.sum (a :: x) / INR (List.length (a :: x))))
      with 0 by (field; exact Hn).
    unfold Rdiv. ring.
Qed.

Lemma fold_max_acc (l : list R) (a : R) : a <= fold_left Rmax l a.
Proof.
  revert a. induction l as [|b l IH]; intros a; simpl; [lra|].
  apply Rle_trans with (Rmax a b); [apply Rmax_l | apply IH].
Qed.

Lemma fold_max_ge (l : list R) (a v : R) :
  In v l -> v <= fold_left Rmax l a.
Proof.
  revert a. induction l as [|b l IH]; intros a Hin; [contradiction|].
  destruct Hin as [<- | Hin]; simpl.
  - apply Rle_trans with (Rmax a b); [apply Rmax_r | apply fold_max_acc].
  - apply IH. exact Hin.
Qed.

Lemma fold_max_in (l : list R) (a : R) : In (fold_left Rmax l a) (a :: l).
Proof.
  revert a. induction l as [|b l IH]; intros a; simpl; [auto|].
  destruct (IH (Rmax a b)) as [E | Hin].
  - rewrite <- E. unfold Rmax. destruct (Rle_dec a b); auto.
  - auto.
Qed.

Lemma fold_min_acc (l : list R) (a : R) : fold_left Rmin l a <= a.
Proof.
  revert a. induction l as [|b l IH]; intros a; simpl; [lra|].
  apply Rle_trans with (Rmin a b); [apply IH | apply Rmin_l].
Qed.

Lemma fold_min_le (l : list R) (a v : R) :
  In v l -> fold_left Rmin l a <= v.
Proof.
  revert a. induction l as [|b l IH]; intros a Hin; [contradiction|].
  destruct Hin as [<- | Hin]; simpl.
  - apply Rle_trans with (Rmin a b); [apply fold_min_acc | apply Rmin_r].
  - apply IH. exact Hin.
Qed.

Lemma fold_min_in (l : list R) (a : R) : In (fold_left Rmin l a) (a :: l).
Proof.
  revert a. induction l as [|b l IH]; intros a; simpl; [auto|].
  destruct (IH (Rmin a b)) as [E | Hin].
  - rewrite <- E. unfold Rmin. destruct (Rle_dec a b); auto.
  - auto.
Qed.

(** [x.max()] is an entry of [x] above all entries, [x.min()] one below
    all. *)
Lemma max_spec (x : list R) (mx : R) :
  Np.max x = Some mx -> In mx x /\ forall v, In v x -> v <= mx.
Proof.
  destruct x as [|a l]; [discriminate|]. intros [= <-]. split.
  - apply fold_max_in.
  - intros v [<- | Hin]; [apply fold_max_acc | apply fold_max_ge, Hin].
Qed.

Lemma min_spec (x : list R) (mn : R) :
  Np.min x = Some mn -> In mn x /\ forall v, In v x -> mn <= v.
Proof.
  destruct x as [|a l]; [discriminate|]. intros [= <-]. split.
  - apply fold_min_in.
  - intros v [<- | Hin]; [apply fold_min_acc | apply fold_min_le, Hin].
Qed.

End Normalised.

(** X12.  Standardisation does what its name says: for an array whose
    standard deviation is not zero, the array [std_normalize] returns
    has mean 0 and standard deviation 1 (in exact arithmetic), and the
    object then holds the mean and the standard deviation of the
    input. *)
Theorem X12_standardised_moments (di : DataInput.t) (x : list R) :
  Np.std x <> 0%R ->
  Np.mean (snd (DataInput.std_normalize di x)) = 0%R /\
  Np.std (snd (DataInput.std_normalize di x)) = 1%R /\
  DataInput._mean (fst (DataInput.std_normalize di x)) = Some (Np.mean x) /\
  DataInput._std (fst (DataInput.std_normalize di x)) = Some (Np.std x).
Proof.
  intros Hs. unfold DataInput.std_normalize. cbn [fst snd].
  split; [apply mean_standardised|].
  split; [|split; reflexivity].
  unfold Np.std at 1. rewrite mean_standardised.
  rewrite map_map.
  set (V := Np.mean (map (fun v => Rsqr (v - Np.mean x)) x)).
  assert (HV : (0 < V)%R).
  { destruct (Rlt_le_dec 0 V) as [H|H]; [exact H|].
    exfalso. apply Hs. unfold Np.std. fold V. apply sqrt_neg_0. exact H. }
  assert (Hsq : Rsqr (Np.std x) = V).
  { unfold Np.std. fold V. apply Rsqr_sqrt. lra. }
  rewrite (map_ext _ (fun v => (Rsqr (v - Np.mean x) / V)%R)).
  - unfold Np.mean at 1. rewrite length_map.
    rewrite (sum_map_div (fun v => Rsqr (v - Np.mean x))).
    assert (HVdef : V = (Np.sum (map (fun v => Rsqr (v - Np.mean x)) x)
                         / INR (List.length x))%R)
      by (unfold V, Np.mean at 1; rewrite length_map; reflexivity).
    replace (Np.sum (map (fun v => Rsqr (v - Np.mean x)) x) / V
             / INR (List.length x))%R
      with (Np.sum (map (fun v => Rsqr (v - Np.mean x)) x)
            / INR (List.length x) / V)%R
      by (unfold Rdiv; ring).
    rewrite <- HVdef.
    replace (V / V)%R with 1%R by (field; lra).
    apply sqrt_1.
  - intros v. rewrite <- Hsq. unfold Rsqr. field. exact Hs.
Qed.

(** The array [[0; 2]], of mean 1 and standard deviation 1. *)
Lemma X12_standardised_moments_witness :
  let di := DataInput.init (0, 0) true in
  Np.mean (snd (DataInput.std_normalize di [0; 2]%R)) = 0%R /\
  Np.std (snd (DataInput.std_normalize di [0; 2]%R)) = 1%R.
Proof.
  cbv zeta.
  assert (Hs : Np.std [0; 2]%R <> 0%R).
  { unfold Np.std, Np.mean, Np.sum. simpl.
    replace (_ / (1 + 1))%R with 1%R by (unfold Rsqr; field).
    rewrite sqrt_1. lra. }
  pose proof (X12_standardised_moments (DataInput.init (0, 0) true)
                [0; 2]%R Hs) as (H1 & H2 & _).
  split; assumption.
Defined.

(** X13.  Min-max normalisation maps into [[-1, 1]]: when the maximum
    of the array differs from its minimum, every entry of the array
    [minmax_normalize] returns lies between -1 and 1, and both ends are
    reached (by the minimum and by the maximum). *)
Theorem X13_minmax_range (di di' : DataInput.t) (x x' : list R) :
  DataInput.minmax_normalize di x = Some (di', x') ->
  Np.max x <> Np.min x ->
  (forall v, In v x' -> (-1 <= v <= 1)%R) /\
  In (-1)%R x' /\ In 1%R x'.
Proof.
  unfold DataInput.minmax_normalize.
  destruct (Np.max x) as [mx|] eqn:Emx; [|discriminate].
  destruct (Np.min x) as [mn|] eqn:Emn; [|discriminate].
  intros [= _ <-] Hne.
  apply max_spec in Emx as [Himx Hmx].
  apply min_spec in Emn as [Himn Hmn].
  assert (Hlt : (mn < mx)%R).
  { specialize (Hmx mn Himn).
    destruct (Rle_lt_or_eq_dec _ _ Hmx) as [H|H]; [exact H|].
    exfalso. apply Hne. congruence. }
  split; [|split].
  - intros v Hv. apply in_map_iff in Hv as [u [<- Hu]].
    specialize (Hmx u Hu). specialize (Hmn u Hu).
    assert (H01 : (0 <= (u - mn) / (mx - mn) <= 1)%R).
    { split.
      - apply Rmult_le_pos; [lra|].
        left. apply Rinv_0_lt_compat. lra.
      - apply Rmult_le_reg_r with (mx - mn)%R; [lra|].
        replace ((u - mn) / (mx - mn) * (mx - mn))%R with (u - mn)%R
          by (field; lra).
        lra. }
    lra.
  - apply in_map_iff. exists mn. split; [|exact Himn].
    unfold Rdiv. ring.
  - apply in_map_iff. exists mx. split; [|exact Himx].
    field. lra.
Qed.

Lemma X13_minmax_range_witness :
  exists di' x',
    DataInput.minmax_normalize (DataInput.init (0, 0) false) [0; 2]%R
    = Some (di', x') /\
    (forall v, In v x' -> (-1 <= v <= 1)%R) /\
    In (-1)%R x' /\ In 1%R x'.
Proof.
  eexists. eexists. split; [reflexivity|].
  eapply (X13_minmax_range (DataInput.init (0, 0) false) _ [0; 2]%R).
  - reflexivity.
  - simpl. unfold Rmax, Rmin. destruct (Rle_dec 0 2).
    + intros [= H]. lra.
    + lra.
Defined.

(** X14.  A denormalise call needs the statistics of its own kind.  On
    a fresh object both inverses raise [AttributeError]; after
    [std_normalize] alone [minmax_denormalize] still raises, and after
    [minmax_normalize] alone [std_denormalize] still raises: statistics
    of the other kind are never used in their place. *)
Theorem X14_denormalize_needs_own_stats (M_adj : Z * Z) (norm_opt : bool)
    (x z : list R) :
  let di := DataInput.init M_adj norm_opt in
  DataInput.std_denormalize di z = inl (AttributeError "_std") /\
  DataInput.minmax_denormalize di z = inl (AttributeError "_max") /\
  DataInput.minmax_denormalize (fst (DataInput.std_normalize di x)) z
  = inl (AttributeError "_max") /\
  (forall di' x', DataInput.minmax_normalize di x = Some (di', x') ->
                  DataInput.std_denormalize di' z
                  = inl (AttributeError "_std")).
Proof.
  cbv zeta. repeat split.
  intros di' x'. unfold DataInput.minmax_normalize.
  destruct (Np.max x), (Np.min x); try discriminate.
  intros [= <- _]. reflexivity.
Qed.

Lemma X14_denormalize_needs_own_stats_witness :
  exists di' x',
    DataInput.minmax_normalize (DataInput.init (0, 0) false) [0; 2]%R
    = Some (di', x') /\
    DataInput.std_denormalize di' [0%R] = inl (AttributeError "_std").
Proof.
  eexists. eexists. split; [reflexivity|].
  eapply (proj2 (proj2 (proj2
            (X14_denormalize_needs_own_stats (0, 0) false
               [0; 2]%R [0%R])))).
  reflexivity.
Defined.

(** ** Loading, continued *)

(** The dataset a successful [load_data] builds. *)
Lemma load_data_result (Arr : Type) (di : DataInput.t)
    (raw : list R) (mt : Arr) (f : list (list R)) (na ta sa : Arr) :
  DataInput.M_dyn di = 0 \/ DataInput.M_dyn di = 1
  \/ DataInput.M_dyn di = 2 ->
  DataInput.M_sta di <= 3 ->
  snd (DataInput.load_data
         (DataInput.mk_archive (Some raw) (Some mt) (Some f)
                               (Some na) (Some ta) (Some sa)) di)
  = inr (DataInput.mk_dataset
           (Some (if DataInput.norm_opt di
                  then snd (DataInput.std_normalize di raw) else raw))
           (Some mt)
           (if DataInput.M_dyn di =? 0 then None
            else if DataInput.M_dyn di =? 1
                 then Some (map (fun v => [Np.sum v]) f)
                 else Some (map (fun v => Py.slice v 0 2) f))
           (if 1 <=? DataInput.M_sta di then Some na else None)
           (if 2 <=? DataInput.M_sta di then Some ta else None)
           (if 3 <=? DataInput.M_sta di then Some sa else None)).
Proof.
  intros Hdyn Hsta.
  unfold DataInput.load_data, DataInput.bind, DataInput.self,
    DataInput.get, DataInput.ret, DataInput.raise.
  cbn [DataInput.a_ems DataInput.a_meta DataInput.a_flow
       DataInput.a_neighbor_adj DataInput.a_trans_adj
       DataInput.a_semantic_adj].
  replace (4 <=? DataInput.M_sta di) with false
    by (symmetry; apply Z.leb_gt; lia).
  destruct (DataInput.norm_opt di);
    destruct Hdyn as [E | [E | E]]; rewrite E; cbn [Z.eqb Pos.eqb];
    destruct (1 <=? DataInput.M_sta di);
    destruct (2 <=? DataInput.M_sta di);
    destruct (3 <=? DataInput.M_sta di); reflexivity.
Qed.

(** X15.  With every array in the archive, a dynamic level of 0, 1 or 2
    and a static level of at most 3, [load_data] returns a dataset.  It
    holds [flow] exactly when the dynamic level is not 0, with one
    entry per flow vector (their sum) at level 1 and at most two
    entries at level 2; it holds [neighbor_adj], [trans_adj] and
    [semantic_adj] exactly when the static level is at least 1, 2 and 3;
    a static level of 0 or below (a negative one included) is accepted
    and loads no adjacency. *)
Theorem X15_load_data_keys (Arr : Type) (di : DataInput.t)
    (npz : DataInput.archive Arr) :
  DataInput.has_all_keys npz ->
  DataInput.M_dyn di = 0 \/ DataInput.M_dyn di = 1
  \/ DataInput.M_dyn di = 2 ->
  DataInput.M_sta di <= 3 ->
  exists ds,
    snd (DataInput.load_data npz di) = inr ds /\
    DataInput.meta Arr ds = DataInput.a_meta npz /\
    (DataInput.norm_opt di = false ->
     DataInput.ems Arr ds = DataInput.a_ems npz) /\
    (DataInput.flow Arr ds = None <-> DataInput.M_dyn di = 0) /\
    (forall fl v, DataInput.flow Arr ds = Some fl -> In v fl ->
                  (DataInput.M_dyn di = 1 -> List.length v = 1%nat) /\
                  (DataInput.M_dyn di = 2 -> (List.length v <= 2)%nat)) /\
    (DataInput.neighbor_adj Arr ds <> None <-> 1 <= DataInput.M_sta di) /\
    (DataInput.trans_adj Arr ds <> None <-> 2 <= DataInput.M_sta di) /\
    (DataInput.semantic_adj Arr ds <> None <-> 3 <= DataInput.M_sta di).
Proof.
  intros (He & Hm & Hf & Hn & Ht & Hs) Hdyn Hsta.
  destruct npz as [[raw|] [mt|] [f|] [na|] [ta|] [sa|]];
    cbn in He, Hm, Hf, Hn, Ht, Hs; try contradiction.
  eexists. split; [apply load_data_result; assumption|].
  cbn [DataInput.meta DataInput.ems DataInput.flow DataInput.neighbor_adj
       DataInput.trans_adj DataInput.semantic_adj
       DataInput.a_meta DataInput.a_ems].
  split; [reflexivity|].
  split; [intros ->; reflexivity|].
  split; [|split; [|split; [|split]]].
  - destruct (Z.eqb_spec (DataInput.M_dyn di) 0) as [E|E].
    + split; auto.
    + destruct (DataInput.M_dyn di =? 1); split;
        (discriminate || contradiction).
  - intros fl v Hfl Hin.
    destruct (Z.eqb_spec (DataInput.M_dyn di) 0) as [E0|E0];
      [discriminate|].
    destruct (Z.eqb_spec (DataInput.M_dyn di) 1) as [E1|E1];
      injection Hfl as <-; apply in_map_iff in Hin as [u [<- Hu]].
    + split; [reflexivity | intros; lia].
    + split; [intros; contradiction|]. intros _.
      unfold Py.slice. rewrite length_firstn.
      unfold Py.clamp. simpl. lia.
  - destruct (Z.leb_spec 1 (DataInput.M_sta di)); split;
      (discriminate || congruence || lia || (intros; lia)
       || (intros; assumption)).
  - destruct (Z.leb_spec 2 (DataInput.M_sta di)); split;
      (discriminate || congruence || lia || (intros; lia)
       || (intros; assumption)).
  - destruct (Z.leb_spec 3 (DataInput.M_sta di)); split;
      (discriminate || congruence || lia || (intros; lia)
       || (intros; assumption)).
Qed.

(** A full archive loaded at the levels (2, -1). *)
Lemma X15_load_data_keys_witness :
  exists ds,
    snd (DataInput.load_data
           (DataInput.mk_archive (Some [1%R]) (Some tt)
              (Some [[1%R; 2%R; 3%R]]) (Some tt) (Some tt) (Some tt))
           (DataInput.init (2, -1) false)) = inr ds /\
    DataInput.flow unit ds = Some [[1%R; 2%R]] /\
    DataInput.neighbor_adj unit ds = None.
Proof.
  destruct (X15_load_data_keys unit (DataInput.init (2, -1) false)
              (DataInput.mk_archive (Some [1%R]) (Some tt)
                 (Some [[1%R; 2%R; 3%R]]) (Some tt) (Some tt) (Some tt)))
    as [ds [Hds _]].
  - repeat split; discriminate.
  - right. right. reflexivity.
  - simpl. lia.
  - exists ds. split; [exact Hds|].
    assert (E : inr ds
              = (inr (DataInput.mk_dataset (Some [1%R]) (Some tt)
                        (Some [[1%R; 2%R]]) None None None)
                 : error + DataInput.dataset unit))
      by (rewrite <- Hds; reflexivity).
    injection E as ->. split; reflexivity.
Defined.

(** X16.  A missing array is reported before a bad level: without
    [ems] in the archive [load_data] raises [KeyError] for ['ems']
    whatever the levels, and at a dynamic level of 1 or 2 without [flow]
    it raises [KeyError] for ['flow'] whatever the static level (even an
    invalid one). *)
Theorem X16_missing_array_first (Arr : Type) (di : DataInput.t)
    (npz : DataInput.archive Arr) :
  (DataInput.a_ems npz = None ->
   snd (DataInput.load_data npz di) = inl (KeyError "ems")) /\
  (DataInput.a_ems npz <> None -> DataInput.a_meta npz <> None ->
   DataInput.a_flow npz = None ->
   DataInput.M_dyn di = 1 \/ DataInput.M_dyn di = 2 ->
   snd (DataInput.load_data npz di) = inl (KeyError "flow")).
Proof.
  unfold DataInput.load_data, DataInput.bind, DataInput.self,
    DataInput.get, DataInput.ret, DataInput.raise.
  split.
  - intros ->. reflexivity.
  - intros He Hm -> Hd.
    destruct (DataInput.a_ems npz); [|contradiction].
    destruct (DataInput.a_meta npz); [|contradiction].
    destruct (DataInput.norm_opt di);
      destruct Hd as [E | E]; rewrite E; reflexivity.
Qed.

Lemma X16_missing_array_first_witness :
  snd (DataInput.load_data
         (DataInput.mk_archive None (Some tt) None None None None)
         (DataInput.init (3, 4) false)) = inl (KeyError "ems") /\
  snd (DataInput.load_data
         (DataInput.mk_archive (Some [1%R]) (Some tt) None None None None)
         (DataInput.init (1, 4) false)) = inl (KeyError "flow").
Proof.
  split.
  - apply (proj1 (X16_missing_array_first unit
                    (DataInput.init (3, 4) false)
                    (DataInput.mk_archive None (Some tt) None None None
                                          None))).
    reflexivity.
  - apply (proj2 (X16_missing_array_first unit
                    (DataInput.init (1, 4) false)
                    (DataInput.mk_archive (Some [1%R]) (Some tt) None None
                                          None None))).
    + discriminate.
    + discriminate.
    + reflexivity.
    + left. reflexivity.
Defined.

(** X17.  Loading with normalisation and evaluating compose: when
    [load_data] succeeds on an object with [norm_opt = True], the object
    it leaves behind denormalises the loaded [ems] back to the raw
    array of the archive (for a raw array whose standard deviation is
    not zero). *)
Theorem X17_load_then_denormalize (Arr : Type) (di : DataInput.t)
    (npz : DataInput.archive Arr) (raw : list R)
    (ds : DataInput.dataset Arr) :
  DataInput.norm_opt di = true ->
  DataInput.a_ems npz = Some raw ->
  Np.std raw <> 0%R ->
  snd (DataInput.load_data npz di) = inr ds ->
  exists e,
    DataInput.ems Arr ds = Some e /\
    DataInput.std_denormalize (fst (DataInput.load_data npz di)) e
    = inr raw.
Proof.
  intros Hn He Hs.
  pose proof (std_round_trip di raw Hs) as Hrt.
  unfold DataInput.std_normalize in Hrt.
  unfold DataInput.load_data, DataInput.bind, DataInput.self,
    DataInput.get, DataInput.ret, DataInput.raise.
  rewrite Hn, He. unfold DataInput.std_normalize.
  cbn [DataInput.M_dyn DataInput.M_sta DataInput.set_meanstd].
  destruct (DataInput.a_meta npz); [|discriminate].
  destruct (DataInput.M_dyn di =? 0), (DataInput.M_dyn di =? 1),
    (DataInput.M_dyn di =? 2), (DataInput.a_flow npz);
    try discriminate;
    destruct (1 <=? DataInput.M_sta di), (DataInput.a_neighbor_adj npz);
    try discriminate;
    destruct (2 <=? DataInput.M_sta di), (DataInput.a_trans_adj npz);
    try discriminate;
    destruct (3 <=? DataInput.M_sta di), (DataInput.a_semantic_adj npz);
    try discriminate;
    destruct (4 <=? DataInput.M_sta di); try discriminate;
    cbn [fst snd]; intros [= <-]; eexists; (split; [reflexivity|]);
    exact Hrt.
Qed.

Lemma X17_load_then_denormalize_witness :
  exists e,
    Some (snd (DataInput.std_normalize
                 (DataInput.init (0, 0) true) [0; 2]%R)) = Some e /\
    DataInput.std_denormalize
      (fst (DataInput.load_data
              (DataInput.mk_archive (Some [0; 2]%R) (Some tt)
                                    None None None None)
              (DataInput.init (0, 0) true))) e
    = inr [0; 2]%R.
Proof.
  assert (Hs : Np.std [0; 2]%R <> 0%R).
  { unfold Np.std, Np.mean, Np.sum. simpl.
    replace (_ / (1 + 1))%R with 1%R by (unfold Rsqr; field).
    rewrite sqrt_1. lra. }
  apply (X17_load_then_denormalize unit (DataInput.init (0, 0) true)
           (DataInput.mk_archive (Some [0; 2]%R) (Some tt)
                                 None None None None)
           [0; 2]%R
           (DataInput.mk_dataset
              (Some (snd (DataInput.std_normalize
                            (DataInput.init (0, 0) true) [0; 2]%R)))
              (Some tt) None None None None)).
  - reflexivity.
  - reflexivity.
  - exact Hs.
  - reflexivity.
Defined.

(** ** Training loop, continued *)

Section TrainingInvariants.

Import ModelTrainer.

Variable ld : loader.
Variable modes : list Mode.

Lemma range_cons (a b : Z) :
  a < b -> Py.range a b = a :: Py.range (a + 1) b.
Proof.
  intros H. unfold Py.range.
  replace (Z.to_nat (b - a)) with (S (Z.to_nat (b - (a + 1)))) by lia.
  cbn [seq map]. f_equal; [lia|].
  rewrite <- seq_shift, map_map. apply map_ext. intros k. lia.
Qed.

Lemma range_nil (a b : Z) : b <= a -> Py.range a b = [].
Proof.
  intros H. unfold Py.range.
  replace (Z.to_nat (b - a)) with 0%nat by lia. reflexivity.
Qed.

(** A property of the state that every completed or stopping epoch
    carries one epoch further, and that the final save keeps, holds at
    the end of training. *)
Lemma run_epochs_invariant (P : Z -> state -> Prop) :
  (forall ep s, 1 <= ep -> P (ep - 1) s ->
     match run_modes ld ep modes fresh s with
     | Continue s' | Return s' => P ep s'
     | Raise _ => True
     end) ->
  (forall k s, P k s ->
     P k (mk_state (val_loss s) (ck_epoch s) (early_stopper s) (params s)
                   (Some (ck_epoch s, params s)))) ->
  forall (n : nat) (a : Z) (s : state),
    1 <= a -> P (a - 1) s ->
    match run_epochs ld modes (Py.range a (a + Z.of_nat n)) s with
    | Finished s' => P (a + Z.of_nat n - 1) s'
    | EarlyStopped ep s' => a <= ep < a + Z.of_nat n /\ P ep s'
    | Raised _ _ => True
    end.
Proof.
  intros Hstep Hsave. induction n as [|n IH]; intros a s Ha HP.
  - rewrite range_nil by lia. cbn [run_epochs Z.of_nat].
    rewrite Z.add_0_r. apply Hsave. exact HP.
  - rewrite range_cons by lia. cbn [run_epochs].
    specialize (Hstep a s Ha HP).
    destruct (run_modes ld a modes fresh s) as [s'|s'|s'].
    + replace (a + Z.of_nat (S n)) with (a + 1 + Z.of_nat n) by lia.
      assert (HP' : P (a + 1 - 1) s')
        by (replace (a + 1 - 1) with a by lia; exact Hstep).
      specialize (IH (a + 1) s' ltac:(lia) HP').
      destruct (run_epochs ld modes _ s') as [ep s''|s''|ep s''].
      * split; [lia | apply IH].
      * exact IH.
      * exact I.
    + split; [lia | exact Hstep].
    + exact I.
Qed.

Lemma train_invariant (P : Z -> state -> Prop) (n_epochs e : Z) :
  (forall ep s, 1 <= ep -> P (ep - 1) s ->
     match run_modes ld ep modes fresh s with
     | Continue s' | Return s' => P ep s'
     | Raise _ => True
     end) ->
  (forall k s, P k s ->
     P k (mk_state (val_loss s) (ck_epoch s) (early_stopper s) (params s)
                   (Some (ck_epoch s, params s)))) ->
  P 0 (mk_state Inf 0 e 0 None) ->
  0 <= n_epochs ->
  match train n_epochs ld modes e with
  | Finished s' => P n_epochs s'
  | EarlyStopped ep s' => 1 <= ep <= n_epochs /\ P ep s'
  | Raised _ _ => True
  end.
Proof.
  intros Hstep Hsave H0 Hn. unfold train.
  pose proof (run_epochs_invariant P Hstep Hsave (Z.to_nat n_epochs) 1
                (mk_state Inf 0 e 0 None) ltac:(lia) H0) as H.
  replace (1 + Z.of_nat (Z.to_nat n_epochs)) with (n_epochs + 1) in H
    by lia.
  destruct (run_epochs ld modes _ _) as [ep s'|s'|ep s'].
  - destruct H as [H1 H2]. split; [lia | exact H2].
  - replace (n_epochs + 1 - 1) with n_epochs in H by lia. exact H.
  - exact I.
Qed.

(** *** The order of the losses *)

Lemma Qle_bool_false (a b : Q) : Qle_bool a b = false -> (b <= a)%Q.
Proof.
  intros H. destruct (Qlt_le_dec b a) as [Hlt|Hle].
  - apply Qlt_le_weak. exact Hlt.
  - apply Qle_bool_iff in Hle. congruence.
Qed.

Lemma loss_leb_not_nan (a b : loss) :
  loss_leb a b = true -> a <> NaN /\ b <> NaN.
Proof. destruct a, b; cbn; intros H; split; congruence. Qed.

Lemma loss_leb_refl (a : loss) : a <> NaN -> loss_leb a a = true.
Proof.
  destruct a; cbn; intros H; try reflexivity; [|congruence].
  apply Qle_bool_iff, Qle_refl.
Qed.

Lemma loss_leb_trans (a b c : loss) :
  loss_leb a b = true -> loss_leb b c = true -> loss_leb a c = true.
Proof.
  destruct a, b, c; cbn; intros H1 H2; try reflexivity; try discriminate.
  apply Qle_bool_iff. apply Qle_bool_iff in H1, H2.
  apply Qle_trans with q0; assumption.
Qed.

Lemma loss_leb_total (a b : loss) :
  a <> NaN -> b <> NaN -> loss_leb a b = false -> loss_leb b a = true.
Proof.
  destruct a, b; cbn; intros Ha Hb H; try reflexivity; try discriminate;
    try congruence.
  apply Qle_bool_iff, Qle_bool_false, H.
Qed.

(** Only NaN fails to be at most the initial [inf]. *)
Lemma loss_leb_Inf (l : loss) : loss_leb l Inf = false -> l = NaN.
Proof. destruct l; cbn; intros H; try discriminate; reflexivity. Qed.

(** *** The checkpoint is the best epoch *)

Lemma update_same (r : running_loss) (m : Mode) (v : option loss) :
  update r m v m = v.
Proof. unfold update. destruct m; reflexivity. Qed.

Lemma update_other (r : running_loss) (m m' : Mode) (v : option loss) :
  m' <> m -> update r m v m' = r m'.
Proof.
  unfold update. destruct m, m'; intros H; cbn [mode_eqb];
    try reflexivity; contradiction H; reflexivity.
Qed.

(** A validate pass that is the first of its epoch. *)
Lemma run_mode_first_validate (ep : Z) (bs : list batch)
    (r : running_loss) (s : state) :
  r Validate = None ->
  snd (run_mode ep bs Validate r s)
  = match epoch_mean bs with
    | None => Raise s
    | Some l => validate_end ep l s
    end.
Proof.
  intros Hr. unfold run_mode. cbn [snd].
  rewrite update_same, Hr. reflexivity.
Qed.

(** What a validate pass leaves of the checkpoint's being the best. *)
Lemma best_validate_end (ep : Z) (l : loss) (s : state) (k : Z) :
  1 <= ep ->
  best_so_far ld k s ->
  (k = ep \/ k = ep - 1) ->
  epoch_mean (ld ep Validate) = Some l ->
  match validate_end ep l s with
  | Continue s' | Return s' => best_so_far ld ep s'
  | Raise _ => True
  end.
Proof.
  intros Hep Hb Hk El. unfold validate_end.
  destruct (loss_leb l (val_loss s)) eqn:Elb.
  - (* the pass improves: the checkpoint moves to this epoch *)
    destruct (loss_leb_not_nan _ _ Elb) as [Hl _].
    right. cbn [val_loss ck_epoch disk].
    split; [lia|]. split; [exact El|]. split; [exact Hl|].
    split; [eauto|].
    intros j lj Hj Hlj Hnan.
    destruct (Z.eq_dec j ep) as [->|Hne].
    + rewrite El in Hlj. injection Hlj as <-.
      apply loss_leb_refl, Hl.
    + destruct Hb as [(_ & _ & Hall) | (_ & _ & _ & _ & Hmin)].
      * exfalso. apply Hnan. apply (Hall j lj); [lia | exact Hlj].
      * apply loss_leb_trans with (val_loss s); [exact Elb|].
        apply (Hmin j lj); [lia | exact Hlj | exact Hnan].
  - (* no improvement: the checkpoint stays *)
    assert (Hnew : best_so_far ld ep
              (mk_state (val_loss s) (ck_epoch s) (early_stopper s - 1)
                        (params s) (disk s))).
    { destruct Hb as [(Hck & Hv & Hall) | (Hck & Hm & Hv & Hd & Hmin)].
      - left. cbn [val_loss ck_epoch]. split; [exact Hck|].
        split; [exact Hv|].
        intros j lj Hj Hlj. destruct (Z.eq_dec j ep) as [->|Hne].
        + rewrite El in Hlj. injection Hlj as <-.
          rewrite Hv in Elb. apply loss_leb_Inf, Elb.
        + apply (Hall j lj); [lia | exact Hlj].
      - right. cbn [val_loss ck_epoch disk]. split; [lia|].
        split; [exact Hm|]. split; [exact Hv|]. split; [exact Hd|].
        intros j lj Hj Hlj Hnan. destruct (Z.eq_dec j ep) as [->|Hne].
        + rewrite El in Hlj. injection Hlj as <-.
          apply loss_leb_total; assumption.
        + apply (Hmin j lj); [lia | exact Hlj | exact Hnan]. }
    destruct (early_stopper s - 1 =? 0); exact Hnew.
Qed.

(** The modes of one epoch, each at most once: the validate pass
    carries the property one epoch further, the other passes keep
    it. *)
Lemma best_run_modes (ep : Z) (ms : list Mode) (r : running_loss)
    (s : state) (k : Z) :
  1 <= ep ->
  NoDup ms ->
  (In Validate ms -> r Validate = None) ->
  best_so_far ld k s ->
  (k = ep \/ (k = ep - 1 /\ In Validate ms)) ->
  match run_modes ld ep ms r s with
  | Continue s' | Return s' => best_so_far ld ep s'
  | Raise _ => True
  end.
Proof.
  intros Hep. revert r s k.
  induction ms as [|m ms IH]; intros r s k Hnd Hr Hb Hk.
  - simpl. destruct Hk as [-> | [_ []]]. exact Hb.
  - apply NoDup_cons_iff in Hnd as [Hnotin Hnd].
    cbn [run_modes].
    destruct m.
    + cbn [run_mode].
      apply (IH _ _ k Hnd).
      * intros Hin. rewrite update_other by discriminate.
        apply Hr. right. exact Hin.
      * exact Hb.
      * destruct Hk as [Hk | [Hk [Hin | Hin]]];
          [auto | discriminate | auto].
    + pose proof (run_mode_first_validate ep (ld ep Validate) r s
                    (Hr (or_introl eq_refl))) as Hv.
      destruct (run_mode ep (ld ep Validate) Validate r s) as [r' f].
      cbn [snd] in Hv. subst f.
      destruct (epoch_mean (ld ep Validate)) as [l|] eqn:El; [|exact I].
      assert (Hk' : k = ep \/ k = ep - 1) by tauto.
      pose proof (best_validate_end ep l s k Hep Hb Hk' El) as Hm.
      destruct (validate_end ep l s) as [s'|s'|s'].
      * apply (IH r' s' ep Hnd); [intros Hin; contradiction | exact Hm|].
        left. reflexivity.
      * exact Hm.
      * exact I.
    + cbn [run_mode].
      apply (IH _ _ k Hnd).
      * intros Hin. rewrite update_other by discriminate.
        apply Hr. right. exact Hin.
      * exact Hb.
      * destruct Hk as [Hk | [Hk [Hin | Hin]]];
          [auto | discriminate | auto].
Qed.

(** The final save keeps the epoch the checkpoint carries. *)
Lemma best_final_save (k : Z) (s : state) :
  best_so_far ld k s ->
  best_so_far ld k (mk_state (val_loss s) (ck_epoch s) (early_stopper s)
                             (params s) (Some (ck_epoch s, params s))).
Proof.
  intros [H | (H1 & H2 & H3 & _ & H5)]; [left; exact H|].
  right. cbn [val_loss ck_epoch disk]. repeat split; eauto; lia.
Qed.

Lemma best_initial (e : Z) : best_so_far ld 0 (mk_state Inf 0 e 0 None).
Proof.
  left. cbn [val_loss ck_epoch]. repeat split. intros j lj Hj. lia.
Qed.

(** *** The counter *)

Lemma validate_end_return_zero (ep : Z) (l : loss) (s s' : state) :
  validate_end ep l s = Return s' -> early_stopper s' = 0.
Proof.
  unfold validate_end.
  destruct (loss_leb l (val_loss s)); [discriminate|].
  destruct (early_stopper s - 1 =? 0) eqn:Ez; [|discriminate].
  intros [= <-]. apply Z.eqb_eq in Ez. exact Ez.
Qed.

Lemma run_modes_return_zero (ep : Z) (ms : list Mode) (r : running_loss)
    (s s' : state) :
  run_modes ld ep ms r s = Return s' -> early_stopper s' = 0.
Proof.
  revert r s. induction ms as [|m ms IH]; intros r s; [discriminate|].
  cbn [run_modes]. destruct m; cbn [run_mode].
  - apply IH.
  - destruct (mean_loss _ _) as [l|]; [|discriminate].
    destruct (validate_end ep l s) as [s1|s1|s1] eqn:E;
      [apply IH | | discriminate].
    intros [= <-]. apply (validate_end_return_zero _ _ _ _ E).
  - apply IH.
Qed.

Lemma run_epochs_stop_zero (epochs : list Z) (s s' : state) (ep : Z) :
  run_epochs ld modes epochs s = EarlyStopped ep s' ->
  early_stopper s' = 0.
Proof.
  revert s. induction epochs as [|a epochs IH]; intros s; [discriminate|].
  cbn [run_epochs].
  destruct (run_modes ld a modes fresh s) as [s1|s1|s1] eqn:E;
    [apply IH | | discriminate].
  intros [= _ <-]. apply (run_modes_return_zero _ _ _ _ _ E).
Qed.


(** The modes [train, validate] of one epoch. *)
Lemma run_train_validate (ep : Z) (s : state) :
  run_modes ld ep [Train; Validate] fresh s
  = match epoch_mean (ld ep Validate) with
    | None =>
        Raise (mk_state (val_loss s) (ck_epoch s) (early_stopper s)
                        (params s + List.length (ld ep Train)) (disk s))
    | Some l =>
        validate_end ep l
          (mk_state (val_loss s) (ck_epoch s) (early_stopper s)
                    (params s + List.length (ld ep Train)) (disk s))
    end.
Proof.
  cbn [run_modes run_mode]. rewrite update_same.
  rewrite update_other by discriminate.
  change (fresh Validate) with (@None loss).
  fold (epoch_mean (ld ep Validate)).
  destruct (epoch_mean (ld ep Validate)) as [l|]; [|reflexivity].
  destruct (validate_end ep l _); reflexivity.
Qed.

Lemma counting_run_modes (e ep : Z) (s : state) :
  1 <= ep -> counting_down e (ep - 1) s ->
  match run_modes ld ep [Train; Validate] fresh s with
  | Continue s' | Return s' => counting_down e ep s'
  | Raise _ => True
  end.
Proof.
  intros Hep Hc. rewrite run_train_validate.
  destruct (epoch_mean (ld ep Validate)) as [l|]; [|exact I].
  unfold validate_end, counting_down in *.
  cbn [val_loss ck_epoch early_stopper] in *.
  destruct (loss_leb l (val_loss s)).
  - cbn [val_loss ck_epoch early_stopper]. lia.
  - destruct (early_stopper s - 1 =? 0);
      cbn [val_loss ck_epoch early_stopper]; lia.
Qed.

(** A validate pass that improves on the initial [inf] overwrites the
    counter, so two runs that differ in the configured patience only go
    through the same states from then on. *)
Lemma run_modes_forget_patience (ep : Z) (ms : list Mode)
    (r : running_loss) (s1 s2 : state) (l : loss) :
  r Validate = None ->
  val_loss s1 = Inf -> val_loss s2 = Inf ->
  ck_epoch s1 = ck_epoch s2 -> params s1 = params s2 ->
  disk s1 = disk s2 ->
  In Validate ms -> epoch_mean (ld ep Validate) = Some l -> l <> NaN ->
  run_modes ld ep ms r s1 = run_modes ld ep ms r s2.
Proof.
  revert r s1 s2. induction ms as [|m ms IH];
    intros r s1 s2 Hr Hv1 Hv2 Hc Hp Hd Hin Hmean Hnan; [contradiction|].
  cbn [run_modes]. destruct m.
  - cbn [run_mode].
    apply IH; cbn [val_loss ck_epoch params disk]; try assumption.
    + congruence.
    + destruct Hin as [Hin | Hin]; [discriminate | exact Hin].
  - pose proof (run_mode_first_validate ep (ld ep Validate) r s1 Hr) as H1.
    pose proof (run_mode_first_validate ep (ld ep Validate) r s2 Hr) as H2.
    unfold run_mode in *. cbn [snd] in H1, H2. rewrite H1, H2, Hmean.
    unfold validate_end. rewrite Hv1, Hv2.
    assert (Hl : loss_leb l Inf = true)
      by (destruct l; try reflexivity; congruence).
    rewrite Hl, Hp. reflexivity.
  - cbn [run_mode]. apply IH; try assumption.
    destruct Hin as [Hin | Hin]; [discriminate | exact Hin].
Qed.

(** *** The division by the number of samples *)

Lemma accumulate_Some (bs : list batch) (a : loss) :
  accumulate bs (Some a) <> None.
Proof.
  revert a. induction bs as [|b bs IH]; intros a; [discriminate|].
  unfold accumulate in *. cbn [fold_left]. apply IH.
Qed.

Lemma accumulate_None (bs : list batch) (r : option loss) :
  accumulate bs r = None <-> bs = [] /\ r = None.
Proof.
  split.
  - destruct bs as [|b bs]; [cbn; auto|].
    intros H. exfalso. unfold accumulate in H. cbn [fold_left] in H.
    exact (accumulate_Some bs _ H).
  - intros [-> ->]. reflexivity.
Qed.

Lemma epoch_mean_None (bs : list batch) : epoch_mean bs = None <-> bs = [].
Proof.
  unfold epoch_mean, mean_loss. split.
  - destruct (accumulate bs None) eqn:E; [discriminate|].
    intros _. apply accumulate_None in E. tauto.
  - intros ->. reflexivity.
Qed.



End TrainingInvariants.

Lemma train_validate_NoDup : NoDup [Train; Validate].
Proof.
  constructor; [|constructor; [intros [] | constructor]].
  intros [H | []]. discriminate H.
Qed.

(** X18.  The checkpoint is the best epoch.  When [train] runs with a
    validate pass among its modes, no mode listed twice (a repeated
    mode would add its second pass to the running loss of its first),
    and ends, by exhausting its epochs or by stopping early, at epoch
    [last], then one of two holds.  Either
    the mean validate loss of every epoch run was NaN: no pass compared
    as an improvement, the checkpoint still carries epoch 0 and the
    recorded [val_loss] is the initial [inf].  Or the checkpoint carries
    one of the epochs run, the recorded [val_loss] is the mean validate
    loss of that epoch, it is not NaN, the saved file is labelled with
    that epoch, and no epoch run had a lower mean validate loss (epochs
    whose mean is NaN apart, which compare with nothing). *)
Theorem X18_checkpoint_is_best (n_epochs : Z) (ld : ModelTrainer.loader)
    (modes : list Mode) (e last : Z) (s : ModelTrainer.state) :
  NoDup modes -> In Validate modes -> 1 <= n_epochs ->
  (ModelTrainer.train n_epochs ld modes e = ModelTrainer.Finished s
   /\ last = n_epochs)
  \/ ModelTrainer.train n_epochs ld modes e
     = ModelTrainer.EarlyStopped last s ->
  1 <= last <= n_epochs /\
  ((ModelTrainer.ck_epoch s = 0 /\
    ModelTrainer.val_loss s = ModelTrainer.Inf /\
    forall j lj, 1 <= j <= last ->
      ModelTrainer.epoch_mean (ld j Validate) = Some lj ->
      lj = ModelTrainer.NaN)
   \/
   (1 <= ModelTrainer.ck_epoch s <= last /\
    ModelTrainer.epoch_mean (ld (ModelTrainer.ck_epoch s) Validate)
    = Some (ModelTrainer.val_loss s) /\
    ModelTrainer.val_loss s <> ModelTrainer.NaN /\
    (exists p, ModelTrainer.disk s = Some (ModelTrainer.ck_epoch s, p)) /\
    forall j lj, 1 <= j <= last ->
      ModelTrainer.epoch_mean (ld j Validate) = Some lj ->
      lj <> ModelTrainer.NaN ->
      ModelTrainer.loss_leb (ModelTrainer.val_loss s) lj = true)).
Proof.
  intros Hnd Hv Hn Hend.
  assert (Hinv :
    match ModelTrainer.train n_epochs ld modes e with
    | ModelTrainer.Finished s' => ModelTrainer.best_so_far ld n_epochs s'
    | ModelTrainer.EarlyStopped ep s' =>
        1 <= ep <= n_epochs /\ ModelTrainer.best_so_far ld ep s'
    | ModelTrainer.Raised _ _ => True
    end).
  { apply (train_invariant ld modes (ModelTrainer.best_so_far ld)).
    - intros ep s0 Hep Hb.
      apply (best_run_modes ld ep modes ModelTrainer.fresh s0 (ep - 1)
               Hep Hnd (fun _ => eq_refl) Hb). auto.
    - apply best_final_save.
    - apply best_initial.
    - lia. }
  destruct Hend as [[Hf ->] | He].
  - rewrite Hf in Hinv. split; [lia | exact Hinv].
  - rewrite He in Hinv. exact Hinv.
Qed.

(** Three epochs with validate losses 5, 4, 6: the best epoch is the
    second. *)
Lemma X18_checkpoint_is_best_witness :
  ModelTrainer.train 3 (ModelTrainer.loader_of_losses [5; 4; 6]%Q)
                     [Train; Validate] 7
  = ModelTrainer.Finished
      (ModelTrainer.mk_state (ModelTrainer.Fin 4) 2 9 3
                             (Some (2, 3%nat))) /\
  forall j lj, 1 <= j <= 3 ->
    ModelTrainer.epoch_mean
      (ModelTrainer.loader_of_losses [5; 4; 6]%Q j Validate) = Some lj ->
    lj <> ModelTrainer.NaN ->
    ModelTrainer.loss_leb (ModelTrainer.Fin 4) lj = true.
Proof.
  assert (Hf : ModelTrainer.train 3
                 (ModelTrainer.loader_of_losses [5; 4; 6]%Q)
                 [Train; Validate] 7
               = ModelTrainer.Finished
                   (ModelTrainer.mk_state (ModelTrainer.Fin 4)
                                          2 9 3 (Some (2, 3%nat))))
    by (vm_compute; reflexivity).
  split; [exact Hf|].
  destruct (X18_checkpoint_is_best 3
              (ModelTrainer.loader_of_losses [5; 4; 6]%Q) [Train; Validate]
              7 3 _ train_validate_NoDup
              (or_intror (or_introl eq_refl)) ltac:(lia)
              (or_introl (conj Hf eq_refl)))
    as (_ & [(H0 & _) | (_ & _ & _ & _ & Hmin)]).
  - cbn in H0. discriminate H0.
  - exact Hmin.
Defined.

(** X19.  With the modes [train, validate], training stops early
    exactly ten epochs after the checkpoint's epoch, whatever patience
    [early_stopper] was passed, as soon as one validate pass has
    improved on the initial [inf].  The patience passed counts only as
    long as none has, which takes a mean validate loss of NaN in every
    epoch so far: training then stops at the epoch of that number.  When
    training runs through all its epochs, the counter it ends with is 10
    less the number of epochs since the checkpoint's, or the patience
    passed less the number of epochs when no pass improved. *)
Theorem X19_stops_ten_epochs_after_best (n_epochs : Z)
    (ld : ModelTrainer.loader) (e : Z) (s : ModelTrainer.state) :
  1 <= n_epochs ->
  (forall ep,
      ModelTrainer.train n_epochs ld [Train; Validate] e
      = ModelTrainer.EarlyStopped ep s ->
      ModelTrainer.early_stopper s = 0 /\ 1 <= ep <= n_epochs /\
      ((1 <= ModelTrainer.ck_epoch s /\
        ep = ModelTrainer.ck_epoch s + 10)
       \/
       (ModelTrainer.ck_epoch s = 0 /\ ep = e /\
        forall j lj, 1 <= j <= ep ->
          ModelTrainer.epoch_mean (ld j Validate) = Some lj ->
          lj = ModelTrainer.NaN))) /\
  (ModelTrainer.train n_epochs ld [Train; Validate] e
   = ModelTrainer.Finished s ->
   (1 <= ModelTrainer.ck_epoch s <= n_epochs /\
    ModelTrainer.early_stopper s
    = 10 - (n_epochs - ModelTrainer.ck_epoch s))
   \/
   (ModelTrainer.ck_epoch s = 0 /\
    ModelTrainer.early_stopper s = e - n_epochs /\
    forall j lj, 1 <= j <= n_epochs ->
      ModelTrainer.epoch_mean (ld j Validate) = Some lj ->
      lj = ModelTrainer.NaN)).
Proof.
  intros Hn.
  set (P := fun k s0 => ModelTrainer.counting_down e k s0
                        /\ ModelTrainer.best_so_far ld k s0).
  assert (Hinv :
    match ModelTrainer.train n_epochs ld [Train; Validate] e with
    | ModelTrainer.Finished s' => P n_epochs s'
    | ModelTrainer.EarlyStopped ep s' => 1 <= ep <= n_epochs /\ P ep s'
    | ModelTrainer.Raised _ _ => True
    end).
  { apply (train_invariant ld [Train; Validate] P).
    - intros ep s0 Hep [Hc Hb].
      pose proof (counting_run_modes ld e ep s0 Hep Hc) as H1.
      pose proof (best_run_modes ld ep [Train; Validate]
                    ModelTrainer.fresh s0 (ep - 1) Hep
                    train_validate_NoDup (fun _ => eq_refl) Hb) as H2.
      destruct (ModelTrainer.run_modes ld ep [Train; Validate]
                  ModelTrainer.fresh s0);
        try exact I; (split; [exact H1 | apply H2; simpl; auto]).
    - intros k s0 [Hc Hb]. split; [exact Hc | apply best_final_save, Hb].
    - split; [left; cbn; split; [reflexivity | lia] | apply best_initial].
    - lia. }
  split.
  - intros ep He. rewrite He in Hinv. destruct Hinv as [Hep [Hc Hb]].
    pose proof (run_epochs_stop_zero ld _ _ _ _ _ He) as Hz.
    split; [exact Hz|]. split; [exact Hep|].
    destruct Hc as [[Hck Hes] | [Hck Hes]].
    + right. split; [exact Hck|]. split; [lia|].
      destruct Hb as [(_ & _ & Hall) | (Hck' & _)]; [exact Hall | lia].
    + left. split; lia.
  - intros Hf. rewrite Hf in Hinv. destruct Hinv as [Hc Hb].
    destruct Hc as [[Hck Hes] | [Hck Hes]].
    + right. split; [exact Hck|]. split; [exact Hes|].
      destruct Hb as [(_ & _ & Hall) | (Hck' & _)]; [exact Hall | lia].
    + left. split; assumption.
Qed.

(** Fifteen epochs with a patience of 3: the best epoch is the third,
    training stops at epoch 13. *)
Lemma X19_stops_ten_epochs_after_best_witness :
  ModelTrainer.train 15
    (ModelTrainer.loader_of_losses
       [5; 4; 4; 6; 7; 7; 7; 7; 7; 7; 7; 7; 7; 7; 7]%Q)
    [Train; Validate] 3
  = ModelTrainer.EarlyStopped 13
      (ModelTrainer.mk_state (ModelTrainer.Fin 4) 3 0 13
                             (Some (3, 3%nat))) /\
  13 = 3 + 10.
Proof.
  assert (He : ModelTrainer.train 15
    (ModelTrainer.loader_of_losses
       [5; 4; 4; 6; 7; 7; 7; 7; 7; 7; 7; 7; 7; 7; 7]%Q)
    [Train; Validate] 3
  = ModelTrainer.EarlyStopped 13
      (ModelTrainer.mk_state (ModelTrainer.Fin 4) 3 0 13
                             (Some (3, 3%nat))))
    by (vm_compute; reflexivity).
  split; [exact He|].
  assert (Hn : 1 <= 15) by lia.
  destruct (proj1 (X19_stops_ten_epochs_after_best 15 _ 3 _ Hn) 13 He)
    as (_ & _ & [[_ H] | [H _]]).
  - exact H.
  - cbn in H. discriminate H.
Defined.

(** A validate loss that is NaN in every epoch: no pass improves, the
    patience passed is what counts, and training stops at epoch 3
    without a saved file. *)
Lemma nan_losses_use_the_patience :
  ModelTrainer.train 5 (fun _ _ => [(ModelTrainer.NaN, 1)])
                     [Train; Validate] 3
  = ModelTrainer.EarlyStopped 3
      (ModelTrainer.mk_state ModelTrainer.Inf 0 0 3 None).
Proof. vm_compute. reflexivity. Qed.

(** X20.  The configured patience has no effect once a validate pass
    has improved on the initial [inf]: two calls of [train] that differ
    only in [early_stopper] end in the same way and in the same state,
    provided the modes contain a validate pass, the first epoch's
    validate loader holds a batch and its mean loss is not NaN. *)
Theorem X20_patience_is_overwritten (n_epochs : Z)
    (ld : ModelTrainer.loader) (modes : list Mode) (e1 e2 : Z)
    (l : ModelTrainer.loss) :
  1 <= n_epochs -> In Validate modes ->
  ModelTrainer.epoch_mean (ld 1 Validate) = Some l ->
  l <> ModelTrainer.NaN ->
  ModelTrainer.train n_epochs ld modes e1
  = ModelTrainer.train n_epochs ld modes e2.
Proof.
  intros Hn Hin Hmean Hnan. unfold ModelTrainer.train.
  rewrite range_cons by lia. cbn [ModelTrainer.run_epochs].
  rewrite (run_modes_forget_patience ld 1 modes ModelTrainer.fresh
             (ModelTrainer.mk_state ModelTrainer.Inf 0 e1 0 None)
             (ModelTrainer.mk_state ModelTrainer.Inf 0 e2 0 None) l);
    try reflexivity; assumption.
Qed.

Lemma X20_patience_is_overwritten_witness :
  ModelTrainer.train 10
    (ModelTrainer.loader_of_losses [5; 4; 4; 6; 7; 7; 7; 7; 7; 7]%Q)
    [Train; Validate] 3
  = ModelTrainer.train 10
      (ModelTrainer.loader_of_losses [5; 4; 4; 6; 7; 7; 7; 7; 7; 7]%Q)
      [Train; Validate] 10.
Proof.
  apply (X20_patience_is_overwritten 10
           (ModelTrainer.loader_of_losses
              [5; 4; 4; 6; 7; 7; 7; 7; 7; 7]%Q)
           [Train; Validate] 3 10 (ModelTrainer.Fin 5)).
  - lia.
  - simpl. auto.
  - reflexivity.
  - discriminate.
Defined.



(** Batches without samples are another matter: the running loss is a
    tensor, the mean [0/0] is NaN and compares with nothing, so the
    counter goes down and the checkpoint of epoch 0 is what the final
    save writes. *)
Lemma zero_sample_batches_do_not_raise :
  ModelTrainer.train 2 (fun _ _ => [(ModelTrainer.Fin 1, 0)])
                     [Train; Validate] 10
  = ModelTrainer.Finished
      (ModelTrainer.mk_state ModelTrainer.Inf 0 8 2 (Some (0, 2%nat))).
Proof. vm_compute. reflexivity. Qed.

(** ** Evaluation, continued *)

Section Metrics.

Local Open Scope R_scope.

Lemma sum_nonneg (l : list R) :
  (forall v, In v l -> 0 <= v) -> 0 <= Np.sum l.
Proof.
  induction l as [|a l IH]; simpl; intros H; [lra|].
  assert (0 <= a) by (apply H; auto).
  assert (0 <= Np.sum l) by (apply IH; intros; apply H; auto).
  unfold Np.sum in *. lra.
Qed.

Lemma sum_zero_all (l : list R) :
  (forall v, In v l -> 0 <= v) -> Np.sum l = 0 ->
  forall v, In v l -> v = 0.
Proof.
  induction l as [|a l IH]; simpl; intros Hpos Hsum v Hv; [contradiction|].
  assert (Ha : 0 <= a) by (apply Hpos; auto).
  assert (Hl : 0 <= Np.sum l)
    by (apply sum_nonneg; intros; apply Hpos; auto).
  unfold Np.sum in *.
  destruct Hv as [<- | Hv]; [lra|].
  apply IH; auto. lra.
Qed.

Lemma mean_nonneg (l : list R) :
  l <> [] -> (forall v, In v l -> 0 <= v) -> 0 <= Np.mean l.
Proof.
  intros Hne Hpos. unfold Np.mean.
  apply Rmult_le_pos; [apply sum_nonneg; exact Hpos|].
  left. apply Rinv_0_lt_compat. apply lt_0_INR.
  destruct l; [contradiction | simpl; lia].
Qed.

Lemma mean_zero_iff (l : list R) :
  l <> [] -> (forall v, In v l -> 0 <= v) ->
  (Np.mean l = 0 <-> forall v, In v l -> v = 0).
Proof.
  intros Hne Hpos.
  assert (Hn : INR (List.length l) <> 0).
  { apply not_0_INR. destruct l; [contradiction | discriminate]. }
  unfold Np.mean. split.
  - intros H. apply sum_zero_all; [exact Hpos|].
    apply Rmult_integral in H as [H | H]; [exact H|].
    exfalso. apply (Rinv_neq_0_compat _ Hn H).
  - intros H. replace (Np.sum l) with 0; [unfold Rdiv; ring|].
    symmetry. clear Hne Hpos Hn. induction l as [|a l IH]; [reflexivity|].
    simpl. rewrite (H a) by (left; reflexivity).
    fold (Np.sum l). rewrite IH by (intros; apply H; right; assumption).
    ring.
Qed.

Lemma combine_eq_nil {X Y} (p : list X) (t : list Y) :
  List.length p = List.length t -> t <> [] -> combine p t <> [].
Proof.
  destruct p, t; simpl; try discriminate; try contradiction.
Qed.

Lemma combine_all_equal (p t : list R) :
  List.length p = List.length t ->
  (forall pt, In pt (combine p t) -> fst pt = snd pt) -> p = t.
Proof.
  revert t. induction p as [|a p IH]; intros [|b t] Hl H;
    try discriminate; [reflexivity|].
  simpl in *. f_equal.
  - apply (H (a, b)). auto.
  - apply IH; [lia|]. intros pt Hpt. apply H. auto.
Qed.

Lemma combine_diag (t : list R) (pt : R * R) :
  In pt (combine t t) -> fst pt = snd pt.
Proof.
  induction t as [|a t IH]; simpl; [contradiction|].
  intros [<- | H]; [reflexivity | apply IH, H].
Qed.



End Metrics.

(** X22.  For predictions and targets of the same non-zero size, in
    exact arithmetic: MSE and MAE are non-negative, RMSE squared is
    MSE, and each of MSE, RMSE and MAE is zero exactly when the
    prediction equals the target; MAPE of a prediction equal to its
    target is zero as long as no target is -1 (the added epsilon of 1
    makes a target of 0 harmless and moves the singular value to
    -1). *)
Theorem X22_metrics (y_pred y_true : list R) :
  List.length y_pred = List.length y_true -> y_true <> [] ->
  (0 <= ModelTrainer.MSE y_pred y_true)%R /\
  (0 <= ModelTrainer.MAE y_pred y_true)%R /\
  (ModelTrainer.RMSE y_pred y_true * ModelTrainer.RMSE y_pred y_true
   = ModelTrainer.MSE y_pred y_true)%R /\
  (ModelTrainer.MSE y_pred y_true = 0%R <-> y_pred = y_true) /\
  (ModelTrainer.RMSE y_pred y_true = 0%R <-> y_pred = y_true) /\
  (ModelTrainer.MAE y_pred y_true = 0%R <-> y_pred = y_true) /\
  ((forall v, In v y_true -> (v + 1 <> 0)%R) ->
   ModelTrainer.MAPE y_true y_true = 0%R).
Proof.
  intros Hl Hne.
  pose proof (combine_eq_nil y_pred y_true Hl Hne) as Hc.
  assert (Hmap : forall f : R * R -> R,
            map f (combine y_pred y_true) <> [])
    by (intros f H; apply map_eq_nil in H; contradiction).
  assert (Hsq : forall v,
            In v (map (fun pt => Rsqr (fst pt - snd pt))
                      (combine y_pred y_true)) -> (0 <= v)%R).
  { intros v Hv. apply in_map_iff in Hv as [pt [<- _]]. apply Rle_0_sqr. }
  assert (Hab : forall v,
            In v (map (fun pt => Rabs (fst pt - snd pt))
                      (combine y_pred y_true)) -> (0 <= v)%R).
  { intros v Hv. apply in_map_iff in Hv as [pt [<- _]]. apply Rabs_pos. }
  assert (Hmse0 : (0 <= ModelTrainer.MSE y_pred y_true)%R)
    by (apply mean_nonneg; [apply Hmap | exact Hsq]).
  assert (Hmse : ModelTrainer.MSE y_pred y_true = 0%R <-> y_pred = y_true).
  { unfold ModelTrainer.MSE, ModelTrainer.diffs.
    rewrite (mean_zero_iff _ (Hmap _) Hsq). split.
    - intros H. apply (combine_all_equal _ _ Hl). intros pt Hpt.
      assert (E : Rsqr (fst pt - snd pt) = 0%R)
        by (apply H; apply in_map_iff; eauto).
      apply Rsqr_0_uniq in E. lra.
    - intros -> v Hv. apply in_map_iff in Hv as [pt [<- Hpt]].
      rewrite (combine_diag _ _ Hpt). unfold Rsqr. ring. }
  split; [exact Hmse0|].
  split; [apply mean_nonneg; [apply Hmap | exact Hab]|].
  split; [apply sqrt_sqrt; exact Hmse0|].
  split; [exact Hmse|].
  split; [|split].
  - unfold ModelTrainer.RMSE. rewrite <- Hmse. split.
    + intros H. apply sqrt_eq_0; assumption.
    + intros ->. apply sqrt_0.
  - unfold ModelTrainer.MAE, ModelTrainer.diffs.
    rewrite (mean_zero_iff _ (Hmap _) Hab). split.
    + intros H. apply (combine_all_equal _ _ Hl). intros pt Hpt.
      assert (E : Rabs (fst pt - snd pt) = 0%R)
        by (apply H; apply in_map_iff; eauto).
      destruct (Req_dec (fst pt - snd pt) 0) as [E0|E0]; [lra|].
      apply Rabs_no_R0 in E0. contradiction.
    + intros -> v Hv. apply in_map_iff in Hv as [pt [<- Hpt]].
      rewrite (combine_diag _ _ Hpt).
      replace (snd pt - snd pt)%R with 0%R by ring. apply Rabs_R0.
  - intros Hden. unfold ModelTrainer.MAPE, ModelTrainer.diffs.
    assert (Hz : forall v,
              In v (map (fun pt => (Rabs (fst pt - snd pt)
                                    / (snd pt + 1))%R)
                        (combine y_true y_true)) -> v = 0%R).
    { intros v Hv. apply in_map_iff in Hv as [pt [<- Hpt]].
      rewrite (combine_diag _ _ Hpt).
      replace (snd pt - snd pt)%R with 0%R by ring.
      rewrite Rabs_R0. unfold Rdiv. ring. }
    unfold Np.mean.
    replace (Np.sum _) with 0%R; [unfold Rdiv; ring|].
    symmetry. revert Hz.
    generalize (map (fun pt => (Rabs (fst pt - snd pt) / (snd pt + 1))%R)
                    (combine y_true y_true)).
    induction l as [|a l IH]; intros Hz; [reflexivity|].
    simpl. rewrite (Hz a) by (left; reflexivity).
    fold (Np.sum l). rewrite IH by (intros; apply Hz; right; assumption).
    ring.
Qed.

Lemma X22_metrics_witness :
  (0 <= ModelTrainer.MSE [1; 1]%R [0; 1]%R)%R /\
  (ModelTrainer.RMSE [1; 1]%R [0; 1]%R * ModelTrainer.RMSE [1; 1]%R [0; 1]%R
   = ModelTrainer.MSE [1; 1]%R [0; 1]%R)%R /\
  ModelTrainer.MAPE [0; 1]%R [0; 1]%R = 0%R.
Proof.
  destruct (X22_metrics [1; 1]%R [0; 1]%R)
    as (H1 & _ & H3 & _ & _ & _ & H7).
  - reflexivity.
  - discriminate.
  - split; [exact H1|]. split; [exact H3|]. apply H7.
    intros v [<- | [<- | []]]; lra.
Defined.



(** ** Window generator: when it raises *)

Lemma mapM_Some_all {A B} (f : A -> option B) (l : list A) (bs : list B)
    (a : A) :
  Py.mapM f l = Some bs -> In a l -> exists b, f a = Some b.
Proof.
  revert bs. induction l as [|x l IH]; simpl; intros bs; [contradiction|].
  destruct (f x) as [b|] eqn:Ex; [|discriminate].
  destruct (Py.mapM f l) as [bs0|]; [|discriminate].
  intros _ [<- | Hin]; [eauto | apply (IH bs0 eq_refl Hin)].
Qed.

(** X24.  When [get_feats] raises.  With non-negative window lengths
    and timesteps per day, the deepest reads of the first sample are at
    [start_idx - daily_len^2 * day_timesteps] and
    [start_idx - 7 * weekly_len^2 * day_timesteps].  [get_feats] returns
    exactly when there is no sample at all or both of these are at
    least [-len(data)]: a read below zero but not below [-len(data)]
    does not raise, it is served from the end of the series. *)
Theorem X24_get_feats_returns_iff {A : Type} (g : DataGenerator.t)
    (data : list A) :
  0 <= DataGenerator.serial_len g -> 0 <= DataGenerator.daily_len g ->
  0 <= DataGenerator.weekly_len g -> 0 <= DataGenerator.day_timesteps g ->
  ((exists rows, DataGenerator.feats_rows g data = Some rows) <->
   (Py.len data <= DataGenerator.start_idx g \/
    (DataGenerator.daily_len g * DataGenerator.day_timesteps g
       * DataGenerator.daily_len g
     <= Py.len data + DataGenerator.start_idx g /\
     DataGenerator.weekly_len g * DataGenerator.day_timesteps g * 7
       * DataGenerator.weekly_len g
     <= Py.len data + DataGenerator.start_idx g))).
Proof.
  intros Hs Hd Hw Hp.
  pose proof (start_idx_max g) as (Hss & Hsd & Hsw).
  set (K := Py.len data) in *.
  set (d := DataGenerator.daily_len g) in *.
  set (w := DataGenerator.weekly_len g) in *.
  set (p := DataGenerator.day_timesteps g) in *.
  set (st := DataGenerator.start_idx g) in *.
  assert (HK : 0 <= K) by (unfold K, Py.len; lia).
  split.
  - intros [rows Hrows].
    destruct (Z_le_gt_dec K st) as [Hle|Hgt]; [left; exact Hle | right].
    assert (Hin : In st (DataGenerator.emitted g K))
      by (apply emitted_bounds; fold st; lia).
    destruct (mapM_Some_all _ _ _ _ Hrows Hin) as [smp Hsmp].
    unfold DataGenerator.feats_at, DataGenerator.get_periodic_skip_seq
      in Hsmp.
    destruct (Py.mapM (Py.index data)
                (DataGenerator.skip_reads g st DataGenerator.Daily))
      as [dl|] eqn:Edl; [|discriminate].
    destruct (Py.mapM (Py.index data)
                (DataGenerator.skip_reads g st DataGenerator.Weekly))
      as [wl|] eqn:Ewl; [|discriminate].
    split.
    + destruct (Z.eq_dec d 0) as [E0|E0]; [rewrite E0; lia|].
      assert (Hr : In (st - d * p * d)
                      (DataGenerator.skip_reads g st DataGenerator.Daily)).
      { simpl. apply in_map_iff. exists d. split; [reflexivity|].
        apply In_range. fold d. lia. }
      destruct (mapM_Some_all _ _ _ _ Edl Hr) as [x Hx].
      assert (Hb : - K <= st - d * p * d < K)
        by (apply (index_is_Some data); eauto).
      lia.
    + destruct (Z.eq_dec w 0) as [E0|E0]; [rewrite E0; lia|].
      assert (Hr : In (st - w * p * 7 * w)
                      (DataGenerator.skip_reads g st DataGenerator.Weekly)).
      { simpl. apply in_map_iff. exists w. split; [reflexivity|].
        apply In_range. fold w. lia. }
      destruct (mapM_Some_all _ _ _ _ Ewl Hr) as [x Hx].
      assert (Hb : - K <= st - w * p * 7 * w < K)
        by (apply (index_is_Some data); eauto).
      lia.
  - intros Hok. apply mapM_total. intros i Hi.
    apply emitted_bounds in Hi. fold st K in Hi.
    destruct Hok as [Hle | [Hdd Hww]]; [lia|].
    assert (Hread : forall q, exists l,
              Py.mapM (Py.index data) (DataGenerator.skip_reads g i q)
              = Some l).
    { intros q. apply mapM_total. intros k Hk. apply index_is_Some.
      fold K. destruct q; simpl in Hk;
        apply in_map_iff in Hk as [n [<- Hn]]; apply In_range in Hn.
      - fold d p in Hn |- *.
        assert (0 <= d * p) by nia.
        assert (d * p * n <= d * p * d) by nia.
        assert (0 <= d * p * n) by nia. lia.
      - fold w p in Hn |- *.
        assert (0 <= w * p * 7) by nia.
        assert (w * p * 7 * n <= w * p * 7 * w) by nia.
        assert (0 <= w * p * 7 * n) by nia. lia. }
    destruct (Hread DataGenerator.Daily) as [dl Hdl].
    destruct (Hread DataGenerator.Weekly) as [wl Hwl].
    assert (Hy : exists y, Py.index data i = Some y)
      by (apply index_is_Some; fold K; lia).
    destruct Hy as [y Hy].
    unfold DataGenerator.feats_at, DataGenerator.get_periodic_skip_seq.
    rewrite Hdl, Hwl, Hy. simpl. eauto.
Qed.

(** [dt = 12], [obs_len = (1, 3, 0)]: the deepest read of the first
    sample is at [6 - 18 = -12]; a series of 12 steps serves it, one of
    11 steps raises. *)
Lemma X24_get_feats_returns_iff_witness :
  (exists rows,
      DataGenerator.feats_rows (DataGenerator.mk 2 1 3 0) (iota 12)
      = Some rows) /\
  ~ (exists rows,
        DataGenerator.feats_rows (DataGenerator.mk 2 1 3 0) (iota 11)
        = Some rows).
Proof.
  assert (H0 : 0 <= 0) by lia. assert (H1 : 0 <= 1) by lia.
  assert (H2 : 0 <= 2) by lia. assert (H3 : 0 <= 3) by lia.
  split.
  - apply (proj2 (X24_get_feats_returns_iff (DataGenerator.mk 2 1 3 0)
                    (iota 12) H1 H3 H0 H2)).
    right. vm_compute. split; discriminate.
  - intros H.
    apply (proj1 (X24_get_feats_returns_iff (DataGenerator.mk 2 1 3 0)
                    (iota 11) H1 H3 H0 H2)) in H.
    vm_compute in H. destruct H as [H | [H _]]; apply H; reflexivity.
Defined.
